(** * IL6 control catalog: layout-to-record reconstruction

    A shallow embedding of the extraction scripts of the repository
    (table pipeline [extract_cnssi_1253.py], the superseded overlay
    extractors, the 2022 classified-information extractor and
    [nist_sorter.py]) together with the properties of their record
    reconstruction logic.

    Conventions.  A Python [str] is a [string]; a character is a code point
    below 256, and the character classes of [str.strip], [str.lower] and of
    the [re] module are the ones Python uses on that range.  A table cell is
    [option string] ([None] or a [str]).  A [dict] used as a store is a
    [gmap]; a [dict] whose iteration order is read is an association list. *)

From Stdlib Require Import String Ascii List Bool Arith Lia NArith Permutation Sorted.
From Stdlib Require Import DecimalString DecimalPos DecimalN.
From stdpp Require Import base option list gmap strings.
Import ListNotations.

Local Open Scope string_scope.
Local Open Scope nat_scope.

(* ===================================================================== *)
(** * Python string primitives *)
(* ===================================================================== *)

Module Py.

(** Truthiness of a [str] and of an optional [str]. *)
Definition truthy (s : string) : bool :=
  match s with EmptyString => false | String _ _ => true end.

Definition truthy_opt (c : option string) : bool :=
  match c with Some s => truthy s | None => false end.

(** [str.isspace] on one character (code points 9-13, 28-32, 133, 160). *)
Definition isspace (c : ascii) : bool :=
  let n := nat_of_ascii c in
  ((9 <=? n) && (n <=? 13)) || ((28 <=? n) && (n <=? 32))
  || (n =? 133) || (n =? 160).

Definition isdigit (c : ascii) : bool :=
  let n := nat_of_ascii c in (48 <=? n) && (n <=? 57).

Definition isupper_az (c : ascii) : bool :=
  let n := nat_of_ascii c in (65 <=? n) && (n <=? 90).

(** [str.lower] on one character. *)
Definition lower_char (c : ascii) : ascii :=
  let n := nat_of_ascii c in
  if ((65 <=? n) && (n <=? 90))
     || ((192 <=? n) && (n <=? 222) && negb (n =? 215))
  then ascii_of_nat (n + 32) else c.

Fixpoint lower (s : string) : string :=
  match s with
  | EmptyString => EmptyString
  | String c s' => String (lower_char c) (lower s')
  end.

(** [s.lstrip()], [s.rstrip()], [s.strip()]. *)
Fixpoint lstrip (s : string) : string :=
  match s with
  | EmptyString => EmptyString
  | String c s' => if isspace c then lstrip s' else s
  end.

Fixpoint rstrip (s : string) : string :=
  match s with
  | EmptyString => EmptyString
  | String c s' =>
      match rstrip s' with
      | EmptyString => if isspace c then EmptyString else String c EmptyString
      | r => String c r
      end
  end.

Definition strip (s : string) : string := rstrip (lstrip s).

(** [s.startswith(p)] and [sub in s]. *)
Definition startswith (s p : string) : bool := String.prefix p s.

Fixpoint contains (sub s : string) : bool :=
  String.prefix sub s
  || match s with
     | EmptyString => false
     | String _ s' => contains sub s'
     end.

(** [s[n:]]. *)
Fixpoint drop (n : nat) (s : string) : string :=
  match n, s with
  | O, _ => s
  | S n', String _ s' => drop n' s'
  | S _, EmptyString => EmptyString
  end.

(** [s.split(sep)] for a one-character separator. *)
Fixpoint split (sep : ascii) (s : string) : list string :=
  match s with
  | EmptyString => [EmptyString]
  | String c s' =>
      if Ascii.eqb c sep then EmptyString :: split sep s'
      else match split sep s' with
           | h :: t => String c h :: t
           | [] => [String c EmptyString]
           end
  end.

(** [x in [a, b, ...]] for strings. *)
Definition str_in (x : string) (l : list string) : bool :=
  existsb (String.eqb x) l.

(** [int(s)] on a non-empty string of decimal digits.  CPython converts a
    string of at most [sys.int_info.default_max_str_digits] = 4300 digits
    (leading zeros count) and raises [ValueError] on a longer one; [None]
    stands for the exception. *)
Definition digit_value (c : ascii) : N := N.of_nat (nat_of_ascii c - 48).

Fixpoint int_acc (acc : N) (s : string) : N :=
  match s with
  | EmptyString => acc
  | String c s' => int_acc (10 * acc + digit_value c)%N s'
  end.

Definition max_str_digits : N := 4300%N.

Definition int (s : string) : option N :=
  if (max_str_digits <? N.of_nat (String.length s))%N then None
  else Some (int_acc 0%N s).

(** Every character of [s] is in the class [p]. *)
Fixpoint all_chars (p : ascii -> bool) (s : string) : bool :=
  match s with
  | EmptyString => true
  | String c s' => p c && all_chars p s'
  end.

(** [enumerate(l)]. *)
Fixpoint enumerate_from {A} (i : nat) (l : list A) : list (nat * A) :=
  match l with
  | [] => []
  | x :: t => (i, x) :: enumerate_from (S i) t
  end.

Definition enumerate {A} (l : list A) : list (nat * A) := enumerate_from 0 l.

End Py.

(* ===================================================================== *)
(** * The fragment of Python's [re] the scripts use *)
(* ===================================================================== *)

Module Re.

(** Patterns.  [Eos] is [$] (end of the string, or just before a newline that
    ends it).  [re.match] anchors at position 0, where a leading [^] holds,
    so [^] has no node of its own.  A bounded repetition is written out with
    [Seq] and [Opt]. *)
Inductive regex : Type :=
| Eps
| Cls (p : ascii -> bool)
| Seq (a b : regex)
| Alt (a b : regex)
| Star (a : regex)
| Grp (i : nat) (a : regex)
| Eos.

Declare Scope re_scope.
Delimit Scope re_scope with re.
Bind Scope re_scope with regex.
Infix "~>" := Seq (at level 60, right associativity) : re_scope.

Definition Opt (a : regex) : regex := Alt a Eps.
Definition Plus (a : regex) : regex := Seq a (Star a).

(** Character classes. *)
Definition lit (c : ascii) : regex := Cls (Ascii.eqb c).
Definition ilit (c : ascii) : regex :=
  Cls (fun x => Ascii.eqb (Py.lower_char x) (Py.lower_char c)).
Definition digit : regex := Cls Py.isdigit.          (* \d *)
Definition space : regex := Cls Py.isspace.          (* \s *)
Definition upper : regex := Cls Py.isupper_az.       (* [A-Z] *)
Definition dot : regex :=                            (* . *)
  Cls (fun x => negb (Ascii.eqb x "010")).
Definition notc (c : ascii) : regex :=               (* [^c] *)
  Cls (fun x => negb (Ascii.eqb x c)).

(** A literal word under [re.IGNORECASE]. *)
Fixpoint iword (s : string) : regex :=
  match s with
  | EmptyString => Eps
  | String c s' => Seq (ilit c) (iword s')
  end.

(** Captured groups of a match. *)
Abbreviation groups := (gmap nat string).

(** The part of [s] consumed when [s'] is what is left of it. *)
Definition consumed (s s' : string) : string :=
  String.substring 0 (String.length s - String.length s') s.

(** Greedy repetition of a matcher [body]: one more round first, then
    none.  A round that consumes nothing is not repeated.  The fuel is the
    length of the input, which every repeated round shortens. *)
Fixpoint star_loop (body : string -> groups -> list (string * groups))
    (n : nat) (s : string) (g : groups) {struct n} : list (string * groups) :=
  match n with
  | O => [(s, g)]
  | S n' =>
      (flat_map
         (fun x =>
            if String.length (fst x) <? String.length s
            then star_loop body n' (fst x) (snd x) else [])
         (body s g)
       ++ [(s, g)])%list
  end.

(** [run r s g]: every way [r] matches a prefix of [s], as the remaining
    input and the groups, in the order a backtracking matcher tries them
    (greedy repetition, left alternative first). *)
Fixpoint run (r : regex) (s : string) (g : groups) {struct r}
  : list (string * groups) :=
  match r with
  | Eps => [(s, g)]
  | Cls p =>
      match s with
      | String c s' => if p c then [(s', g)] else []
      | EmptyString => []
      end
  | Seq a b => flat_map (fun x => run b (fst x) (snd x)) (run a s g)
  | Alt a b => (run a s g ++ run b s g)%list
  | Star a => star_loop (run a) (String.length s) s g
  | Grp i a =>
      map (fun x => (fst x, <[i := consumed s (fst x)]> (snd x))) (run a s g)
  | Eos =>
      match s with
      | EmptyString => [(s, g)]
      | String "010" EmptyString => [(s, g)]
      | _ => []
      end
  end.

(** [re.match(r, s)]: the first way, if any. *)
Definition re_match (r : regex) (s : string) : option groups :=
  match run r s ∅ with
  | [] => None
  | x :: _ => Some (snd x)
  end.

(** [m.group(i)] for a group that took part in the match. *)
Definition group (m : groups) (i : nat) : string := default "" (m !! i).

(** The matches of a pattern as a relation: [matches r s g s' g'] when [r]
    can consume a prefix of [s], leaving [s'] and turning the groups [g]
    into [g']. *)
Inductive matches : regex -> string -> groups -> string -> groups -> Prop :=
| m_eps s g : matches Eps s g s g
| m_cls p c s g : p c = true -> matches (Cls p) (String c s) g s g
| m_seq a b s g s1 g1 s2 g2 :
    matches a s g s1 g1 -> matches b s1 g1 s2 g2 -> matches (Seq a b) s g s2 g2
| m_alt_l a b s g s1 g1 : matches a s g s1 g1 -> matches (Alt a b) s g s1 g1
| m_alt_r a b s g s1 g1 : matches b s g s1 g1 -> matches (Alt a b) s g s1 g1
| m_star_stop a s g : matches (Star a) s g s g
| m_star_more a s g s1 g1 s2 g2 :
    matches a s g s1 g1 -> String.length s1 < String.length s ->
    matches (Star a) s1 g1 s2 g2 -> matches (Star a) s g s2 g2
| m_grp i a s g s1 g1 :
    matches a s g s1 g1 -> matches (Grp i a) s g s1 (<[i := consumed s s1]> g1)
| m_eos_end g : matches Eos EmptyString g EmptyString g
| m_eos_newline g :
    matches Eos (String "010" EmptyString) g (String "010" EmptyString) g.

End Re.

(* ===================================================================== *)
(** * Table pipeline: [cnssi_1253/extract_cnssi_1253.py] *)
(* ===================================================================== *)

Module Cnssi1253.

Import Re.

(** A cell of an extracted table is [None] or a [str]; a row is a list. *)
Abbreviation cell := (option string).
Abbreviation row := (list cell).

(** The keys of [TableStructure.ranges] are the strings [f'{cia}-{level}']
    with [cia] one of C, I, A and [level] one of L, M, H: a pair here. *)
Inductive cia : Type := C | I | A.
Inductive level : Type := L | M | H.

Definition cia_eqb (x y : cia) : bool :=
  match x, y with C, C | I, I | A, A => true | _, _ => false end.
Definition level_eqb (x y : level) : bool :=
  match x, y with L, L | M, M | H, H => true | _, _ => false end.
Definition key_eqb (x y : cia * level) : bool :=
  cia_eqb (fst x) (fst y) && level_eqb (snd x) (snd y).

(** [class TableStructure].  [ranges] keeps the insertion order of the
    dictionary, which [parse_control_row] iterates. *)
Record TableStructure : Type := {
  ranges : list ((cia * level) * (nat * nat));
  justification_col : option nat;
  param_value_col : option nat
}.

(** [d[k] = v] on an insertion-ordered dictionary. *)
Fixpoint dict_set (k : cia * level) (v : nat * nat)
    (d : list ((cia * level) * (nat * nat))) : list ((cia * level) * (nat * nat)) :=
  match d with
  | [] => [(k, v)]
  | (k', v') :: t =>
      if key_eqb k' k then (k', v) :: t else (k', v') :: dict_set k v t
  end.

(** [cell and str(cell).strip()] as a token of the header. *)
Definition cia_token (c : cell) : option cia :=
  match c with
  | Some s =>
      if Py.truthy s then
        let t := Py.strip s in
        if String.eqb t "C" then Some C
        else if String.eqb t "I" then Some I
        else if String.eqb t "A" then Some A
        else None
      else None
  | None => None
  end.

Definition lmh_token (c : cell) : option level :=
  match c with
  | Some s =>
      if Py.truthy s then
        let t := Py.strip s in
        if String.eqb t "L" then Some L
        else if String.eqb t "M" then Some M
        else if String.eqb t "H" then Some H
        else None
      else None
  | None => None
  end.

(** The dictionary [cia_positions] of lines 25-29 (last position of each
    anchor).  The rest of the function never reads it. *)
Definition cia_positions (header_rows : list row) : list (cia * nat) :=
  match header_rows with
  | _ :: r1 :: _ =>
      fold_left
        (fun acc ic =>
           match cia_token (snd ic) with
           | Some k =>
               (filter (fun p => negb (cia_eqb (fst p) k)) acc ++ [(k, fst ic)])%list
           | None => acc
           end)
        (Py.enumerate r1) []
  | _ => []
  end.

(** Lines 33-36: the columns of the third header row that hold L, M or H. *)
Fixpoint lmh_scan (cells : list (nat * cell)) : list (nat * level) :=
  match cells with
  | [] => []
  | (i, c) :: t =>
      match lmh_token c with
      | Some l => (i, l) :: lmh_scan t
      | None => lmh_scan t
      end
  end.

Definition lmh_positions (r : row) : list (nat * level) :=
  lmh_scan (Py.enumerate r).

(** Lines 50-57: the end of the range that starts at [col]. *)
Definition range_end (lmh : list (nat * level)) (col : nat) : nat :=
  match List.find (fun p => col <? fst p) lmh with
  | Some p => fst p - 1
  | None => col + 2
  end.

Definition cia_list : list cia := [C; I; A].

(** Lines 44-65: the loop state is the dictionary, [cia_idx] and
    [level_count]. *)
Definition range_step (lmh : list (nat * level))
    (st : list ((cia * level) * (nat * nat)) * nat * nat) (p : nat * level)
  : list ((cia * level) * (nat * nat)) * nat * nat :=
  let '(rs, cia_idx, level_count) := st in
  match nth_error cia_list cia_idx with
  | Some c =>
      let rs' := dict_set (c, snd p) (fst p, range_end lmh (fst p)) rs in
      let level_count' := level_count + 1 in
      if 3 <=? level_count' then (rs', cia_idx + 1, 0)
      else (rs', cia_idx, level_count')
  | None => st
  end.

Definition build_ranges (lmh : list (nat * level))
  : list ((cia * level) * (nat * nat)) :=
  fst (fst (fold_left (range_step lmh) lmh ([], 0, 0))).

(** Lines 67-75: the last cell of the first header row that mentions
    "justification", and the last one that mentions "parameter" without
    mentioning "justification". *)
Definition text_col_step (st : option nat * option nat) (ic : nat * cell)
  : option nat * option nat :=
  match snd ic with
  | Some s =>
      if Py.truthy s then
        let cell_str := Py.lower (Py.strip s) in
        if Py.contains "justification" cell_str then (Some (fst ic), snd st)
        else if Py.contains "parameter" cell_str then (fst st, Some (fst ic))
        else st
      else st
  | None => st
  end.

Definition detect_table_structure (header_rows : list row) : TableStructure :=
  let rs :=
    match header_rows with
    | _ :: _ :: r2 :: _ => build_ranges (lmh_positions r2)
    | _ => []
    end in
  let jp :=
    match header_rows with
    | r0 :: _ => fold_left text_col_step (Py.enumerate r0) (None, None)
    | [] => (None, None)
    end in
  {| ranges := rs; justification_col := fst jp; param_value_col := snd jp |}.

(** The records [parse_control_row] returns. *)
Record Levels : Type := { low : bool; moderate : bool; high : bool }.

Record Selections : Type := {
  confidentiality : Levels;
  integrity : Levels;
  availability : Levels;
  special_text : option string
}.

Record ControlRecord : Type := {
  control_id : string;
  title : string;
  selected : bool;
  selections : Selections;
  parameter_value : option string;
  justification : option string;
  withdrawn : option bool      (* the key is present only when withdrawn *)
}.

(** Line 95: [^[A-Z]{2}-\d+(\(\d+\))?$]. *)
Definition control_id_pattern : regex :=
  (upper ~> upper ~> lit "-" ~> Plus digit
   ~> Opt (Grp 1 (lit "(" ~> Plus digit ~> lit ")")) ~> Eos)%re.

(** Lines 93-96 on one cell: the stripped text when it is an identifier. *)
Definition match_control_id (c : cell) : option string :=
  match c with
  | Some s =>
      if Py.truthy s then
        let potential_id := Py.strip s in
        match re_match control_id_pattern potential_id with
        | Some _ => Some potential_id
        | None => None
        end
      else None
  | None => None
  end.

(** Lines 90-98: the first of the first four cells that is an identifier,
    with its column. *)
Fixpoint find_control_id (cells : list (nat * cell)) : option (string * nat) :=
  match cells with
  | [] => None
  | (i, c) :: t =>
      match match_control_id c with
      | Some cid => Some (cid, i)
      | None => find_control_id t
      end
  end.

(** Lines 104-109: the first non-blank cell among the four after the
    identifier. *)
Fixpoint find_title (r : row) (control_col_idx : nat) (offsets : list nat) : string :=
  match offsets with
  | [] => ""
  | offset :: t =>
      match r !! (control_col_idx + offset) with
      | Some (Some s) =>
          if Py.truthy s && Py.truthy (Py.strip s) then Py.strip s
          else find_title r control_col_idx t
      | _ => find_title r control_col_idx t
      end
  end.

(** Line 112: [control_id.split('-')[0]]. *)
Definition family_of (cid : string) : string := hd "" (Py.split "-" cid).

Definition pm_text : string :=
  "Deployed organization-wide. Supports information security program. Not associated with security control baselines. Independent of any system impact level.".
Definition pt_text : string :=
  "Personally Identifiable Information Processing and Transparency control are not allocated to the security control baselines.".

(** Lines 129-133. *)
Definition is_selected (val : cell) : bool :=
  match val with
  | None => false
  | Some s => Py.str_in (Py.strip s) ["X"; "+"]
  end.

Definition no_levels : Levels := {| low := false; moderate := false; high := false |}.

Definition set_level (l : level) (x : Levels) : Levels :=
  match l with
  | L => {| low := true; moderate := moderate x; high := high x |}
  | M => {| low := low x; moderate := true; high := high x |}
  | H => {| low := low x; moderate := moderate x; high := true |}
  end.

Definition set_selection (k : cia * level) (s : Selections) : Selections :=
  match fst k with
  | C => {| confidentiality := set_level (snd k) (confidentiality s);
            integrity := integrity s; availability := availability s;
            special_text := special_text s |}
  | I => {| confidentiality := confidentiality s;
            integrity := set_level (snd k) (integrity s);
            availability := availability s; special_text := special_text s |}
  | A => {| confidentiality := confidentiality s; integrity := integrity s;
            availability := set_level (snd k) (availability s);
            special_text := special_text s |}
  end.

(** Lines 136-148: a marked cell sets the level of the first range that
    holds its column. *)
Definition mark_step (structure : TableStructure) (s : Selections) (ic : nat * cell)
  : Selections :=
  if is_selected (snd ic) then
    match List.find (fun kr => (fst (snd kr) <=? fst ic) && (fst ic <=? snd (snd kr)))
                    (ranges structure) with
    | Some kr => set_selection (fst kr) s
    | None => s
    end
  else s.

Definition any_level (x : Levels) : bool := low x || moderate x || high x.

(** Lines 151-165, for either column. *)
Definition text_column (col : option nat) (r : row) : option string :=
  match col with
  | Some n =>
      if negb (n =? 0) && (n <? length r) then
        match r !! n with
        | Some (Some s) =>
            if Py.truthy s then
              let t := Py.strip s in
              if Py.truthy t && negb (Py.str_in t [""; "None"; "X"; "+"])
              then Some t else None
            else None
        | _ => None
        end
      else None
  | None => None
  end.

(** Line 85. *)
Definition is_withdrawn (r : row) : bool :=
  existsb (fun c => match c with
                    | Some s => Py.truthy s && Py.contains "Withdrawn" s
                    | None => false
                    end) r.

(** Lines 89-202, once the withdrawn marker has been looked for. *)
Definition parse_control_row_from (withdrawn_flag : bool) (r : row)
    (structure : TableStructure) : option ControlRecord :=
  match find_control_id (firstn (Nat.min 4 (length r)) (Py.enumerate r)) with
  | None => None
  | Some (cid, control_col_idx) =>
      let title := find_title r control_col_idx [1; 2; 3; 4] in
      let family := family_of cid in
      let special_case_text :=
        if String.eqb family "PM" then Some pm_text
        else if String.eqb family "PT" then Some pt_text
        else None in
      let sel0 := {| confidentiality := no_levels; integrity := no_levels;
                     availability := no_levels; special_text := None |} in
      let sel := fold_left (mark_step structure) (Py.enumerate r) sel0 in
      let justification := text_column (justification_col structure) r in
      let parameter_value := text_column (param_value_col structure) r in
      let selected :=
        any_level (confidentiality sel) || any_level (integrity sel)
        || any_level (availability sel) in
      let selected :=
        if String.eqb family "PM" then true
        else if String.eqb family "PT" then false
        else selected in
      let selected := if withdrawn_flag then false else selected in
      let sel :=
        match special_case_text with
        | Some t => {| confidentiality := confidentiality sel;
                       integrity := integrity sel;
                       availability := availability sel;
                       special_text := Some t |}
        | None => sel
        end in
      Some {| control_id := cid; title := title; selected := selected;
              selections := sel; parameter_value := parameter_value;
              justification := justification;
              withdrawn := if withdrawn_flag then Some true else None |}
  end.

(** [parse_control_row]. *)
Definition parse_control_row (r : row) (structure : TableStructure)
  : option ControlRecord :=
  if length r <? 10 then None
  else parse_control_row_from (is_withdrawn r) r structure.

(** Lines 311-313 of [extract_cnssi_1253_2022]: the controls of a page go
    into [all_controls] under their identifier. *)
Definition store_controls (all_controls : gmap string ControlRecord)
    (controls : list ControlRecord) : gmap string ControlRecord :=
  fold_left (fun m c => <[control_id c := c]> m) controls all_controls.

End Cnssi1253.

(* ===================================================================== *)
(** * Record store of [cnssi_1253/superseded/cnssi_1253_overlay_extractor.py] *)
(* ===================================================================== *)

Module CnssiOverlay.

(** A stored record, and the dictionary [_parse_control_group] returns. *)
Record entry : Type := { control_text : string; defined_value : string }.

Record control_data : Type := {
  cd_id : string;
  cd_control_text : string;
  cd_defined_value : string
}.

(** Lines 195-199 (and 201-205): one text field of an existing record. *)
Definition merge_text (existing incoming : string) : string :=
  if Py.truthy incoming && Py.truthy (Py.strip incoming) then
    if Py.truthy existing then Py.strip (existing ++ " " ++ incoming)
    else incoming
  else existing.

(** Lines 182-205: insert a new identifier as it is, merge into an
    existing one. *)
Definition upsert (controls : gmap string entry) (cd : control_data)
  : gmap string entry :=
  match controls !! cd_id cd with
  | None =>
      <[cd_id cd := {| control_text := cd_control_text cd;
                       defined_value := cd_defined_value cd |}]> controls
  | Some existing =>
      <[cd_id cd :=
          {| control_text := merge_text (control_text existing) (cd_control_text cd);
             defined_value := merge_text (defined_value existing) (cd_defined_value cd) |}]>
        controls
  end.

Section Finalize.

(** The layout elements and [_parse_control_group], which reads their
    coordinates; an exception inside it is caught by the caller and
    leaves the store alone, like [None]. *)
Variable element : Type.
Variable parse_control_group : list element -> nat -> option control_data.

Record extractor : Type := {
  controls : gmap string entry;
  current_control_id : option string;
  current_control_elements : list element
}.

(** [_finalize_current_control]. *)
Definition finalize_current_control (self : extractor) (last_page : nat)
  : extractor :=
  if negb (Py.truthy_opt (current_control_id self))
     || match current_control_elements self with [] => true | _ => false end
  then self
  else
    {| controls :=
         match parse_control_group (current_control_elements self) last_page with
         | Some cd => upsert (controls self) cd
         | None => controls self
         end;
       current_control_id := None;
       current_control_elements := [] |}.

End Finalize.

End CnssiOverlay.

(* ===================================================================== *)
(** * Line pipeline of
      [classified_information/superseded/classified_information_overlay_extractor.py] *)
(* ===================================================================== *)

Module ClassifiedOverlay.

Import Re.

Record control_info : Type := {
  name : string;
  attributes : gmap string string;
  page : nat
}.

(** One formatted line: its text and the bold flag of each span. *)
Record line_data : Type := { text : string; formats : list bool }.

(** The fields of [ClassifiedControlExtractor] the line loop uses. *)
Record extractor : Type := {
  controls : gmap string control_info;
  current_control : option string;
  current_base_control : option string;
  current_attribute : option string
}.

(** Line 117: [^([A-Z]{2}-\d{1,2}),?\s*(.+)$]. *)
Definition base_control_pattern : regex :=
  (Grp 1 (upper ~> upper ~> lit "-" ~> digit ~> Opt digit)
   ~> Opt (lit ",") ~> Star space ~> Grp 2 (Plus dot) ~> Eos)%re.

(** The group of listed numbers shared by the five patterns: one or more
    digits, then any number of times a comma, optional blanks and digits. *)
Definition numbers : regex :=
  Grp 1 (Plus digit ~> Star (lit "," ~> Star space ~> Plus digit))%re.

(** Lines 95-101, matched with [re.IGNORECASE]. *)
Definition enhancement_patterns : list regex :=
  [ (iword "Control Enhancement:" ~> Star space ~> numbers ~> Eos)%re;
    (iword "Control" ~> Plus space ~> iword "Enhancement:" ~> Star space
     ~> numbers ~> Eos)%re;
    (iword "Control" ~> Star space ~> iword "Enhancement" ~> Star space
     ~> lit ":" ~> Star space ~> numbers ~> Eos)%re;
    (iword "Control Enhancement" ~> Star space ~> lit ":" ~> Star space
     ~> numbers ~> Star dot ~> Eos)%re;
    (iword "Control Enhancement" ~> Star space ~> lit ":" ~> Star space
     ~> numbers ~> Star space ~> Eos)%re ].

(** [_flexible_enhancement_match]: the first pattern that matches. *)
Fixpoint first_match (patterns : list regex) (line_text : string) : option groups :=
  match patterns with
  | [] => None
  | p :: t =>
      match re_match p line_text with
      | Some m => Some m
      | None => first_match t line_text
      end
  end.

Definition flexible_enhancement_match (line_text : string) : option groups :=
  first_match enhancement_patterns line_text.

Definition known_attributes : list string :=
  [ "Justification to Select";
    "Supplemental Guidance";
    "Parameter Value(s)";
    "Parameter Value";
    "Regulatory/Statutory Reference(s)";
    "Control Extension";
    "Control Extension(s)";
    "Control Extension and Parameter Value(s)" ].

(** [_extract_attribute_from_line]. *)
Fixpoint extract_attribute_from (attrs : list string) (line_text : string)
  : option (string * string) :=
  match attrs with
  | [] => None
  | attr :: t =>
      if Py.startswith line_text (attr ++ ":")
      then Some (attr, Py.strip (Py.drop (String.length attr + 1) line_text))
      else extract_attribute_from t line_text
  end.

Definition extract_attribute_from_line (line_text : string) : option (string * string) :=
  extract_attribute_from known_attributes line_text.

(** What one line does: the next state, or the state at the point where a
    [KeyError] leaves the loop ([_process_page] swallows it). *)
Inductive outcome : Type :=
| Next (self : extractor)
| Raised (self : extractor).

(** Lines 134-142, for one listed number. *)
Definition add_enhancement (base : string) (page_num : nat)
    (ctls : gmap string control_info) (enhancement_num : string)
  : gmap string control_info :=
  let enhancement_id := base ++ "(" ++ Py.strip enhancement_num ++ ")" in
  let base_name :=
    match ctls !! base with Some info => name info | None => "" end in
  <[enhancement_id := {| name := base_name; attributes := ∅; page := page_num |}]> ctls.

Definition with_attributes (info : control_info) (attrs : gmap string string)
  : control_info :=
  {| name := name info; attributes := attrs; page := page info |}.

(** The body of the loop of [_find_controls_and_attributes], lines 113-163. *)
Definition process_line (self : extractor) (ld : line_data) (page_num : nat)
  : outcome :=
  let line_text := text ld in
  let is_bold := existsb (fun b => b) (formats ld) in
  let base_control_match := re_match base_control_pattern line_text in
  let enhancement_match := flexible_enhancement_match line_text in
  match base_control_match, is_bold, enhancement_match with
  | Some m, true, _ =>
      let cid := group m 1 in
      let control_name := Py.strip (group m 2) in
      Next {| controls :=
                <[cid := {| name := control_name; attributes := ∅;
                            page := page_num |}]> (controls self);
              current_control := Some cid;
              current_base_control := Some cid;
              current_attribute := None |}
  | _, _, Some m =>
      match current_base_control self with
      | Some base =>
          if Py.truthy base then
            let enhancement_numbers := Py.split "," (group m 1) in
            Next {| controls :=
                      fold_left (add_enhancement base page_num)
                                enhancement_numbers (controls self);
                    current_control :=
                      Some (base ++ "(" ++ Py.strip (List.last enhancement_numbers "")
                                 ++ ")");
                    current_base_control := current_base_control self;
                    current_attribute := None |}
          else Next self
      | None => Next self
      end
  | _, _, None =>
      if Py.truthy_opt (current_control self) && Py.contains ":" line_text then
        match extract_attribute_from_line line_text with
        | Some (attr_name, attr_content) =>
            let cur := default "" (current_control self) in
            match controls self !! cur with
            | None => Raised self
            | Some info =>
                match attributes info !! attr_name with
                | Some old =>
                    Next {| controls :=
                              <[cur := with_attributes info
                                  (<[attr_name := old ++ " " ++ Py.strip attr_content]>
                                     (attributes info))]> (controls self);
                            current_control := current_control self;
                            current_base_control := current_base_control self;
                            current_attribute := current_attribute self |}
                | None =>
                    Next {| controls :=
                              <[cur := with_attributes info
                                  (<[attr_name := Py.strip attr_content]>
                                     (attributes info))]> (controls self);
                            current_control := current_control self;
                            current_base_control := current_base_control self;
                            current_attribute := Some attr_name |}
                end
            end
        | None => Next self
        end
      else if Py.truthy_opt (current_control self)
              && Py.truthy_opt (current_attribute self)
              && Py.truthy (Py.strip line_text) then
        if negb (bool_decide (is_Some base_control_match)
                 || bool_decide (is_Some enhancement_match)
                 || bool_decide (is_Some (extract_attribute_from_line line_text)))
        then
          let cur := default "" (current_control self) in
          let attr := default "" (current_attribute self) in
          match controls self !! cur with
          | None => Raised self
          | Some info =>
              match attributes info !! attr with
              | None => Raised self
              | Some old =>
                  Next {| controls :=
                            <[cur := with_attributes info
                                (<[attr := old ++ " " ++ Py.strip line_text]>
                                   (attributes info))]> (controls self);
                          current_control := current_control self;
                          current_base_control := current_base_control self;
                          current_attribute := current_attribute self |}
              end
          end
        else Next self
      else Next self
  end.

(** [_find_controls_and_attributes]. *)
Fixpoint find_controls_and_attributes (self : extractor)
    (formatted_text : list line_data) (page_num : nat) : outcome :=
  match formatted_text with
  | [] => Next self
  | ld :: rest =>
      match process_line self ld page_num with
      | Next self' => find_controls_and_attributes self' rest page_num
      | Raised self' => Raised self'
      end
  end.

(** [_process_page], after the text of the page has been extracted. *)
Definition process_page (self : extractor) (formatted_text : list line_data)
    (page_num : nat) : extractor :=
  match find_controls_and_attributes self formatted_text page_num with
  | Next self' => self'
  | Raised self' => self'
  end.

End ClassifiedOverlay.

(* ===================================================================== *)
(** * Line pipeline of [classified_information/extract_classified_information.py] *)
(* ===================================================================== *)

Module Classified2022.

Import Re.

(** Line 31: [^([A-Z]{2}-\d{1,2}(?:\(\d+\))?),\s*(.+)$]. *)
Definition header_pattern : regex :=
  (Grp 1 (upper ~> upper ~> lit "-" ~> digit ~> Opt digit
          ~> Opt (lit "(" ~> Plus digit ~> lit ")"))
   ~> lit "," ~> Star space ~> Grp 2 (Plus dot) ~> Eos)%re.

(** Line 39: [^\([^)]+\)\s*(.+)$]. *)
Definition family_pattern : regex :=
  (lit "(" ~> Plus (notc ")") ~> lit ")" ~> Star space ~> Grp 1 (Plus dot) ~> Eos)%re.

(** [parse_control_header]. *)
Definition parse_control_header (text : string) : option (string * string) :=
  match re_match header_pattern (Py.strip text) with
  | Some m =>
      let control_name := Py.strip (group m 2) in
      match re_match family_pattern control_name with
      | Some fm => Some (group m 1, group fm 1)
      | None => Some (group m 1, control_name)
      end
  | None => None
  end.

Inductive field : Type := Justification | ParameterValue | Guidance | References.

Record control : Type := {
  control_id : string;
  name : string;
  selected : bool;
  justification : option string;
  parameter_value : option string;
  guidance : option string;
  references : option string
}.

Definition get_field (f : field) (c : control) : option string :=
  match f with
  | Justification => justification c
  | ParameterValue => parameter_value c
  | Guidance => guidance c
  | References => references c
  end.

Definition set_field (f : field) (v : option string) (c : control) : control :=
  {| control_id := control_id c; name := name c; selected := selected c;
     justification := match f with Justification => v | _ => justification c end;
     parameter_value := match f with ParameterValue => v | _ => parameter_value c end;
     guidance := match f with Guidance => v | _ => guidance c end;
     references := match f with References => v | _ => references c end |}.

(** The cursor of the loop of [extract_controls_from_pdf]. *)
Record cursor : Type := {
  controls : gmap string control;
  current_control : option string;
  current_field : option field
}.

(** What one line does: go on, return at the heading of Section 7, or fail
    on a missing key. *)
Inductive outcome : Type :=
| Next (st : cursor)
| Stop (st : cursor)
| Raised.

(** [str.isdigit] on one character (the digits and the superscripts
    two, three and one). *)
Definition isdigit_char (c : ascii) : bool :=
  let n := nat_of_ascii c in
  ((48 <=? n) && (n <=? 57)) || (n =? 178) || (n =? 179) || (n =? 185).

Definition str_isdigit (s : string) : bool :=
  Py.truthy s && Py.all_chars isdigit_char s.

(** Lines 127-146: a field header sets the current field and, when text
    follows it, the field. *)
Definition field_header (line : string) : option (field * string) :=
  if Py.startswith line "Justification to Select:" then
    Some (Justification, Py.strip (Py.drop (String.length "Justification to Select:") line))
  else if Py.startswith line "Parameter Value:" then
    Some (ParameterValue, Py.strip (Py.drop (String.length "Parameter Value:") line))
  else if Py.startswith line "Guidance:" then
    Some (Guidance, Py.strip (Py.drop (String.length "Guidance:") line))
  else if Py.startswith line "Reference(s):" || Py.startswith line "Reference:" then
    Some (References,
          Py.strip (Py.drop (match String.index 0 ":" line with
                             | Some i => i + 1
                             | None => 0
                             end) line))
  else None.

(** Lines 91-154: the body of the loop over the lines of a page. *)
Definition process_line (st : cursor) (raw : string) : outcome :=
  let line := Py.strip raw in
  if Py.contains "7." line && Py.contains "Implementation Considerations" line
  then Stop st
  else if negb (Py.truthy line) || String.eqb line "Classified System Overlay"
          || str_isdigit line
  then Next st
  else if Py.contains "Attachment 5 to Appendix E" line then Next st
  else if String.eqb line "09/30/2022" then Next st
  else
    match parse_control_header line with
    | Some (cid, control_name) =>
        Next {| controls :=
                  <[cid := {| control_id := cid; name := control_name;
                              selected := true; justification := None;
                              parameter_value := None; guidance := None;
                              references := None |}]> (controls st);
                current_control := Some cid;
                current_field := None |}
    | None =>
        match current_control st with
        | Some cur =>
            if Py.truthy cur then
              match field_header line with
              | Some (f, content) =>
                  if Py.truthy content then
                    match controls st !! cur with
                    | Some c =>
                        Next {| controls := <[cur := set_field f (Some content) c]> (controls st);
                                current_control := current_control st;
                                current_field := Some f |}
                    | None => Raised
                    end
                  else Next {| controls := controls st;
                               current_control := current_control st;
                               current_field := Some f |}
              | None =>
                  match current_field st with
                  | Some f =>
                      if Py.truthy line then
                        match parse_control_header line with
                        | None =>
                            match controls st !! cur with
                            | Some c =>
                                let v :=
                                  match get_field f c with
                                  | Some old =>
                                      if Py.truthy old then old ++ " " ++ line
                                      else line
                                  | None => line
                                  end in
                                Next {| controls := <[cur := set_field f (Some v) c]> (controls st);
                                        current_control := current_control st;
                                        current_field := current_field st |}
                            | None => Raised
                            end
                        | Some _ => Next st
                        end
                      else Next st
                  | None => Next st
                  end
              end
            else Next st
        | None => Next st
        end
    end.

(** The loop over the lines of a page. *)
Fixpoint process_lines (st : cursor) (lines : list string) : outcome :=
  match lines with
  | [] => Next st
  | raw :: rest =>
      match process_line st raw with
      | Next st' => process_lines st' rest
      | Stop st' => Stop st'
      | Raised => Raised
      end
  end.

End Classified2022.

(* ===================================================================== *)
(** * [nist_catalog/nist_sorter.py] *)
(* ===================================================================== *)

Module NistSorter.

Import Re.

(** Line 36: [^([A-Z]{2,3})-(\d+)(?:\((\d+)\))?$]. *)
Definition control_id_pattern : regex :=
  (Grp 1 (upper ~> upper ~> Opt upper) ~> lit "-" ~> Grp 2 (Plus digit)
   ~> Opt (lit "(" ~> Grp 3 (Plus digit) ~> lit ")") ~> Eos)%re.

Abbreviation key := (string * N * N)%type.

(** [parse_control_id]; [None] stands for the [ValueError], the one line 39
    raises and the one [int] raises at lines 42 and 43. *)
Definition parse_control_id (control_id : string) : option key :=
  match re_match control_id_pattern control_id with
  | None => None
  | Some m =>
      let family := group m 1 in
      match Py.int (group m 2) with
      | None => None
      | Some base_number =>
          match (match m !! 3 with
                 | Some e => if Py.truthy e then Py.int e else Some 0%N
                 | None => Some 0%N
                 end) with
          | None => None
          | Some enhancement_number =>
              Some (family, base_number, enhancement_number)
          end
      end
  end.

(** A control of the catalogue: its ['id'] key, which may be missing, and
    the other keys, which sorting carries along. *)
Record control : Type := {
  id : option string;
  other_fields : list (string * string)
}.

(** [sort_key] of [sort_controls]; the [except ValueError] branch gives the
    fallback key. *)
Definition sort_key (c : control) : key :=
  match parse_control_id (default "" (id c)) with
  | Some k => k
  | None => ("ZZZ", 9999%N, 9999%N)
  end.

(** Python's [<] on the key tuples: strings by code point, then the two
    integers. *)
Definition key_ltb (x y : key) : bool :=
  let '(f1, b1, e1) := x in
  let '(f2, b2, e2) := y in
  match String.compare f1 f2 with
  | Lt => true
  | Gt => false
  | Eq =>
      match N.compare b1 b2 with
      | Lt => true
      | Gt => false
      | Eq => N.ltb e1 e2
      end
  end.

(** [sorted(controls, key=sort_key)] is the stable sort; a stable sort has
    one result, computed here by insertion from the right. *)
Fixpoint insert_by_key (x : control) (l : list control) : list control :=
  match l with
  | [] => [x]
  | y :: t =>
      if key_ltb (sort_key y) (sort_key x) then y :: insert_by_key x t
      else x :: y :: t
  end.

Definition sort_controls (controls : list control) : list control :=
  fold_right insert_by_key [] controls.

End NistSorter.

(* ===================================================================== *)
(** * The table pipeline: pages and the document *)
(* ===================================================================== *)

Module Cnssi1253Pages.

Import Re Cnssi1253.

(** What [table.extract()] gives: the rows of one table. *)
Abbreviation table := (list row).

(** Lines 238-263: the two records written out in the source for the
    continuation of SC-18 (they carry no [withdrawn] key and no special
    text). *)
Definition nl : string := String (ascii_of_nat 10) "".

Definition integrity_only : Selections :=
  {| confidentiality := no_levels;
     integrity := {| low := true; moderate := true; high := true |};
     availability := no_levels;
     special_text := None |}.

Definition sc_18_2_parameter_value : string :=
  "the following requirements:"
  ++ nl ++ "(a) Category 1A mobile code where technologies can differentiate between signed and unsigned mobile code and block execution of unsigned mobile code may be used."
  ++ nl ++ "(b) Category 2 mobile code allowing mediated or controlled access to workstation, server, and remote system services and resources may be used with appropriate protections (e.g., executes in a constrained environment without access to system resources such as Windows registry, file system, system parameters, and network connections to other than the originating host; does not execute in a constrained environment unless obtained from a trusted source over an assured channel)."
  ++ nl ++ "(c) Category 3 mobile code having limited functionality, with no capability for unmediated access to workstation, server, and remote system services and resources may be used when executing in an approved browser.".

Definition sc_18_3_parameter_value : string :=
  "all unacceptable mobile code such as:"
  ++ nl ++ "(a) Emerging mobile code technologies that have not undergone a risk assessment and been assigned to a Risk Category by the CIO."
  ++ nl ++ "(b) Category 1X mobile code technologies and implementations that cannot differentiate between signed and unsigned mobile code."
  ++ nl ++ "(c) Unsigned Category 1A mobile code."
  ++ nl ++ "(d) Category 2 mobile code not obtained from a trusted source over an assured channel (e.g., SIPRNet, SSL connection, S/MIME, code is signed with an approved code signing certificate).".

Definition hardcoded_controls : list ControlRecord :=
  [ {| control_id := "SC-18(2)";
       title := "Acquisition, Development, and Use";
       selected := true;
       selections := integrity_only;
       parameter_value := Some sc_18_2_parameter_value;
       justification := Some "NSS Best Practice";
       withdrawn := None |};
    {| control_id := "SC-18(3)";
       title := "Prevent Downloading and Execution";
       selected := true;
       selections := integrity_only;
       parameter_value := Some sc_18_3_parameter_value;
       justification := Some "NSS Best Practice";
       withdrawn := None |} ].

(** Lines 218-225: some row of the table shows an identifier in one of
    its first three cells. *)
Definition has_control (extracted : table) : bool :=
  existsb (fun r =>
             existsb (fun c => match match_control_id c with
                               | Some _ => true
                               | None => false
                               end) (firstn 3 r)) extracted.

(** Lines 230-234. *)
Definition is_page_136_continuation (extracted : table) : bool :=
  existsb (fun r =>
             existsb (fun c => match c with
                               | Some s => Py.truthy s && Py.contains "SC-18(2)" s
                               | None => false
                               end) (firstn 3 r)) extracted.

(** The loops of lines 268-271 and 279-282: the rows that give a record. *)
Fixpoint parse_rows (rows : list row) (structure : TableStructure)
  : list ControlRecord :=
  match rows with
  | [] => []
  | r :: t =>
      match parse_control_row r structure with
      | Some control_data => control_data :: parse_rows t structure
      | None => parse_rows t structure
      end
  end.

(** Lines 214-272: a table of fewer than four rows. *)
Definition continuation_controls (prev_structure : option TableStructure)
    (extracted : table) : list ControlRecord :=
  match prev_structure with
  | Some ps =>
      if (0 <? length extracted) && has_control extracted then
        if is_page_136_continuation extracted then hardcoded_controls
        else parse_rows extracted ps
      else []
  | None => []
  end.

(** The body of the loop over the tables of a page; the state is
    [controls] and [last_structure]. *)
Definition table_step (prev_structure : option TableStructure)
    (st : list ControlRecord * option TableStructure) (extracted : table)
  : list ControlRecord * option TableStructure :=
  if length extracted <? 4 then
    ((fst st ++ continuation_controls prev_structure extracted)%list, snd st)
  else
    let structure := detect_table_structure (firstn 3 extracted) in
    ((fst st ++ parse_rows (skipn 3 extracted) structure)%list, Some structure).

(** [extract_controls_from_page], on the tables [page.find_tables()] found. *)
Definition extract_controls_from_page (tables : list table)
    (prev_structure : option TableStructure)
  : list ControlRecord * option TableStructure :=
  fold_left (table_step prev_structure) tables ([], prev_structure).

(** A page as the extractor reads it: [page.get_text()] and the extracted
    tables. *)
Record page : Type := { text : string; tables : list table }.

(** [re.search(pattern, s)] as a test: the pattern matches at some
    position. *)
Fixpoint re_search (r : regex) (s : string) : bool :=
  match re_match r s with
  | Some _ => true
  | None =>
      match s with
      | EmptyString => false
      | String _ t => re_search r t
      end
  end.

(** Line 305: [[A-Z]{2}-\d+]. *)
Definition id_in_text_pattern : regex := (upper ~> upper ~> lit "-" ~> Plus digit)%re.

Definition has_control_tables (p : page) : bool :=
  Py.contains "Table D-" (text p) || re_search id_in_text_pattern (text p).

(** Lines 300-313: the state is [all_controls] and [prev_structure]. *)
Definition page_step (st : gmap string ControlRecord * option TableStructure)
    (p : page) : gmap string ControlRecord * option TableStructure :=
  if has_control_tables p then
    let cs := extract_controls_from_page (tables p) (snd st) in
    (store_controls (fst st) (fst cs), snd cs)
  else st.

(** [extract_cnssi_1253_2022] without [debug_page]: the pages from index
    24 on. *)
Definition extract_cnssi_1253_2022 (doc : list page) : gmap string ControlRecord :=
  fst (fold_left page_step (skipn 24 doc) (∅, None)).

End Cnssi1253Pages.

(* ===================================================================== *)
(** * The comparison of the versions (compare_cnssi_versions.py) *)
(* ===================================================================== *)

Module CompareVersions.

Import Cnssi1253.

(** Lines 35-43 of [get_new_selected_controls]: some level of some of the
    three dictionaries is set (each of them holds its three keys, so it is
    truthy). *)
Definition has_selection (s : Selections) : bool :=
  existsb (fun lv => existsb (fun f => f lv) [low; moderate; high])
          [confidentiality s; integrity s; availability s].

(** Lines 32-47, for a record of the table extractor: these always carry
    the [selections] key; [withdrawn] is read with the default [False]. *)
Definition counted (control_data : ControlRecord) : bool :=
  selected control_data && negb (default false (withdrawn control_data))
  && has_selection (selections control_data).

(** [get_new_selected_controls]. *)
Definition get_new_selected_controls (new_data : gmap string ControlRecord)
  : gset string :=
  dom (filter (fun kc => counted (snd kc) = true) new_data).

End CompareVersions.

(* ===================================================================== *)
(** * The superseded classified overlay extractor: the formatted text *)
(* ===================================================================== *)

Module ClassifiedOverlayPages.

Import Re ClassifiedOverlay.

(** A span of [page.get_text("dict")]: its text and its flags (the font is
    copied into the formats and never read). *)
Record span : Type := { span_text : string; flags : Z }.

(** A block: its type, when it has one, and the spans of its lines. *)
Record block : Type := { block_type : option Z; lines : list (list span) }.

(** Line 74: [bool(flags & 16)]. *)
Definition bold (s : span) : bool := negb (Z.land (flags s) 16 =? 0)%Z.

(** Lines 66-71: the texts of the spans, concatenated. *)
Definition line_text (spans : list span) : string :=
  fold_left (fun acc s => acc ++ span_text s) spans "".

(** Lines 78-88: what a line adds to the formatted text. *)
Definition formatted_line (spans : list span) : option line_data :=
  if Py.truthy (Py.strip (line_text spans)) then
    let stripped := Py.strip (line_text spans) in
    if String.eqb stripped "Classified Information Overlay"
       || Classified2022.str_isdigit stripped
       || String.eqb stripped "May 9, 2014"
    then None
    else Some {| text := stripped; formats := map bold spans |}
  else None.

(** [_extract_formatted_text]. *)
Definition extract_formatted_text (text_dict : list block) : list line_data :=
  flat_map (fun b =>
              match block_type b with
              | Some 0%Z => omap formatted_line (lines b)
              | _ => []
              end) text_dict.

(** The state [__init__] sets up. *)
Definition init : extractor :=
  {| controls := ∅; current_control := None; current_base_control := None;
     current_attribute := None |}.

End ClassifiedOverlayPages.

(* ===================================================================== *)
(** * The 2022 classified extractor: sections and pages *)
(* ===================================================================== *)

Module Classified2022Pages.

Import Re Classified2022.

(** Lines 63 and 66: the headings of Section 6 and of Section 7 in the
    text of a page. *)
Definition is_section_6 (text : string) : bool :=
  Py.contains "6.  Detailed Overlay Control Specifications" text
  || Py.contains "6. Detailed Overlay Control Specifications" text.

Definition is_section_7 (text : string) : bool :=
  Py.contains "7." text && Py.contains "Implementation Considerations" text.

(** Lines 59-69: the scan for the two sections; it stops at the first page
    of Section 7 that comes after a page of Section 6. *)
Fixpoint find_sections (pages : list (nat * string)) (section_6_start : option nat)
  : option nat * option nat :=
  match pages with
  | [] => (section_6_start, None)
  | (page_num, text) :: rest =>
      if is_section_6 text then find_sections rest (Some page_num)
      else if bool_decide (is_Some section_6_start) && is_section_7 text
           then (section_6_start, Some page_num)
           else find_sections rest section_6_start
  end.

(** Lines 82-154: the pages of the section, line by line; the heading of
    Section 7 returns the store, a missing key is an exception ([None]). *)
Fixpoint process_pages (st : cursor) (texts : list string)
  : option (gmap string control) :=
  match texts with
  | [] => Some (controls st)
  | text :: rest =>
      match process_lines st (Py.split "010" text) with
      | Next st' => process_pages st' rest
      | Stop st' => Some (controls st')
      | Raised => None
      end
  end.

(** [extract_controls_from_pdf], on the texts of the pages. *)
Definition extract_controls_from_pdf (doc : list string)
  : option (gmap string control) :=
  match find_sections (Py.enumerate doc) None with
  | (None, _) => Some ∅
  | (Some section_6_start, section_7_start) =>
      let end_page :=
        match section_7_start with
        | Some n => if n =? 0 then length doc else n + 1
        | None => length doc
        end in
      process_pages {| controls := ∅; current_control := None; current_field := None |}
                    (skipn section_6_start (firstn end_page doc))
  end.

End Classified2022Pages.

(* ===================================================================== *)
(** * The superseded selection extractor: continuations *)
(* ===================================================================== *)

Module SelectionExtractor.

(** A control as [extract_controls_from_page] of the selection extractor
    builds it: the keys [id], [name] and [selected]; the identifier of a
    continuation is the string CONTINUATION. *)
Record control : Type := { id : string; name : string; selected : bool }.

Definition is_continuation (c : control) : bool := String.eqb (id c) "CONTINUATION".

(** Lines 281-288: the last control of the list takes the name and the
    selection of a continuation. *)
Fixpoint merge_into_last (merged : list control) (c : control) : list control :=
  match merged with
  | [] => []
  | [last_control] =>
      [ {| id := id last_control;
           name := name last_control ++ " " ++ name c;
           selected := if selected c then true else selected last_control |} ]
  | x :: t => x :: merge_into_last t c
  end.

(** [merge_continuation_controls]. *)
Definition merge_continuation_controls (all_controls : list control) : list control :=
  fold_left (fun merged_controls c =>
               if is_continuation c then merge_into_last merged_controls c
               else (merged_controls ++ [c])%list)
            all_controls [].

End SelectionExtractor.

Module SelectionMarkers.

Import Re.

(** The class [[X+\s]]. *)
Definition marker_char (c : ascii) : bool :=
  Ascii.eqb c "X" || Ascii.eqb c "+" || Py.isspace c.

(** Line 94: [^[X+\s]*$]. *)
Definition only_markers_pattern : regex := (Star (Cls marker_char) ~> Eos)%re.

(** [is_only_markers]. *)
Definition is_only_markers (text : string) : bool :=
  match re_match only_markers_pattern text with
  | Some _ => true
  | None => false
  end.

End SelectionMarkers.

(* ===================================================================== *)
(** * The merger of the selections and the overlay (cnssi_merger.py) *)
(* ===================================================================== *)

Module CnssiMerger.


(** An element of the selections file that is a dictionary with an [id]
    key is [Some] of its identifier; any other element is [None]. *)
Abbreviation selection := (option string).






End CnssiMerger.

(* ===================================================================== *)
(** * Vocabulary of the properties *)
(* ===================================================================== *)

Module Vocabulary.

Export Py (all_chars).

(** A non-empty run of decimal digits. *)
Definition digits (s : string) : Prop :=
  s <> "" /\ all_chars Py.isdigit s = true.

(** The optional enhancement suffix of an identifier. *)
Definition enhancement_suffix (enh : option string) : string :=
  match enh with
  | Some e => "(" ++ e ++ ")"
  | None => ""
  end.

Definition render_id (letters num : string) (enh : option string) : string :=
  letters ++ "-" ++ num ++ enhancement_suffix enh.

(** The parts of an identifier of the grammar
    LETTERS '-' DIGITS ['(' DIGITS ')'] with between [lo] and [hi] capital
    letters. *)
Definition id_parts (lo hi : nat) (letters num : string) (enh : option string) : Prop :=
  lo <= String.length letters <= hi /\
  all_chars Py.isupper_az letters = true /\
  digits num /\
  (forall e, enh = Some e -> digits e).

Definition identifier (lo hi : nat) (x : string) : Prop :=
  exists letters num enh,
    id_parts lo hi letters num enh /\ x = render_id letters num enh.

(** The number a string of decimal digits denotes, leading zeros allowed,
    as the Standard Library reads decimal numerals; and the decimal numeral
    of a number, Python's [str(n)]. *)
Definition numeral (s : string) (n : N) : Prop :=
  exists d, NilEmpty.uint_of_string s = Some d /\ N.of_uint d = n.

Definition decimal (n : N) : string := NilZero.string_of_uint (N.to_uint n).

(** The number of the enhancement, 0 for a base control. *)
Definition enhancement_numeral (enh : option string) (n : N) : Prop :=
  match enh with
  | Some e => numeral e n
  | None => n = 0%N
  end.

(** The digit groups of an identifier are short enough for [int]: at most
    4300 digits each. *)
Definition convertible (s : string) : Prop :=
  (N.of_nat (String.length s) <= 4300)%N.

Definition convertible_parts (num : string) (enh : option string) : Prop :=
  convertible num /\ forall e, enh = Some e -> convertible e.

(** The text that [strip] keeps in front of a clean, non-empty word
    appended to [e] after a space. *)
Definition lead (e : string) : string :=
  match Py.lstrip e with
  | EmptyString => ""
  | l => l ++ " "
  end.

(** [r] does not go on with a character of the class [p]. *)
Definition stops (p : ascii -> bool) (r : string) : Prop :=
  match r with
  | EmptyString => True
  | String c _ => p c = false
  end.

(** Stripped, non-empty text. *)
Definition clean (w : string) : Prop := w <> "" /\ Py.strip w = w.

(** Some cell of the row contains the literal substring "Withdrawn". *)
Definition has_withdrawn_cell (r : Cnssi1253.row) : Prop :=
  exists s, In (Some s) r /\ Py.contains "Withdrawn" s = true.

(** A sample table: identifier, title, the nine level columns,
    justification and parameter value. *)
Definition sample_header : list Cnssi1253.row :=
  [ [Some "ID"; Some "Title"; Some "Impact"; None; None; None; None; None;
     None; None; None; Some "Justification for NSS"; Some "Parameter Value"];
    [None; None; Some "C"; None; None; Some "I"; None; None; Some "A"; None;
     None; None; None];
    [None; None; Some "L"; Some "M"; Some "H"; Some "L"; Some "M"; Some "H";
     Some "L"; Some "M"; Some "H"; None; None] ].

Definition sample_structure : Cnssi1253.TableStructure :=
  Cnssi1253.detect_table_structure sample_header.

(** Rows of the sample table. *)
Definition withdrawn_marked_row : Cnssi1253.row :=
  [Some "PM-9"; Some "Withdrawn: Incorporated into PM-10"; Some "X"; Some "+";
   None; Some "X"; None; None; Some "X"; None; None; Some ""; Some ""].

Definition pm_row : Cnssi1253.row :=
  [Some "PM-1"; Some "Information Security Program Plan"; None; None; None;
   None; None; None; None; None; None; None; None].

Definition pt_row : Cnssi1253.row :=
  [Some "PT-2"; Some "Authority to Process PII"; Some "X"; Some "X"; Some "X";
   Some "X"; Some "X"; Some "X"; None; None; None; None; None].

(** A table whose first column is the justification. *)
Definition justification_first_header : list Cnssi1253.row :=
  [ [Some "Justification"; Some "ID"; Some "Title"; None; None; None; None;
     None; None; None; None; None];
    [None; None; None; Some "C"; None; None; Some "I"; None; None; Some "A";
     None; None];
    [None; None; None; Some "L"; Some "M"; Some "H"; Some "L"; Some "M";
     Some "H"; Some "L"; Some "M"; Some "H"] ].

Definition justification_first_row : Cnssi1253.row :=
  [Some "NSS best practice"; Some "AC-2"; Some "Account Management"; Some "X";
   Some "X"; Some "X"; None; None; None; None; None; None].

(** A header whose third row holds nine level tokens, all of them L. *)
Definition nine_low_header : list Cnssi1253.row :=
  [ [Some "ID"; Some "Title"; None; None; None; None; None; None; None; None; None];
    [None; None; Some "C"; None; None; Some "I"; None; None; Some "A"; None; None];
    [None; None; Some "L"; Some "L"; Some "L"; Some "L"; Some "L"; Some "L";
     Some "L"; Some "L"; Some "L"] ].

(** The level tokens and the range keys in the order the detector expects. *)
Definition level_order : list Cnssi1253.level :=
  let '(l, m, h) := (Cnssi1253.L, Cnssi1253.M, Cnssi1253.H) in
  [l; m; h; l; m; h; l; m; h].

Definition range_keys : list (Cnssi1253.cia * Cnssi1253.level) :=
  let '(l, m, h) := (Cnssi1253.L, Cnssi1253.M, Cnssi1253.H) in
  let '(c, i, a) := (Cnssi1253.C, Cnssi1253.I, Cnssi1253.A) in
  [(c, l); (c, m); (c, h); (i, l); (i, m); (i, h); (a, l); (a, m); (a, h)].

(** A range ends before the next one starts. *)
Definition before (a b : (Cnssi1253.cia * Cnssi1253.level) * (nat * nat)) : Prop :=
  snd (snd a) < fst (snd b).

(** How one text field of an existing record comes out of an upsert. *)
Definition appended (existing incoming merged : string) : Prop :=
  (Py.strip incoming <> "" -> existing = "" -> merged = incoming) /\
  (Py.strip incoming <> "" -> existing <> "" ->
   merged = Py.strip (existing ++ " " ++ incoming)) /\
  (clean existing -> clean incoming -> merged = existing ++ " " ++ incoming) /\
  (Py.strip incoming = "" -> merged = existing).

Definition fragment (id ct dv : string) : CnssiOverlay.control_data :=
  {| CnssiOverlay.cd_id := id; CnssiOverlay.cd_control_text := ct;
     CnssiOverlay.cd_defined_value := dv |}.

(** Two rows of one control of the table pipeline. *)
Definition first_row : Cnssi1253.row :=
  [Some "AC-3"; Some "Access Enforcement"; None; Some "X"; None; None; None;
   None; None; None; None; Some "A"; None].
Definition second_row : Cnssi1253.row :=
  [Some "AC-3"; Some "Access Enforcement"; None; None; None; None; None;
   None; None; None; None; Some "B"; None].

Definition overlay_store : gmap string CnssiOverlay.entry :=
  {[ "AC-2" := {| CnssiOverlay.control_text := "Account Management";
                  CnssiOverlay.defined_value := "" |} ]}.

(** [c in s] for one character. *)
Fixpoint has_char (c : ascii) (s : string) : bool :=
  match s with
  | EmptyString => false
  | String a s' => Ascii.eqb a c || has_char c s'
  end.

(** Numbers joined by a comma and a blank, as an enhancement header lists
    them. *)
Fixpoint more_numbers (nums : list string) : string :=
  match nums with
  | [] => ""
  | n :: t => ", " ++ n ++ more_numbers t
  end.

Definition join_numbers (nums : list string) : string :=
  match nums with
  | [] => ""
  | n :: t => n ++ more_numbers t
  end.

Definition number_char (c : ascii) : bool :=
  Py.isdigit c || Ascii.eqb c "," || Ascii.eqb c " ".

(** The numbers an enhancement header lists, the identifier of an
    enhancement, and the record the header seeds it with. *)
Definition listed_numbers (m : Re.groups) : list string :=
  map Py.strip (Py.split "," (Re.group m 1)).

Definition enhancement_id (base n : string) : string := base ++ "(" ++ n ++ ")".

Definition base_title (self : ClassifiedOverlay.extractor) (base : string) : string :=
  match ClassifiedOverlay.controls self !! base with
  | Some info => ClassifiedOverlay.name info
  | None => ""
  end.

Definition fresh_enhancement (self : ClassifiedOverlay.extractor) (base : string)
    (page_num : nat) : ClassifiedOverlay.control_info :=
  {| ClassifiedOverlay.name := base_title self base;
     ClassifiedOverlay.attributes := ∅;
     ClassifiedOverlay.page := page_num |}.

(** Lines of a page of the superseded overlay, and the states around them. *)
Definition start_state : ClassifiedOverlay.extractor :=
  {| ClassifiedOverlay.controls := ∅;
     ClassifiedOverlay.current_control := None;
     ClassifiedOverlay.current_base_control := None;
     ClassifiedOverlay.current_attribute := None |}.

Definition base_line : ClassifiedOverlay.line_data :=
  {| ClassifiedOverlay.text := "AC-3, Access Enforcement";
     ClassifiedOverlay.formats := [true] |}.
Definition justification_line : ClassifiedOverlay.line_data :=
  {| ClassifiedOverlay.text := "Justification to Select: NSS best practice.";
     ClassifiedOverlay.formats := [true; false] |}.
Definition colon_line : ClassifiedOverlay.line_data :=
  {| ClassifiedOverlay.text := "Note: applies to every enclave.";
     ClassifiedOverlay.formats := [false] |}.
Definition plain_line : ClassifiedOverlay.line_data :=
  {| ClassifiedOverlay.text := "continues here.";
     ClassifiedOverlay.formats := [false] |}.
Definition enhancement_line : ClassifiedOverlay.line_data :=
  {| ClassifiedOverlay.text := "Control Enhancement: 4, 5, 6";
     ClassifiedOverlay.formats := [false] |}.
Definition single_enhancement_line : ClassifiedOverlay.line_data :=
  {| ClassifiedOverlay.text := "Control Enhancement: 4";
     ClassifiedOverlay.formats := [false] |}.

Definition open_attribute_state : ClassifiedOverlay.extractor :=
  {| ClassifiedOverlay.controls :=
       {[ "AC-3" :=
            {| ClassifiedOverlay.name := "Access Enforcement";
               ClassifiedOverlay.attributes :=
                 {[ "Justification to Select" := "NSS best practice." ]};
               ClassifiedOverlay.page := 1 |} ]};
     ClassifiedOverlay.current_control := Some "AC-3";
     ClassifiedOverlay.current_base_control := Some "AC-3";
     ClassifiedOverlay.current_attribute := Some "Justification to Select" |}.

(** The state after a page on which enhancement 4 of AC-3 got its
    justification. *)
Definition collected_state : ClassifiedOverlay.extractor :=
  ClassifiedOverlay.process_page start_state
    [base_line; single_enhancement_line; justification_line] 1.

(** The same lines in the 2022 extractor. *)
Definition start_cursor : Classified2022.cursor :=
  {| Classified2022.controls := ∅;
     Classified2022.current_control := None;
     Classified2022.current_field := None |}.

Definition page_lines : list string :=
  [ "AC-3, Access Enforcement";
    "Justification to Select: NSS best practice.";
    "Note: applies to every enclave." ].

(** The order of the sort keys: family by code point, then base number,
    then enhancement number. *)
Definition key_le (x y : NistSorter.key) : Prop :=
  String.compare (fst (fst x)) (fst (fst y)) = Lt \/
  (fst (fst x) = fst (fst y) /\
   ((snd (fst x) < snd (fst y))%N \/
    (snd (fst x) = snd (fst y) /\ (snd x <= snd y)%N))).

Definition by_key (a b : NistSorter.control) : Prop :=
  key_le (NistSorter.sort_key a) (NistSorter.sort_key b).



(** The family and the two numbers of a control whose identifier is of the
    grammar, and the natural order of two such controls: by family, then
    by base number, then by enhancement number. *)
Definition natural_key (c : NistSorter.control) (k : NistSorter.key) : Prop :=
  exists letters num enh b e,
    id_parts 2 3 letters num enh /\
    NistSorter.id c = Some (render_id letters num enh) /\
    numeral num b /\ enhancement_numeral enh e /\ k = (letters, b, e).


(** An enhancement number of 4301 digits, and a catalogue that holds it. *)
Fixpoint nines (n : nat) : string :=
  match n with
  | O => ""
  | S n' => String "9" (nines n')
  end.

Definition long_number : string := nines 4301.

Definition long_identifier : string := render_id "AC" "1" (Some long_number).


End Vocabulary.

(* ===================================================================== *)
(** * Vocabulary of the table pipeline *)
(* ===================================================================== *)

Module TableVocabulary.

Import Cnssi1253 Cnssi1253Pages Vocabulary.

(** The selection flag of a range key. *)
Definition flag (k : cia * level) (s : Selections) : bool :=
  let lv := match fst k with
            | C => confidentiality s
            | I => integrity s
            | A => availability s
            end in
  match snd k with
  | L => low lv
  | M => moderate lv
  | H => high lv
  end.

(** Some flag is set. *)
Definition any_flag (s : Selections) : bool :=
  any_level (confidentiality s) || any_level (integrity s)
  || any_level (availability s).

(** The column [i] of the row holds a mark that falls into a range of
    the structure, and the first such range has the key [k]. *)
Definition marked_in (structure : TableStructure) (r : row) (k : cia * level) : Prop :=
  exists i c rg,
    r !! i = Some c /\ is_selected c = true /\
    List.find (fun kr => (fst (snd kr) <=? i) && (i <=? snd (snd kr)))
              (ranges structure) = Some (k, rg).

(** A normalised text of a record: stripped, not empty, and none of the
    empty markers. *)
Definition normal_text (t : string) : Prop :=
  Py.strip t = t /\ t <> "" /\ t <> "None" /\ t <> "X" /\ t <> "+".

(** A cell whose stripped text is a two-letter control identifier. *)
Definition id_cell (c : cell) : Prop :=
  exists s, c = Some s /\ identifier 2 2 (Py.strip s).

(** The text that a text column of the structure gives for a row. *)
Definition text_at (col : option nat) (r : row) (t : string) : Prop :=
  exists n s, col = Some n /\ 0 < n /\ r !! n = Some (Some s) /\
              t = Py.strip s /\ normal_text t.

(** The cells [lo .. hi - 1] columns after column [i] are blank. *)
Definition blank_after (r : row) (i lo hi : nat) : Prop :=
  forall off s, lo <= off < hi -> r !! (i + off) = Some (Some s) -> Py.strip s = "".

(** A row whose identifier stands in the second column. *)
Definition ac_row : row :=
  [None; Some " AC-2 "; Some ""; Some "Account Management"; None; Some "X"; None;
   None; Some "+"; None; None; Some " NSS best practice "; Some "None"].

(** A header cell mentions a keyword: the test of lines 70-75 (an empty or
    missing cell mentions nothing). *)
Definition mentions (kw : string) (c : cell) : bool :=
  match c with
  | Some s => Py.contains kw (Py.lower (Py.strip s))
  | None => false
  end.

Definition justification_cell (c : cell) : bool := mentions "justification" c.
Definition parameter_cell (c : cell) : bool :=
  mentions "parameter" c && negb (mentions "justification" c).

(** Column [i] is the last one of the row whose cell satisfies [f]. *)
Definition last_where (f : cell -> bool) (r : row) (i : nat) : Prop :=
  (exists c, r !! i = Some c /\ f c = true) /\
  forall j c, i < j -> r !! j = Some c -> f c = false.

(** All nine range keys. *)
Definition all_keys : list (cia * level) :=
  [(C, L); (C, M); (C, H); (I, L); (I, M); (I, H); (A, L); (A, M); (A, H)].

(** The third header row shows a level token at column [a], and [b] is
    where the range of that token ends: one column before the next token
    to its right, or two columns further when there is none. *)
Definition range_of_token (r2 : row) (l : level) (a b : nat) : Prop :=
  (exists c, r2 !! a = Some c /\ lmh_token c = Some l) /\
  ((exists c l', r2 !! (b + 1) = Some c /\ lmh_token c = Some l' /\ a <= b /\
                 forall j c', a < j <= b -> r2 !! j = Some c' -> lmh_token c' = None)
   \/ (b = a + 2 /\
       forall j c', a < j -> r2 !! j = Some c' -> lmh_token c' = None)).

(** What holds of every record the table extractor stores. *)
Definition well_formed (rec : ControlRecord) : Prop :=
  identifier 2 2 (control_id rec) /\
  Py.strip (title rec) = title rec /\
  (withdrawn rec = Some true -> selected rec = false) /\
  (family_of (control_id rec) = "PT" -> selected rec = false) /\
  (selected rec = true ->
   family_of (control_id rec) = "PM" \/ any_flag (selections rec) = true) /\
  (forall t, justification rec = Some t -> normal_text t) /\
  (forall t, parameter_value rec = Some t -> normal_text t).

(** The contribution of one table to its page. *)
Definition table_controls (prev_structure : option TableStructure)
    (extracted : table) : list ControlRecord :=
  if length extracted <? 4 then continuation_controls prev_structure extracted
  else parse_rows (skipn 3 extracted) (detect_table_structure (firstn 3 extracted)).

(** The structure of the last table of at least four rows, if any. *)
Definition last_full_structure (tables : list table) : option TableStructure :=
  match List.find (fun t => negb (length t <? 4)) (rev tables) with
  | Some t => Some (detect_table_structure (firstn 3 t))
  | None => None
  end.

(** The last record of a list that carries the identifier. *)
Definition last_with_id (k : string) (cs : list ControlRecord) : option ControlRecord :=
  List.find (fun c => String.eqb (control_id c) k) (rev cs).

(** A continuation table of one row, and a table with its header block. *)
Definition short_table : table := [ac_row].
Definition full_table : table := (sample_header ++ [pm_row; pt_row])%list.

(** The store invariant: a record sits under its own identifier and is
    well formed. *)
Definition store_ok (m : gmap string ControlRecord) : Prop :=
  forall k rec, m !! k = Some rec -> control_id rec = k /\ well_formed rec.

(** A document: 24 pages of front matter, a page with a table, a page
    that mentions no control, and a page with a continuation table. *)
Definition front_page : page := {| text := "Foreword"; tables := [] |}.
Definition sample_document : list page :=
  (replicate 24 front_page ++
   [ {| text := "Table D-1: Access Control"; tables := [full_table] |};
     {| text := "Intentionally blank"; tables := [short_table] |};
     {| text := "AC-2 continued"; tables := [short_table] |} ])%list.

End TableVocabulary.

(* ===================================================================== *)
(** * Vocabulary of the overlay store *)
(* ===================================================================== *)

Module OverlayVocabulary.

Import CnssiOverlay Vocabulary.

(** Both text fields of a stored record are stripped. *)
Definition stripped_entry (e : entry) : Prop :=
  Py.strip (control_text e) = control_text e /\
  Py.strip (defined_value e) = defined_value e.

End OverlayVocabulary.

(* ===================================================================== *)
(** * Vocabulary of the superseded classified overlay extractor *)
(* ===================================================================== *)

Module ClassifiedOverlayVocabulary.

Import Re ClassifiedOverlay ClassifiedOverlayPages Vocabulary.

(** The current control is stored and holds the current attribute. *)
Definition consistent (self : extractor) : Prop :=
  forall c, current_control self = Some c -> Py.truthy c = true ->
    exists info, controls self !! c = Some info /\
      forall a, current_attribute self = Some a -> Py.truthy a = true ->
                is_Some (attributes info !! a).

(** The state of the extractor after it has read some pages, each given
    by its formatted lines and its number. *)
Definition after_pages (pages : list (list line_data * nat)) : extractor :=
  fold_left (fun self p => process_page self (fst p) (snd p)) pages init.

(** A line of the formatted text: stripped, not empty, no footer and no
    page number. *)
Definition content_line (t : string) : Prop :=
  Py.strip t = t /\ t <> "" /\ Classified2022.str_isdigit t = false /\
  t <> "Classified Information Overlay" /\ t <> "May 9, 2014".

End ClassifiedOverlayVocabulary.

(* ===================================================================== *)
(** * Vocabulary of the 2022 classified extractor *)
(* ===================================================================== *)

Module Classified2022Vocabulary.

Import Re Classified2022 Classified2022Pages Vocabulary.

(** A stored record sits under its identifier, is selected, and none of
    its four text fields is an empty string. *)
Definition record_ok (k : string) (c : control) : Prop :=
  control_id c = k /\ selected c = true /\
  forall f v, get_field f c = Some v -> v <> "".

(** The current control of the cursor is stored, and every record of the
    store is as [record_ok] says. *)
Definition cursor_ok (st : cursor) : Prop :=
  (forall c, current_control st = Some c -> Py.truthy c = true ->
             is_Some (controls st !! c)) /\
  map_Forall record_ok (controls st).

(** The cursor an outcome carries, if any. *)
Definition outcome_ok (o : outcome) : Prop :=
  match o with
  | Next st | Stop st => cursor_ok st
  | Raised => False
  end.

(** A control identifier with two letters and one or two digits, as the
    header lines of the overlay carry it. *)
Definition short_identifier (x : string) : Prop :=
  exists letters num enh,
    id_parts 2 2 letters num enh /\ String.length num <= 2 /\
    x = render_id letters num enh.

(** The character is no comma, and no newline. *)
Definition no_comma (c : ascii) : bool := negb (Ascii.eqb c ",").
Definition no_newline (c : ascii) : bool := negb (Ascii.eqb c "010").

(** The name behind a stripped remainder: the remainder itself, or what
    follows a parenthesised family name at its start. *)
Definition name_of (remainder nm : string) : Prop :=
  nm = remainder \/
  exists inner ws, remainder = "(" ++ inner ++ ")" ++ ws ++ nm /\ inner <> "" /\
                   all_chars Py.isspace ws = true.

(** The field headers of the 2022 overlay, with the colon that ends
    them, and the field each one opens. *)
Definition field_labels : list (string * field) :=
  [ ("Justification to Select:", Justification);
    ("Parameter Value:", ParameterValue);
    ("Guidance:", Guidance);
    ("Reference(s):", References);
    ("Reference:", References) ].

End Classified2022Vocabulary.

(* ===================================================================== *)
(** * Vocabulary of the sorter *)
(* ===================================================================== *)

Module SorterVocabulary.

Import Re NistSorter Vocabulary.

(** The key [sort_key] gives to a control when [parse_control_id] raises. *)
Definition fallback_key : key := ("ZZZ", 9999%N, 9999%N).

(** [parse_control_id] raises [ValueError] on the identifier of the
    control: the identifier is missing or malformed, or one of its digit
    groups has more than 4300 digits. *)
Definition rejected (c : control) : Prop :=
  parse_control_id (default "" (id c)) = None.

(** [a] stands before [b] in the list. *)
Definition before_in (a b : control) (l : list control) : Prop :=
  exists l1 l2 l3, l = (l1 ++ a :: l2 ++ b :: l3)%list.

(** A catalogue with a malformed, a missing and an overlong identifier. *)
Definition mixed_catalog : list control :=
  [ {| id := Some "ac-2"; other_fields := [("note", "first")] |};
    {| id := Some "SI-4"; other_fields := [("note", "first")] |};
    {| id := None; other_fields := [] |};
    {| id := Some long_identifier; other_fields := [] |};
    {| id := Some "AC-2"; other_fields := [] |};
    {| id := Some "SI-4"; other_fields := [("note", "second")] |} ].

End SorterVocabulary.

(* ===================================================================== *)
(** * Vocabulary of the selection extractor *)
(* ===================================================================== *)

Module SelectionVocabulary.

Import SelectionExtractor Vocabulary.

(** A control with the continuations that follow it merged in. *)
Definition joined (c : control) (conts : list control) : control :=
  {| id := id c;
     name := fold_left (fun n k => n ++ " " ++ name k) conts (name c);
     selected := selected c || existsb selected conts |}.

(** The list is empty or starts with a regular control. *)
Definition starts_regular (l : list control) : Prop :=
  match l with
  | [] => True
  | c :: _ => is_continuation c = false
  end.

Definition sample_controls : list control :=
  [ {| id := "CONTINUATION"; name := "stray"; selected := true |};
    {| id := "AC-2"; name := "Account"; selected := false |};
    {| id := "CONTINUATION"; name := "Management"; selected := true |};
    {| id := "AC-3"; name := "Access Enforcement"; selected := false |} ].

End SelectionVocabulary.

(* ===================================================================== *)
(** * Vocabulary of the merger *)
(* ===================================================================== *)

Module MergerVocabulary.

Import CnssiMerger Vocabulary.


End MergerVocabulary.

(* ===================================================================== *)
(** * Facts about strings *)
(* ===================================================================== *)

Module StrFacts.

Import Vocabulary.

Lemma app_cons c s t : String c s ++ t = String c (s ++ t).
Proof. reflexivity. Qed.

Lemma app_nil_l t : "" ++ t = t.
Proof. reflexivity. Qed.

Lemma app_nil_r s : s ++ "" = s.
Proof. induction s as [| c s IH]; [reflexivity |]. rewrite app_cons, IH. reflexivity. Qed.

Lemma app_assoc s t u : (s ++ t) ++ u = s ++ (t ++ u).
Proof.
  induction s as [| c s IH]; [reflexivity |].
  rewrite !app_cons, IH. reflexivity.
Qed.

Lemma length_app s t : String.length (s ++ t) = String.length s + String.length t.
Proof.
  induction s as [| c s IH]; [reflexivity |].
  rewrite app_cons. cbn [String.length]. rewrite IH. reflexivity.
Qed.

Lemma app_eq_nil s t : s ++ t = "" -> s = "" /\ t = "".
Proof.
  destruct s; [rewrite app_nil_l; intros ->; split; reflexivity |].
  rewrite app_cons. discriminate.
Qed.

Lemma truthy_true s : Py.truthy s = true <-> s <> "".
Proof. destruct s; cbn; split; congruence. Qed.

Lemma truthy_false s : Py.truthy s = false <-> s = "".
Proof. destruct s; cbn; split; congruence. Qed.

(** [lstrip] *)
Lemma lstrip_app_keep u v :
  Py.lstrip u <> "" -> Py.lstrip (u ++ v) = Py.lstrip u ++ v.
Proof.
  induction u as [| c u IH]; cbn [Py.lstrip]; [congruence |].
  rewrite app_cons. cbn [Py.lstrip].
  destruct (Py.isspace c); [exact IH | intros _; rewrite app_cons; reflexivity].
Qed.

Lemma lstrip_app_blank u v :
  Py.lstrip u = "" -> Py.lstrip (u ++ v) = Py.lstrip v.
Proof.
  induction u as [| c u IH]; cbn [Py.lstrip]; [reflexivity |].
  rewrite app_cons. cbn [Py.lstrip].
  destruct (Py.isspace c); [exact IH | discriminate].
Qed.

Lemma lstrip_idem s : Py.lstrip (Py.lstrip s) = Py.lstrip s.
Proof.
  induction s as [| c s IH]; [reflexivity |].
  cbn [Py.lstrip]. destruct (Py.isspace c) eqn:E; [exact IH |].
  cbn [Py.lstrip]. rewrite E. reflexivity.
Qed.

Lemma lstrip_length s : String.length (Py.lstrip s) <= String.length s.
Proof.
  induction s as [| c s IH]; [reflexivity |].
  cbn [Py.lstrip]. destruct (Py.isspace c); cbn [String.length]; lia.
Qed.

Lemma rstrip_length s : String.length (Py.rstrip s) <= String.length s.
Proof.
  induction s as [| c s IH]; [reflexivity |].
  cbn [Py.rstrip]. destruct (Py.rstrip s); [destruct (Py.isspace c) |];
    cbn [String.length] in *; lia.
Qed.

Lemma lstrip_fix s : String.length s <= String.length (Py.lstrip s) -> Py.lstrip s = s.
Proof.
  destruct s as [| c s]; [reflexivity |]. cbn [Py.lstrip].
  destruct (Py.isspace c); [| reflexivity].
  intros H. pose proof (lstrip_length s). cbn [String.length] in H. lia.
Qed.

(** [rstrip] *)
Lemma rstrip_app_keep u v :
  Py.rstrip v <> "" -> Py.rstrip (u ++ v) = u ++ Py.rstrip v.
Proof.
  intros Hv. induction u as [| c u IH]; [reflexivity |].
  rewrite !app_cons. cbn [Py.rstrip]. rewrite IH.
  destruct (u ++ Py.rstrip v) eqn:E; [| reflexivity].
  apply app_eq_nil in E as [_ E]. congruence.
Qed.

(** A string that [strip] leaves alone is left alone by both halves. *)
Lemma strip_fix s : Py.strip s = s -> Py.lstrip s = s /\ Py.rstrip s = s.
Proof.
  unfold Py.strip. intros H.
  assert (Hl : Py.lstrip s = s).
  { apply lstrip_fix. rewrite <- H at 1. apply rstrip_length. }
  rewrite Hl in H. split; assumption.
Qed.

Lemma lstrip_space_app w : Py.lstrip (" " ++ w) = Py.lstrip w.
Proof. reflexivity. Qed.

Lemma strip_join e w :
  w <> "" -> Py.strip w = w -> Py.strip (e ++ " " ++ w) = lead e ++ w.
Proof.
  intros Hne Hw. apply strip_fix in Hw as [Hl Hr].
  unfold Py.strip, lead.
  destruct (Py.lstrip e) as [| c l] eqn:E.
  - rewrite (lstrip_app_blank _ _ E), lstrip_space_app, Hl, Hr. reflexivity.
  - rewrite lstrip_app_keep by (rewrite E; discriminate). rewrite E.
    rewrite <- app_assoc. rewrite rstrip_app_keep by (rewrite Hr; exact Hne).
    rewrite Hr. reflexivity.
Qed.

Lemma lstrip_lead_app e w :
  Py.lstrip w = w -> w <> "" -> Py.lstrip (lead e ++ w) = lead e ++ w.
Proof.
  intros Hl Hne. unfold lead. destruct (Py.lstrip e) as [| c l] eqn:E.
  - exact Hl.
  - rewrite app_assoc. rewrite <- E.
    rewrite lstrip_app_keep by (rewrite lstrip_idem, E; discriminate).
    rewrite lstrip_idem. reflexivity.
Qed.

Lemma join_clean a b :
  a <> "" -> b <> "" -> Py.strip a = a -> Py.strip b = b ->
  a ++ " " ++ b <> "" /\ Py.strip (a ++ " " ++ b) = a ++ " " ++ b.
Proof.
  intros Ha Hb Hsa Hsb. split.
  - destruct a; [congruence | rewrite app_cons; discriminate].
  - rewrite strip_join by assumption. unfold lead.
    apply strip_fix in Hsa as [-> _]. destruct a; [congruence |].
    rewrite app_assoc. reflexivity.
Qed.

End StrFacts.

(* ===================================================================== *)
(** * Facts about the pattern matcher *)
(* ===================================================================== *)

Module ReFacts.
Import Re Vocabulary StrFacts.

(** ** The matcher computes the relation *)

Lemma star_loop_sound a body :
  (forall s g s' g', In (s', g') (body s g) -> matches a s g s' g') ->
  forall n s g s' g',
    In (s', g') (star_loop body n s g) -> matches (Star a) s g s' g'.
Proof.
  intros Hbody. induction n as [| n IH]; intros s g s' g' H; cbn [star_loop] in H.
  - destruct H as [H | []]. injection H as <- <-. constructor.
  - apply in_app_or in H as [H | [H | []]].
    + apply in_flat_map in H as ([s1 g1] & H1 & H2). cbn [fst snd] in H2.
      destruct (Nat.ltb_spec (String.length s1) (String.length s)) as [Hlt | Hge];
        [| destruct H2].
      eapply m_star_more; [apply Hbody; exact H1 | exact Hlt | apply IH; exact H2].
    + injection H as <- <-. constructor.
Qed.

Lemma run_sound r :
  forall s g s' g', In (s', g') (run r s g) -> matches r s g s' g'.
Proof.
  induction r as [| p | a IHa b IHb | a IHa b IHb | a IHa | i a IHa |];
    intros s g s' g' H; cbn [run] in H.
  - destruct H as [H | []]. injection H as <- <-. constructor.
  - destruct s as [| c s]; [destruct H |].
    destruct (p c) eqn:E; [| destruct H].
    destruct H as [H | []]. injection H as <- <-. constructor. exact E.
  - apply in_flat_map in H as ([s1 g1] & H1 & H2).
    econstructor; [apply IHa; exact H1 | apply IHb; exact H2].
  - apply in_app_or in H as [H | H]; [apply m_alt_l | apply m_alt_r]; auto.
  - eapply star_loop_sound; [exact IHa | exact H].
  - apply in_map_iff in H as ([s1 g1] & E & H1). cbn [fst snd] in E.
    injection E as <- <-. constructor. apply IHa. exact H1.
  - destruct s as [| c [| c' s]].
    + destruct H as [H | []]. injection H as <- <-. constructor.
    + destruct c as [[] [] [] [] [] [] [] []]; cbn in H; try (destruct H; fail).
      destruct H as [H | []]. injection H as <- <-. constructor.
    + destruct c as [[] [] [] [] [] [] [] []]; cbn in H; destruct H.
Qed.

Lemma flat_map_all_nil {A B} (f : A -> list B) (l : list A) :
  (forall x, f x = []) -> flat_map f l = [].
Proof. intros H. induction l as [| x l IH]; cbn; [| rewrite H, IH]; reflexivity. Qed.

Lemma star_loop_fuel body :
  forall n m s g,
    String.length s <= n -> String.length s <= m ->
    star_loop body n s g = star_loop body m s g.
Proof.
  induction n as [| n IH]; intros m s g Hn Hm.
  - destruct m as [| m]; [reflexivity |]. cbn [star_loop].
    rewrite flat_map_all_nil; [reflexivity |].
    intros x. destruct (Nat.ltb_spec (String.length x.1) (String.length s)); [lia | reflexivity].
  - destruct m as [| m]; cbn [star_loop].
    + rewrite flat_map_all_nil; [reflexivity |].
      intros x. destruct (Nat.ltb_spec (String.length x.1) (String.length s)); [lia | reflexivity].
    + f_equal. apply flat_map_ext. intros x.
      destruct (Nat.ltb_spec (String.length x.1) (String.length s)); [| reflexivity].
      apply IH; lia.
Qed.

Lemma run_complete r s g s' g' :
  matches r s g s' g' -> In (s', g') (run r s g).
Proof.
  induction 1; cbn [run].
  - left. reflexivity.
  - rewrite H. left. reflexivity.
  - apply in_flat_map. exists (s1, g1). split; assumption.
  - apply in_or_app. left. assumption.
  - apply in_or_app. right. assumption.
  - destruct (String.length s); cbn [star_loop]; [left; reflexivity |].
    apply in_or_app. right. left. reflexivity.
  - cbn [run] in IHmatches2.
    destruct (String.length s) as [| n] eqn:E; [lia |]. cbn [star_loop].
    apply in_or_app. left. apply in_flat_map. exists (s1, g1).
    split; [assumption |]. cbn [fst snd].
    destruct (Nat.ltb_spec (String.length s1) (String.length s)) as [_ | Hge]; [| lia].
    rewrite (star_loop_fuel _ n (String.length s1)) by lia. assumption.
  - apply in_map_iff. exists (s1, g1). split; [reflexivity | assumption].
  - left. reflexivity.
  - left. reflexivity.
Qed.

(** [re.match] succeeds exactly when the pattern has a match, and what it
    returns is one. *)
Lemma re_match_Some r s m :
  re_match r s = Some m -> exists s', matches r s ∅ s' m.
Proof.
  unfold re_match. destruct (run r s ∅) as [| [s' g'] l] eqn:E; [discriminate |].
  intros H. injection H as <-. exists s'. apply run_sound. rewrite E. left. reflexivity.
Qed.

Lemma re_match_None r s s' g' :
  re_match r s = None -> ~ matches r s ∅ s' g'.
Proof.
  unfold re_match. intros H Hm. apply run_complete in Hm.
  destruct (run r s ∅); [destruct Hm | discriminate].
Qed.

Lemma re_match_is_Some r s s' g' :
  matches r s ∅ s' g' -> is_Some (re_match r s).
Proof.
  intros Hm. destruct (re_match r s) eqn:E; [eauto |].
  exfalso. eapply re_match_None; eauto.
Qed.


(** ** Inversion of the relation *)

Lemma matches_suffix r s g s' g' :
  matches r s g s' g' -> exists w, s = w ++ s'.
Proof.
  induction 1.
  - exists "". reflexivity.
  - exists (String c ""). reflexivity.
  - destruct IHmatches1 as [w1 ->], IHmatches2 as [w2 ->].
    exists (w1 ++ w2). rewrite app_assoc. reflexivity.
  - assumption.
  - assumption.
  - exists "". reflexivity.
  - destruct IHmatches1 as [w1 ->], IHmatches2 as [w2 ->].
    exists (w1 ++ w2). rewrite app_assoc. reflexivity.
  - assumption.
  - exists "". reflexivity.
  - exists "". reflexivity.
Qed.

Lemma substring_app w s' : String.substring 0 (String.length w) (w ++ s') = w.
Proof.
  induction w as [| c w IH]; [destruct s'; reflexivity |].
  rewrite app_cons. cbn [String.length String.substring]. rewrite IH. reflexivity.
Qed.

Lemma consumed_app w s' : consumed (w ++ s') s' = w.
Proof.
  unfold consumed. rewrite length_app.
  replace (String.length w + String.length s' - String.length s')
    with (String.length w) by lia.
  apply substring_app.
Qed.

Lemma m_cls_inv p s g s' g' :
  matches (Cls p) s g s' g' -> exists c, s = String c s' /\ p c = true /\ g' = g.
Proof. inversion 1; subst. eauto. Qed.

Lemma m_star_cls_inv p s g s' g' :
  matches (Star (Cls p)) s g s' g' ->
  g' = g /\ exists w, s = w ++ s' /\ all_chars p w = true.
Proof.
  intros H. remember (Star (Cls p)) as r eqn:Er.
  induction H; try discriminate; injection Er as ->.
  - split; [reflexivity |]. exists "". split; reflexivity.
  - apply m_cls_inv in H as (c & -> & Hc & ->).
    destruct (IHmatches2 eq_refl) as (-> & w & -> & Hw).
    split; [reflexivity |]. exists (String c w). split; [reflexivity |].
    cbn [all_chars]. rewrite Hc, Hw. reflexivity.
Qed.

Lemma m_star_cls_intro p w s' g :
  all_chars p w = true -> matches (Star (Cls p)) (w ++ s') g s' g.
Proof.
  induction w as [| c w IH]; cbn [all_chars]; intros H.
  - constructor.
  - apply andb_prop in H as [Hc Hw]. rewrite app_cons.
    eapply m_star_more; [constructor; exact Hc | cbn [String.length]; lia | apply IH; exact Hw].
Qed.

Lemma m_plus_cls_inv p s g s' g' :
  matches (Plus (Cls p)) s g s' g' ->
  g' = g /\ exists w, w <> "" /\ s = w ++ s' /\ all_chars p w = true.
Proof.
  unfold Plus. inversion 1; subst.
  match goal with H : matches (Cls _) _ _ _ _ |- _ =>
    apply m_cls_inv in H as (c & -> & Hc & ->) end.
  match goal with H : matches (Star _) _ _ _ _ |- _ =>
    apply m_star_cls_inv in H as (-> & w & -> & Hw) end.
  split; [reflexivity |]. exists (String c w).
  split; [discriminate |]. split; [reflexivity |].
  cbn [all_chars]. rewrite Hc, Hw. reflexivity.
Qed.

Lemma m_plus_cls_intro p w s' g :
  w <> "" -> all_chars p w = true -> matches (Plus (Cls p)) (w ++ s') g s' g.
Proof.
  destruct w as [| c w]; [congruence |]. cbn [all_chars]. intros _ H.
  apply andb_prop in H as [Hc Hw]. unfold Plus. rewrite app_cons.
  econstructor; [constructor; exact Hc | apply m_star_cls_intro; exact Hw].
Qed.

Lemma m_lit_inv c s g s' g' :
  matches (lit c) s g s' g' -> s = String c s' /\ g' = g.
Proof.
  unfold lit. intros H. apply m_cls_inv in H as (x & -> & Hx & ->).
  apply Ascii.eqb_eq in Hx as ->. split; reflexivity.
Qed.

Lemma m_lit_intro c s g : matches (lit c) (String c s) g s g.
Proof. unfold lit. constructor. apply Ascii.eqb_refl. Qed.

Lemma m_eos_inv s g s' g' :
  matches Eos s g s' g' -> s' = s /\ g' = g /\ (s = "" \/ s = String "010" "").
Proof. inversion 1; subst; auto. Qed.

Lemma m_seq_inv a b s g s2 g2 :
  matches (Seq a b) s g s2 g2 ->
  exists s1 g1, matches a s g s1 g1 /\ matches b s1 g1 s2 g2.
Proof. inversion 1; subst; eauto. Qed.

Lemma m_opt_inv a s g s' g' :
  matches (Opt a) s g s' g' -> matches a s g s' g' \/ (s' = s /\ g' = g).
Proof.
  unfold Opt. inversion 1; subst; [left; assumption |].
  match goal with H : matches Eps _ _ _ _ |- _ => inversion H; subst end. auto.
Qed.

Lemma m_grp_inv i a s g s' g' :
  matches (Grp i a) s g s' g' ->
  exists w g1, s = w ++ s' /\ matches a s g s' g1 /\ g' = <[i := w]> g1.
Proof.
  inversion 1; subst.
  match goal with H : matches a _ _ _ _ |- _ =>
    destruct (matches_suffix _ _ _ _ _ H) as [w ->]; exists w; eexists;
    split; [reflexivity |]; split; [exact H |] end.
  rewrite consumed_app. reflexivity.
Qed.

Lemma m_grp_intro i a w s' g g1 :
  matches a (w ++ s') g s' g1 -> matches (Grp i a) (w ++ s') g s' (<[i := w]> g1).
Proof. intros H. rewrite <- (consumed_app w s') at 2. constructor. exact H. Qed.

End ReFacts.

(* ===================================================================== *)
(** * Facts about identifiers *)
(* ===================================================================== *)

Module IdFacts.
Import Re StrFacts ReFacts Vocabulary.

Lemma m_grp_inv_consumed i a s g s' g' :
  matches (Grp i a) s g s' g' ->
  exists g1, matches a s g s' g1 /\ g' = <[i := consumed s s']> g1.
Proof. inversion 1; subst. eauto. Qed.

(** ** The identifier pattern of the table rows *)

Lemma control_id_pattern_inv s g s' g' :
  matches Cnssi1253.control_id_pattern s g s' g' ->
  (s' = "" \/ s' = String "010" "") /\
  exists c1 c2 num enh,
    Py.isupper_az c1 = true /\ Py.isupper_az c2 = true /\
    digits num /\ (forall e, enh = Some e -> digits e) /\
    s = String c1 (String c2 ("-" ++ num ++ enhancement_suffix enh ++ s')).
Proof.
  unfold Cnssi1253.control_id_pattern, upper, digit. intros H.
  apply m_seq_inv in H as (s1 & g1 & H1 & H).
  apply m_cls_inv in H1 as (c1 & -> & Hc1 & ->).
  apply m_seq_inv in H as (s2 & g2 & H2 & H).
  apply m_cls_inv in H2 as (c2 & -> & Hc2 & ->).
  apply m_seq_inv in H as (s3 & g3 & H3 & H).
  apply m_lit_inv in H3 as (-> & ->).
  apply m_seq_inv in H as (s4 & g4 & H4 & H).
  apply m_plus_cls_inv in H4 as (-> & num & Hnum & -> & Hd).
  apply m_seq_inv in H as (s5 & g5 & H5 & H).
  apply m_eos_inv in H as (-> & -> & Hend).
  split; [exact Hend |].
  exists c1, c2, num.
  apply m_opt_inv in H5 as [H5 | [-> ->]].
  - apply m_grp_inv_consumed in H5 as (g6 & H5 & _).
    apply m_seq_inv in H5 as (s6 & g7 & H6 & H5).
    apply m_lit_inv in H6 as (-> & ->).
    apply m_seq_inv in H5 as (s7 & g8 & H7 & H5).
    apply m_plus_cls_inv in H7 as (-> & e & He & -> & Hde).
    apply m_lit_inv in H5 as (-> & ->).
    exists (Some e). split; [exact Hc1 |]. split; [exact Hc2 |].
    split; [split; assumption |].
    split; [intros e' [= <-]; split; assumption |].
    cbn [enhancement_suffix]. rewrite !app_cons, !app_nil_l, !app_assoc.
    rewrite !app_cons, !app_nil_l. reflexivity.
  - exists None. split; [exact Hc1 |]. split; [exact Hc2 |].
    split; [split; assumption |].
    split; [intros e' [=] |].
    cbn [enhancement_suffix]. rewrite !app_cons, !app_nil_l. reflexivity.
Qed.

Lemma control_id_pattern_intro c1 c2 num enh g :
  Py.isupper_az c1 = true -> Py.isupper_az c2 = true ->
  digits num -> (forall e, enh = Some e -> digits e) ->
  exists g',
    matches Cnssi1253.control_id_pattern
      (String c1 (String c2 ("-" ++ num ++ enhancement_suffix enh))) g "" g'.
Proof.
  intros Hc1 Hc2 [Hn Hd] He.
  unfold Cnssi1253.control_id_pattern, upper, digit.
  destruct enh as [e |]; cbn [enhancement_suffix].
  - destruct (He e eq_refl) as [Hen Hed].
    eexists. rewrite !app_cons, !app_nil_l.
    econstructor; [constructor; exact Hc1 |].
    econstructor; [constructor; exact Hc2 |].
    econstructor; [apply m_lit_intro |].
    econstructor; [apply m_plus_cls_intro; assumption |].
    econstructor; [| constructor].
    apply m_alt_l. rewrite <- (app_nil_r (String "(" (e ++ ")"))) at 1.
    apply m_grp_intro. rewrite app_nil_r.
    econstructor; [apply m_lit_intro |].
    econstructor; [apply m_plus_cls_intro; assumption | apply m_lit_intro].
  - eexists. rewrite !app_cons, !app_nil_l.
    econstructor; [constructor; exact Hc1 |].
    econstructor; [constructor; exact Hc2 |].
    econstructor; [apply m_lit_intro |].
    econstructor; [apply m_plus_cls_intro; assumption |].
    econstructor; [apply m_alt_r; constructor | constructor].
Qed.


(** ** Characters *)

Lemma upper_not_space c : Py.isupper_az c = true -> Py.isspace c = false.
Proof. destruct c as [[] [] [] [] [] [] [] []]; vm_compute; congruence. Qed.

Lemma digit_not_space c : Py.isdigit c = true -> Py.isspace c = false.
Proof. destruct c as [[] [] [] [] [] [] [] []]; vm_compute; congruence. Qed.

Lemma upper_not_digit c : Py.isupper_az c = true -> Py.isdigit c = false.
Proof. destruct c as [[] [] [] [] [] [] [] []]; vm_compute; congruence. Qed.

(** ** Stripping *)

Lemma last_char w :
  w <> "" -> exists u c, w = u ++ String c "".
Proof.
  induction w as [| a w IH]; [congruence |]. intros _.
  destruct w as [| b w].
  - exists "", a. reflexivity.
  - destruct IH as (u & c & E); [discriminate |].
    exists (String a u), c. rewrite app_cons, <- E. reflexivity.
Qed.

Lemma all_chars_app p u v :
  all_chars p (u ++ v) = all_chars p u && all_chars p v.
Proof.
  induction u as [| c u IH]; [reflexivity |].
  rewrite app_cons. cbn [all_chars]. rewrite IH, andb_assoc. reflexivity.
Qed.

Lemma rstrip_keeps_last u c :
  Py.isspace c = false -> Py.rstrip (u ++ String c "") = u ++ String c "".
Proof.
  intros Hc. rewrite rstrip_app_keep; cbn [Py.rstrip]; rewrite Hc;
    [reflexivity | discriminate].
Qed.

Lemma rstrip_last_not_space s :
  forall u c, Py.rstrip s = u ++ String c "" -> Py.isspace c = false.
Proof.
  induction s as [| a s IH]; intros u c; cbn [Py.rstrip].
  - destruct u; [rewrite app_nil_l | rewrite app_cons]; discriminate.
  - destruct (Py.rstrip s) as [| b r] eqn:E.
    + destruct (Py.isspace a) eqn:Ea.
      * destruct u; [rewrite app_nil_l | rewrite app_cons]; discriminate.
      * destruct u as [| a' u]; [rewrite app_nil_l | rewrite app_cons].
        -- intros [= <-]. exact Ea.
        -- intros [= _ H]. destruct u; [rewrite app_nil_l in H | rewrite app_cons in H];
             discriminate.
    + destruct u as [| a' u]; [rewrite app_nil_l | rewrite app_cons].
      * intros [=].
      * intros [= _ H]. apply (IH u c). exact H.
Qed.

Lemma strip_last_not_space s u c :
  Py.strip s = u ++ String c "" -> Py.isspace c = false.
Proof. unfold Py.strip. apply rstrip_last_not_space. Qed.

(** An identifier has no blank at either end. *)
Lemma strip_identifier lo hi x : 0 < lo -> identifier lo hi x -> Py.strip x = x /\ x <> "".
Proof.
  intros Hlo (letters & num & enh & ([Hl _] & Hup & [Hn Hd] & He) & ->).
  unfold render_id.
  destruct letters as [| c1 l]; [cbn in Hl; lia |].
  cbn [all_chars] in Hup. apply andb_prop in Hup as [Hc1 _].
  split; [| rewrite app_cons; discriminate].
  unfold Py.strip. rewrite app_cons. cbn [Py.lstrip].
  rewrite (upper_not_space _ Hc1). rewrite <- app_cons.
  assert (Hlast : exists u c, String c1 l ++ "-" ++ num ++ enhancement_suffix enh
                              = u ++ String c "" /\ Py.isspace c = false).
  { destruct enh as [e |]; cbn [enhancement_suffix].
    - exists (String c1 l ++ "-" ++ num ++ "(" ++ e), ")"%char.
      split; [| reflexivity]. rewrite !app_assoc. reflexivity.
    - destruct (last_char num Hn) as (u & c & ->).
      rewrite all_chars_app in Hd. apply andb_prop in Hd as [_ Hc].
      cbn [all_chars] in Hc. rewrite andb_true_r in Hc.
      exists (String c1 l ++ "-" ++ u), c. split; [| apply digit_not_space; exact Hc].
      rewrite app_nil_r, !app_assoc. reflexivity. }
  destruct Hlast as (u & c & -> & Hc). apply rstrip_keeps_last. exact Hc.
Qed.

(** ** Uniqueness of the decomposition *)

Lemma span_unique p w1 :
  forall w2 r1 r2,
    all_chars p w1 = true -> all_chars p w2 = true ->
    stops p r1 -> stops p r2 ->
    w1 ++ r1 = w2 ++ r2 -> w1 = w2 /\ r1 = r2.
Proof.
  induction w1 as [| c w1 IH]; intros [| c' w2] r1 r2 H1 H2 S1 S2;
    rewrite ?app_cons, ?app_nil_l; intros E.
  - auto.
  - subst r1. cbn in S1, H2. apply andb_prop in H2 as [H2 _]. congruence.
  - subst r2. cbn in S2, H1. apply andb_prop in H1 as [H1 _]. congruence.
  - injection E as <- E. cbn [all_chars] in H1, H2.
    apply andb_prop in H1 as [_ H1]. apply andb_prop in H2 as [_ H2].
    destruct (IH w2 r1 r2 H1 H2 S1 S2 E) as [-> ->]. auto.
Qed.

End IdFacts.

(* ===================================================================== *)
(** * Facts about the table rows ([parse_control_row]) *)
(* ===================================================================== *)

Module TableRows.

Import Cnssi1253 Vocabulary StrFacts.

Lemma parse_control_row_unfold r st rec :
  parse_control_row r st = Some rec ->
  10 <= length r /\ parse_control_row_from (is_withdrawn r) r st = Some rec.
Proof.
  unfold parse_control_row.
  destruct (Nat.ltb_spec (length r) 10) as [Hlt | Hge]; [discriminate |].
  intros H. split; [exact Hge | exact H].
Qed.

(** What the flag does to the record: nothing but [selected] and
    [withdrawn]. *)
Lemma parse_control_row_from_flag b r st rec :
  parse_control_row_from b r st = Some rec ->
  exists rec0,
    parse_control_row_from false r st = Some rec0 /\
    rec = {| control_id := control_id rec0; title := title rec0;
             selected := if b then false else selected rec0;
             selections := selections rec0;
             parameter_value := parameter_value rec0;
             justification := justification rec0;
             withdrawn := if b then Some true else None |}.
Proof.
  unfold parse_control_row_from.
  destruct (find_control_id _) as [[cid idx] |]; [| discriminate].
  intros H. injection H as <-.
  eexists. split; [reflexivity |]. cbn. reflexivity.
Qed.

Lemma contains_truthy sub s :
  sub <> "" -> Py.contains sub s = true -> Py.truthy s = true.
Proof.
  intros Hsub. destruct s; [| reflexivity].
  destruct sub; [congruence | cbn; discriminate].
Qed.

(** Line 85 finds the marker exactly when some cell contains it. *)
Lemma is_withdrawn_spec (r : row) : is_withdrawn r = true <-> has_withdrawn_cell r.
Proof.
  unfold is_withdrawn, has_withdrawn_cell. rewrite existsb_exists. split.
  - intros ([s |] & Hin & H); [| discriminate].
    apply andb_prop in H as [_ H]. eauto.
  - intros (s & Hin & H). exists (Some s). split; [exact Hin |].
    rewrite H, (contains_truthy "Withdrawn" s); [reflexivity | discriminate | exact H].
Qed.

Lemma is_withdrawn_false (r : row) : is_withdrawn r = false <-> ~ has_withdrawn_cell r.
Proof.
  rewrite <- is_withdrawn_spec. destruct (is_withdrawn r); split; congruence.
Qed.

(** C1.  A row in which some cell contains "Withdrawn" yields a record that
    is not selected, whatever its marks and whatever its family. *)
Theorem withdrawn_never_selected (r : row) (st : TableStructure) (rec : ControlRecord) :
  parse_control_row r st = Some rec ->
  has_withdrawn_cell r ->
  selected rec = false /\ withdrawn rec = Some true.
Proof.
  intros H Hw. apply is_withdrawn_spec in Hw.
  apply parse_control_row_unfold in H as [_ H].
  rewrite Hw in H. apply parse_control_row_from_flag in H as (rec0 & _ & ->).
  split; reflexivity.
Qed.

Lemma withdrawn_never_selected_witness :
  exists rec,
    parse_control_row withdrawn_marked_row sample_structure = Some rec /\
    has_withdrawn_cell withdrawn_marked_row /\
    low (confidentiality (selections rec)) = true /\
    selected rec = false /\ withdrawn rec = Some true.
Proof.
  assert (Hw : has_withdrawn_cell withdrawn_marked_row).
  { exists "Withdrawn: Incorporated into PM-10".
    split; [right; left; reflexivity | vm_compute; reflexivity]. }
  eexists. split; [vm_compute; reflexivity |].
  split; [exact Hw |].
  split; [vm_compute; reflexivity |].
  apply (withdrawn_never_selected withdrawn_marked_row sample_structure);
    [vm_compute; reflexivity | exact Hw].
Defined.

(** C2 as stated fails: a row of the organization-wide family that carries
    the withdrawn marker is not selected. *)
Lemma pm_override_not_unconditional :
  ~ (forall (r : row) (st : TableStructure) (rec : ControlRecord),
        parse_control_row r st = Some rec ->
        (family_of (control_id rec) = "PM" -> selected rec = true) /\
        (family_of (control_id rec) = "PT" -> selected rec = false)).
Proof.
  intros H.
  destruct (parse_control_row withdrawn_marked_row sample_structure) as [rec |] eqn:E;
    [| vm_compute in E; discriminate].
  destruct (H _ _ _ E) as [Hpm _].
  vm_compute in E. injection E as <-.
  specialize (Hpm eq_refl). discriminate.
Qed.

(** C2, amended.  A row of the family PM that has no withdrawn marker is
    selected, and a row of the family PT is not selected, whatever the
    column marks. *)
Theorem family_overrides (r : row) (st : TableStructure) (rec : ControlRecord) :
  parse_control_row r st = Some rec ->
  (family_of (control_id rec) = "PM" -> ~ has_withdrawn_cell r ->
   selected rec = true) /\
  (family_of (control_id rec) = "PT" -> selected rec = false).
Proof.
  intros H. apply parse_control_row_unfold in H as [_ H].
  unfold parse_control_row_from in H.
  destruct (find_control_id _) as [[cid idx] |]; [| discriminate].
  injection H as <-. cbn. split.
  - intros -> Hw. apply is_withdrawn_false in Hw. rewrite Hw. reflexivity.
  - intros ->. cbn. destruct (is_withdrawn r); reflexivity.
Qed.

Lemma family_overrides_witness :
  (exists rec, parse_control_row pm_row sample_structure = Some rec /\
               selected rec = true) /\
  (exists rec, parse_control_row pt_row sample_structure = Some rec /\
               high (integrity (selections rec)) = true /\
               selected rec = false).
Proof.
  split.
  - eexists. split; [vm_compute; reflexivity |].
    apply (family_overrides pm_row sample_structure);
      [vm_compute; reflexivity | vm_compute; reflexivity |].
    apply is_withdrawn_false. vm_compute. reflexivity.
  - eexists. split; [vm_compute; reflexivity |].
    split; [vm_compute; reflexivity |].
    apply (family_overrides pt_row sample_structure); vm_compute; reflexivity.
Defined.

(** C10.  When the justification (parameter value) column is column 0 the
    justification (parameter value) of the record is absent, whatever the
    cell holds: the column index is tested for truth. *)
Theorem text_column_zero_absent (r : row) (st : TableStructure) (rec : ControlRecord) :
  parse_control_row r st = Some rec ->
  (justification_col st = Some 0 -> justification rec = None) /\
  (param_value_col st = Some 0 -> parameter_value rec = None).
Proof.
  intros H. apply parse_control_row_unfold in H as [_ H].
  unfold parse_control_row_from in H.
  destruct (find_control_id _) as [[cid idx] |]; [| discriminate].
  injection H as <-. cbn. split; intros ->; reflexivity.
Qed.

Lemma text_column_zero_absent_witness :
  justification_col (detect_table_structure justification_first_header) = Some 0 /\
  exists rec,
    parse_control_row justification_first_row
      (detect_table_structure justification_first_header) = Some rec /\
    justification rec = None.
Proof.
  split; [vm_compute; reflexivity |].
  eexists. split; [vm_compute; reflexivity |].
  apply (text_column_zero_absent justification_first_row
           (detect_table_structure justification_first_header));
    vm_compute; reflexivity.
Defined.

(** ** The marker in a cell of its own *)

















(** ** The marker inside the title *)









End TableRows.

(* ===================================================================== *)
(** * Facts about the identifier matcher of the table rows *)
(* ===================================================================== *)

Module Identifiers.
Import Re Vocabulary StrFacts ReFacts IdFacts Cnssi1253.

Lemma two_letters letters :
  2 <= String.length letters <= 2 -> all_chars Py.isupper_az letters = true ->
  exists c1 c2, letters = String c1 (String c2 "") /\
                Py.isupper_az c1 = true /\ Py.isupper_az c2 = true.
Proof.
  destruct letters as [| c1 [| c2 [| c3 l]]]; cbn [String.length all_chars];
    intros Hl Hu; try lia.
  apply andb_prop in Hu as [H1 Hu]. apply andb_prop in Hu as [H2 _]. eauto.
Qed.

Lemma match_control_id_identifier c x :
  match_control_id c = Some x -> identifier 2 2 x.
Proof.
  unfold match_control_id. destruct c as [s |]; [| discriminate].
  destruct (Py.truthy s); [| discriminate].
  destruct (re_match control_id_pattern (Py.strip s)) as [m |] eqn:E; [| discriminate].
  intros [= <-]. apply re_match_Some in E as (s' & Hm).
  apply control_id_pattern_inv in Hm as (Hend & c1 & c2 & num & enh & H1 & H2 & Hn & He & E).
  destruct Hend as [-> | ->].
  - rewrite E. exists (String c1 (String c2 "")), num, enh.
    split; [| unfold render_id; rewrite !app_nil_r; reflexivity].
    split; [cbn; lia |]. split; [cbn; rewrite H1, H2; reflexivity |].
    split; [exact Hn | exact He].
  - exfalso.
    assert (Hc : Py.isspace "010" = false); [| vm_compute in Hc; discriminate].
    apply (strip_last_not_space s
             (String c1 (String c2 ("-" ++ num ++ enhancement_suffix enh)))).
    rewrite E. rewrite !app_cons, !app_assoc. reflexivity.
Qed.

Lemma identifier_match_control_id x :
  identifier 2 2 x -> match_control_id (Some x) = Some x.
Proof.
  intros Hx. destruct (strip_identifier 2 2 x ltac:(lia) Hx) as [Hs Hne].
  destruct Hx as (letters & num & enh & (Hl & Hup & Hn & He) & ->).
  destruct (two_letters _ Hl Hup) as (c1 & c2 & -> & H1 & H2).
  unfold match_control_id. rewrite Hs.
  apply truthy_true in Hne. rewrite Hne.
  destruct (control_id_pattern_intro c1 c2 num enh ∅ H1 H2 Hn He) as (g' & Hm).
  apply re_match_is_Some in Hm as [m Hm].
  unfold render_id. rewrite ?app_cons, ?app_nil_l in Hm. rewrite ?app_cons, ?app_nil_l.
  rewrite Hm. reflexivity.
Qed.

(** C4 as stated fails: a three-letter identifier of the grammar is not
    matched by the identifier pattern of the table rows. *)
Lemma three_letter_identifier_not_matched :
  identifier 2 3 "ABC-1" /\ match_control_id (Some "ABC-1") = None.
Proof.
  split; [| vm_compute; reflexivity].
  exists "ABC", "1", None. split; [| reflexivity].
  split; [cbn; lia |]. split; [reflexivity |].
  split; [split; [discriminate | reflexivity] |].
  intros e [=].
Qed.

(** C4, amended.  The identifier matcher of the table rows returns a string
    of the grammar with exactly two capital letters unchanged, returns
    nothing but such strings, and so rejects every malformed near-match. *)
Theorem control_id_round_trip :
  (forall x, identifier 2 2 x -> match_control_id (Some x) = Some x) /\
  (forall c x, match_control_id c = Some x -> identifier 2 2 x) /\
  (forall s, ~ identifier 2 2 (Py.strip s) -> match_control_id (Some s) = None).
Proof.
  split; [exact identifier_match_control_id |].
  split; [exact match_control_id_identifier |].
  intros s Hs. destruct (match_control_id (Some s)) as [x |] eqn:E; [| reflexivity].
  exfalso. apply Hs. pose proof (match_control_id_identifier _ _ E) as Hx.
  unfold match_control_id in E. destruct (Py.truthy s); [| discriminate].
  destruct (re_match _ _); [| discriminate]. injection E as ->. exact Hx.
Qed.

Lemma control_id_round_trip_witness :
  identifier 2 2 "AC-12(3)" /\
  match_control_id (Some "AC-12(3)") = Some "AC-12(3)" /\
  match_control_id (Some "AC12") = None.
Proof.
  assert (H : identifier 2 2 "AC-12(3)").
  { exists "AC", "12", (Some "3"). split; [| reflexivity].
    split; [cbn; lia |]. split; [reflexivity |].
    split; [split; [discriminate | reflexivity] |].
    intros e [= <-]; split; [discriminate | reflexivity]. }
  destruct control_id_round_trip as (Hrt & Hid & Hno).
  split; [exact H |]. split; [exact (Hrt _ H) |].
  apply Hno. intros (letters & num & enh & (Hl & Hup & Hn & He) & E).
  destruct (two_letters _ Hl Hup) as (c1 & c2 & -> & _ & _).
  unfold render_id in E. rewrite !app_cons, !app_nil_l in E. discriminate E.
Defined.

End Identifiers.

(* ===================================================================== *)
(** * Facts about the detection of the table structure *)
(* ===================================================================== *)

Module Structure.
Import Vocabulary Cnssi1253.

Lemma lmh_scan_bounds cells :
  forall i, Forall (fun ic => i <= fst ic) cells ->
            Forall (fun p => i <= fst p) (lmh_scan cells).
Proof.
  induction cells as [| [j c] t IH]; intros i H; cbn [lmh_scan]; [constructor |].
  inversion H as [| ? ? Hj Ht]; subst.
  destruct (lmh_token c); [constructor; [exact Hj |] |]; apply IH; exact Ht.
Qed.

Lemma enumerate_from_bounds {X} (l : list X) :
  forall i, Forall (fun ic => i <= fst ic) (Py.enumerate_from i l).
Proof.
  induction l as [| x t IH]; intros i; cbn [Py.enumerate_from]; constructor.
  - cbn. lia.
  - eapply List.Forall_impl; [| apply (IH (S i))]. cbn. intros; lia.
Qed.

(** The columns of the level tokens come in increasing order. *)
Lemma lmh_scan_increasing (r : row) :
  forall i, StronglySorted (fun p q => fst p < fst q)
              (lmh_scan (Py.enumerate_from i r)).
Proof.
  induction r as [| c t IH]; intros i; cbn [Py.enumerate_from lmh_scan]; [constructor |].
  destruct (lmh_token c); [| apply IH].
  constructor; [apply IH |].
  eapply List.Forall_impl; [| apply lmh_scan_bounds, (enumerate_from_bounds t (S i))].
  cbn. intros; lia.
Qed.

Lemma lmh_positions_increasing r :
  StronglySorted (fun p q => fst p < fst q) (lmh_positions r).
Proof. apply lmh_scan_increasing. Qed.

Ltac decide_ltb :=
  repeat match goal with
    | |- context [?a <? ?b] =>
        first [ rewrite (proj2 (Nat.ltb_lt a b)) by lia
              | rewrite (proj2 (Nat.ltb_ge a b)) by lia ]
    end.

Lemma build_ranges_nine c1 c2 c3 c4 c5 c6 c7 c8 c9 :
  c1 < c2 -> c2 < c3 -> c3 < c4 -> c4 < c5 -> c5 < c6 -> c6 < c7 -> c7 < c8 ->
  c8 < c9 ->
  build_ranges [(c1, L); (c2, M); (c3, H); (c4, L); (c5, M); (c6, H);
                (c7, L); (c8, M); (c9, H)]
  = [((C, L), (c1, c2 - 1)); ((C, M), (c2, c3 - 1)); ((C, H), (c3, c4 - 1));
     ((I, L), (c4, c5 - 1)); ((I, M), (c5, c6 - 1)); ((I, H), (c6, c7 - 1));
     ((A, L), (c7, c8 - 1)); ((A, M), (c8, c9 - 1)); ((A, H), (c9, c9 + 2))].
Proof.
  intros. unfold build_ranges, range_step, range_end.
  cbn [fold_left fst snd List.find nth_error cia_list].
  decide_ltb.
  reflexivity.
Qed.

Lemma nine_levels (lmh : list (nat * level)) :
  map snd lmh = level_order ->
  StronglySorted (fun p q => fst p < fst q) lmh ->
  exists c1 c2 c3 c4 c5 c6 c7 c8 c9,
    lmh = [(c1, L); (c2, M); (c3, H); (c4, L); (c5, M); (c6, H);
           (c7, L); (c8, M); (c9, H)] /\
    c1 < c2 /\ c2 < c3 /\ c3 < c4 /\ c4 < c5 /\ c5 < c6 /\ c6 < c7 /\
    c7 < c8 /\ c8 < c9.
Proof.
  intros Hl Hs.
  do 9 (destruct lmh as [| [? ?] lmh]; [discriminate Hl |]).
  destruct lmh; [| discriminate Hl].
  cbn in Hl. injection Hl as -> -> -> -> -> -> -> -> ->.
  repeat match goal with
         | H : StronglySorted _ (_ :: _) |- _ => inversion H; subst; clear H
         end.
  repeat match goal with
         | H : Forall _ (_ :: _) |- _ => inversion H; subst; clear H
         end.
  cbn [fst] in *. do 9 eexists. split; [reflexivity |]. repeat split; assumption.
Qed.

(** C5 as stated fails: nine level tokens that are all L give three
    ranges. *)
Lemma nine_tokens_three_ranges :
  length nine_low_header = 3 /\
  cia_positions nine_low_header = [(C, 2); (I, 5); (A, 8)] /\
  map fst (lmh_positions (nth 2 nine_low_header []))
  = [2; 3; 4; 5; 6; 7; 8; 9; 10] /\
  length (ranges (detect_table_structure nine_low_header)) = 3.
Proof. repeat split; vm_compute; reflexivity. Qed.

(** C5, amended.  When the third header row holds nine level tokens in the
    order L, M, H, L, M, H, L, M, H, the detector gives exactly nine
    ranges, keyed C-L, C-M, C-H, I-L, ..., A-H in this order, each starting
    at the column of its token and ending one column before the next token,
    the last one ending two columns to the right of its token; every range
    has at least one column and every range ends before the next starts. *)
Theorem detect_table_structure_nine_ranges (r0 r1 r2 : row) (rest : list row) :
  map snd (lmh_positions r2) = level_order ->
  let rs := ranges (detect_table_structure (r0 :: r1 :: r2 :: rest)) in
  length rs = 9 /\
  map fst rs = range_keys /\
  Forall (fun kr => fst (snd kr) <= snd (snd kr)) rs /\
  StronglySorted before rs /\
  exists c1 c2 c3 c4 c5 c6 c7 c8 c9,
    map fst (lmh_positions r2) = [c1; c2; c3; c4; c5; c6; c7; c8; c9] /\
    map snd rs = [(c1, c2 - 1); (c2, c3 - 1); (c3, c4 - 1); (c4, c5 - 1);
                  (c5, c6 - 1); (c6, c7 - 1); (c7, c8 - 1); (c8, c9 - 1);
                  (c9, c9 + 2)].
Proof.
  intros Hl.
  destruct (nine_levels _ Hl (lmh_positions_increasing r2))
    as (c1 & c2 & c3 & c4 & c5 & c6 & c7 & c8 & c9 & E & H1 & H2 & H3 & H4 & H5
        & H6 & H7 & H8).
  unfold detect_table_structure. cbn [ranges]. rewrite E.
  rewrite build_ranges_nine by assumption. cbn zeta.
  split; [reflexivity |]. split; [reflexivity |].
  split; [repeat constructor; cbn [fst snd]; lia |].
  split.
  - unfold before. repeat (constructor; [| repeat constructor; cbn [fst snd]; lia]).
    constructor.
  - exists c1, c2, c3, c4, c5, c6, c7, c8, c9. split; reflexivity.
Qed.

Lemma detect_table_structure_nine_ranges_witness :
  map snd (ranges sample_structure)
  = [(2, 2); (3, 3); (4, 4); (5, 5); (6, 6); (7, 7); (8, 8); (9, 9); (10, 12)] /\
  map fst (ranges sample_structure) = range_keys /\
  StronglySorted before (ranges sample_structure).
Proof.
  destruct (detect_table_structure_nine_ranges
              (nth 0 sample_header []) (nth 1 sample_header [])
              (nth 2 sample_header []) [])
    as (_ & Hk & _ & Hs & _); [vm_compute; reflexivity |].
  split; [vm_compute; reflexivity |]. split; [exact Hk | exact Hs].
Defined.

End Structure.

(* ===================================================================== *)
(** * Facts about the record stores *)
(* ===================================================================== *)

Module RecordStore.
Import Vocabulary StrFacts CnssiOverlay.

Lemma merge_text_clean e w :
  clean w -> merge_text e w = if Py.truthy e then lead e ++ w else w.
Proof.
  intros [Hne Hw]. unfold merge_text. rewrite Hw.
  apply truthy_true in Hne. rewrite Hne. cbn [andb].
  destruct (Py.truthy e); [| reflexivity].
  apply strip_join; [apply truthy_true; assumption | assumption].
Qed.

Lemma merge_text_sequence e a b :
  clean a -> clean b ->
  merge_text (merge_text e a) b = merge_text e (a ++ " " ++ b).
Proof.
  intros Ca Cb. pose proof Ca as [Ha Hsa]. pose proof Cb as [Hb Hsb].
  assert (Cab : clean (a ++ " " ++ b)) by (apply join_clean; assumption).
  rewrite (merge_text_clean e a), (merge_text_clean e (a ++ " " ++ b)) by assumption.
  rewrite merge_text_clean by assumption.
  destruct (Py.truthy e) eqn:He.
  - assert (Hx : Py.truthy (lead e ++ a) = true).
    { apply truthy_true. intros E. apply app_eq_nil in E as [_ E]. congruence. }
    rewrite Hx. unfold lead at 1.
    rewrite lstrip_lead_app by (try apply strip_fix; assumption).
    destruct (lead e ++ a) eqn:E; [discriminate |]. rewrite <- E.
    rewrite !app_assoc. reflexivity.
  - apply truthy_true in Ha. rewrite Ha. unfold lead.
    apply strip_fix in Hsa as [-> _]. destruct a; [discriminate |].
    rewrite app_assoc. reflexivity.
Qed.

Lemma strip_nonblank w : Py.strip w <> "" -> w <> "".
Proof. intros H ->. apply H. reflexivity. Qed.

Lemma merge_text_appended e w : appended e w (merge_text e w).
Proof.
  unfold appended, merge_text. repeat split.
  - intros Hw ->. apply strip_nonblank in Hw as Hw'.
    apply truthy_true in Hw, Hw'. rewrite Hw, Hw'. reflexivity.
  - intros Hw He. apply strip_nonblank in Hw as Hw'.
    apply truthy_true in Hw, Hw', He. rewrite Hw, Hw', He. reflexivity.
  - intros [He Hse] Cw. fold (merge_text e w). rewrite merge_text_clean by assumption.
    apply truthy_true in He as He'. rewrite He'. unfold lead.
    apply strip_fix in Hse as [-> _]. destruct e; [congruence |].
    rewrite app_assoc. reflexivity.
  - intros ->. rewrite andb_false_r. reflexivity.
Qed.

Lemma upsert_sequence controls id a b a' b' :
  clean a -> clean b -> clean a' -> clean b' ->
  upsert (upsert controls (fragment id a a')) (fragment id b b')
  = upsert controls (fragment id (a ++ " " ++ b) (a' ++ " " ++ b')).
Proof.
  intros Ca Cb Ca' Cb'. unfold upsert, fragment.
  cbn [cd_id cd_control_text cd_defined_value].
  destruct (controls !! id) as [existing |] eqn:E.
  - rewrite lookup_insert_eq, insert_insert_eq.
    cbn [control_text defined_value].
    rewrite !merge_text_sequence by assumption. reflexivity.
  - rewrite lookup_insert_eq, insert_insert_eq.
    cbn [control_text defined_value].
    destruct (merge_text_appended a b) as (_ & _ & H3 & _).
    destruct (merge_text_appended a' b') as (_ & _ & H3' & _).
    rewrite H3, H3' by assumption. reflexivity.
Qed.

(** C3 as stated fails: the store of the table pipeline keeps the last
    record of an identifier and drops the text of the earlier one. *)
Lemma table_store_replaces_record :
  exists rec1 rec2 rec,
    Cnssi1253.parse_control_row first_row sample_structure = Some rec1 /\
    Cnssi1253.parse_control_row second_row sample_structure = Some rec2 /\
    Cnssi1253.justification rec1 = Some "A" /\
    Cnssi1253.justification rec2 = Some "B" /\
    Cnssi1253.store_controls (Cnssi1253.store_controls ∅ [rec1]) [rec2] !! "AC-3"
    = Some rec /\
    Cnssi1253.justification rec = Some "B" /\
    Cnssi1253.justification rec <> Some "A B".
Proof.
  do 3 eexists.
  split; [vm_compute; reflexivity |].
  split; [vm_compute; reflexivity |].
  split; [reflexivity |]. split; [reflexivity |].
  split; [vm_compute; reflexivity |].
  split; [reflexivity | discriminate].
Qed.

(** C3, amended.  In the store of the overlay extractor an upsert under an
    identifier that exists appends each incoming text field that is not
    blank to the existing text, joined by a space and stripped, or sets it
    when the existing text is empty, and leaves the other identifiers
    alone; for stripped, non-empty fragments A and B, merging A and then B
    gives what merging "A B" gives. *)
Theorem upsert_appends_text (controls : gmap string entry) (cd : control_data)
    (existing : entry) :
  controls !! cd_id cd = Some existing ->
  (exists merged,
      upsert controls cd !! cd_id cd = Some merged /\
      appended (control_text existing) (cd_control_text cd) (control_text merged) /\
      appended (defined_value existing) (cd_defined_value cd) (defined_value merged)) /\
  (forall j, j <> cd_id cd -> upsert controls cd !! j = controls !! j) /\
  (forall a b a' b',
      clean a -> clean b -> clean a' -> clean b' ->
      upsert (upsert controls (fragment (cd_id cd) a a')) (fragment (cd_id cd) b b')
      = upsert controls (fragment (cd_id cd) (a ++ " " ++ b) (a' ++ " " ++ b'))).
Proof.
  intros E. split; [| split].
  - unfold upsert. rewrite E. eexists. rewrite lookup_insert_eq.
    split; [reflexivity |]. cbn. split; apply merge_text_appended.
  - intros j Hj. unfold upsert. rewrite E. apply lookup_insert_ne. congruence.
  - intros a b a' b'. apply upsert_sequence.
Qed.

Lemma upsert_appends_text_witness :
  exists merged,
    upsert overlay_store (fragment "AC-2" "continued text" "At least annually") !! "AC-2"
    = Some merged /\
    control_text merged = "Account Management continued text" /\
    defined_value merged = "At least annually" /\
    upsert (upsert overlay_store (fragment "AC-2" "A" "A")) (fragment "AC-2" "B" "B")
    = upsert overlay_store (fragment "AC-2" "A B" "A B").
Proof.
  destruct (upsert_appends_text overlay_store
              (fragment "AC-2" "continued text" "At least annually")
              {| control_text := "Account Management"; defined_value := "" |})
    as ((merged & Hm & Hct & Hdv) & _ & Hseq); [reflexivity |].
  exists merged. split; [exact Hm |]. cbn in Hct, Hdv.
  split; [| split].
  - destruct Hct as (_ & _ & H3 & _).
    rewrite H3; [reflexivity | split; [discriminate | reflexivity] ..].
  - destruct Hdv as (H1 & _). rewrite H1; [reflexivity | discriminate | reflexivity].
  - apply (Hseq "A" "B" "A" "B"); split; (discriminate || reflexivity).
Defined.

End RecordStore.

(* ===================================================================== *)
(** * Facts about the line pipeline *)
(* ===================================================================== *)

Module LinePipeline.
Import Re Vocabulary StrFacts ReFacts IdFacts ClassifiedOverlay.

Lemma first_match_Some ps s m :
  first_match ps s = Some m -> exists p, In p ps /\ re_match p s = Some m.
Proof.
  induction ps as [| p t IH]; cbn [first_match]; [discriminate |].
  destruct (re_match p s) as [m' |] eqn:E.
  - intros [= <-]. exists p. split; [left; reflexivity | exact E].
  - intros H. destruct (IH H) as (q & Hq & Hm). exists q. split; [right |]; assumption.
Qed.

Lemma m_ilit_inv c s g s' g' :
  matches (ilit c) s g s' g' ->
  exists x, s = String x s' /\ Py.lower_char x = Py.lower_char c /\ g' = g.
Proof.
  unfold ilit. intros H. apply m_cls_inv in H as (x & -> & Hx & ->).
  apply Ascii.eqb_eq in Hx. eauto.
Qed.

(** A match of a word under IGNORECASE consumes as many characters as the
    word has. *)
Lemma m_iword_inv w :
  forall s g s' g',
    matches (iword w) s g s' g' ->
    g' = g /\ exists w', s = w' ++ s' /\ Py.lower w' = Py.lower w.
Proof.
  induction w as [| c w IH]; intros s g s' g' H; cbn [iword] in H.
  - inversion H; subst. split; [reflexivity |]. exists "". split; reflexivity.
  - apply m_seq_inv in H as (s1 & g1 & H1 & H).
    apply m_ilit_inv in H1 as (x & -> & Hx & ->).
    apply IH in H as (-> & w' & -> & Hw).
    split; [reflexivity |]. exists (String x w'). split; [reflexivity |].
    cbn [Py.lower]. rewrite Hx, Hw. reflexivity.
Qed.

(** Every enhancement pattern starts with the word "Con" in some case. *)
Lemma enhancement_pattern_starts p s g s' g' :
  In p enhancement_patterns -> matches p s g s' g' ->
  exists x1 x2 x3 t,
    s = String x1 (String x2 (String x3 t)) /\ Py.lower_char x3 = "n"%char.
Proof.
  assert (Hw : forall w r,
             matches (iword (String "C" (String "o" (String "n" w))) ~> r)%re s g s' g' ->
             exists x1 x2 x3 t,
               s = String x1 (String x2 (String x3 t)) /\ Py.lower_char x3 = "n"%char).
  { intros w r H. apply m_seq_inv in H as (s1 & g1 & H & _). cbn [iword] in H.
    apply m_seq_inv in H as (s2 & g2 & H2 & H).
    apply m_ilit_inv in H2 as (x1 & -> & _ & ->).
    apply m_seq_inv in H as (s3 & g3 & H3 & H).
    apply m_ilit_inv in H3 as (x2 & -> & _ & ->).
    apply m_seq_inv in H as (s4 & g4 & H4 & H).
    apply m_ilit_inv in H4 as (x3 & -> & Hx3 & ->).
    exists x1, x2, x3, s4. split; [reflexivity | exact Hx3]. }
  unfold enhancement_patterns.
  intros [<- | [<- | [<- | [<- | [<- | []]]]]]; apply Hw.
Qed.

Lemma base_control_pattern_starts s g s' g' :
  matches base_control_pattern s g s' g' ->
  exists x1 x2 t, s = String x1 (String x2 (String "-" t)).
Proof.
  unfold base_control_pattern, upper. intros H.
  apply m_seq_inv in H as (s1 & g1 & H & _).
  apply m_grp_inv_consumed in H as (g2 & H & _).
  apply m_seq_inv in H as (s2 & g3 & H2 & H).
  apply m_cls_inv in H2 as (x1 & -> & _ & ->).
  apply m_seq_inv in H as (s3 & g4 & H3 & H).
  apply m_cls_inv in H3 as (x2 & -> & _ & ->).
  apply m_seq_inv in H as (s4 & g5 & H4 & H).
  apply m_lit_inv in H4 as (-> & ->).
  eauto.
Qed.

(** A line that is an enhancement header is not a base control line. *)
Lemma enhancement_not_base s m :
  flexible_enhancement_match s = Some m -> re_match base_control_pattern s = None.
Proof.
  intros H. apply first_match_Some in H as (p & Hp & H).
  apply re_match_Some in H as (s' & H).
  destruct (enhancement_pattern_starts _ _ _ _ _ Hp H) as (x1 & x2 & x3 & t & -> & Hx3).
  destruct (re_match base_control_pattern _) as [mb |] eqn:E; [| reflexivity].
  apply re_match_Some in E as (sb & E).
  apply base_control_pattern_starts in E as (y1 & y2 & u & [= _ _ -> _]).
  vm_compute in Hx3. discriminate.
Qed.

Lemma enhancement_id_not_base base n : enhancement_id base n <> base.
Proof.
  unfold enhancement_id. intros E.
  apply (f_equal String.length) in E. rewrite !length_app in E. cbn in E. lia.
Qed.

Lemma app_inv_head_str u v w : u ++ v = u ++ w -> v = w.
Proof.
  induction u as [| c u IH]; [rewrite !app_nil_l; auto |].
  rewrite !app_cons. intros [= E]. auto.
Qed.

Lemma app_inv_last_char u :
  forall v c, u ++ String c "" = v ++ String c "" -> u = v.
Proof.
  induction u as [| a u IH]; intros [| b v] c; rewrite ?app_cons, ?app_nil_l.
  - reflexivity.
  - intros [= _ E]. destruct v; rewrite ?app_cons, ?app_nil_l in E; discriminate.
  - intros [= _ E]. destruct u; rewrite ?app_cons, ?app_nil_l in E; discriminate.
  - intros [= <- E]. f_equal. eapply IH. exact E.
Qed.

Lemma enhancement_id_inj base n n' :
  enhancement_id base n = enhancement_id base n' -> n = n'.
Proof.
  unfold enhancement_id. intros E.
  apply app_inv_head_str, app_inv_head_str in E.
  eapply app_inv_last_char. exact E.
Qed.

(** The loop over the listed numbers. *)
Lemma add_enhancements base page_num nums :
  forall ctls,
    let title := match ctls !! base with Some info => name info | None => "" end in
    let final := fold_left (add_enhancement base page_num) nums ctls in
    final !! base = ctls !! base /\
    (forall n, In n (map Py.strip nums) ->
       final !! enhancement_id base n
       = Some {| name := title; attributes := ∅; page := page_num |}) /\
    (forall k, (forall n, In n (map Py.strip nums) -> k <> enhancement_id base n) ->
       final !! k = ctls !! k).
Proof.
  induction nums as [| x t IH]; intros ctls; cbn [fold_left map].
  - split; [reflexivity |]. split; [intros n [] | reflexivity].
  - specialize (IH (add_enhancement base page_num ctls x)).
    cbn zeta in IH |- *. destruct IH as (Hb & Hin & Hout).
    assert (Hbase : add_enhancement base page_num ctls x !! base = ctls !! base).
    { unfold add_enhancement. apply lookup_insert_ne. apply enhancement_id_not_base. }
    rewrite Hbase in Hb, Hin. split; [exact Hb |]. split.
    + intros n Hn.
      destruct (in_dec string_dec n (map Py.strip t)) as [Ht | Ht]; [apply Hin; exact Ht |].
      destruct Hn as [<- | Hn]; [| contradiction].
      rewrite Hout
        by (intros n' Hn' E; apply enhancement_id_inj in E; subst n'; contradiction).
      unfold add_enhancement. apply lookup_insert_eq.
    + intros k Hk. rewrite Hout by (intros n Hn; apply Hk; right; exact Hn).
      unfold add_enhancement. apply lookup_insert_ne.
      intros E. apply (Hk (Py.strip x)); [left; reflexivity | symmetry; exact E].
Qed.

Lemma split_not_nil sep s : Py.split sep s <> [].
Proof.
  destruct s as [| c s]; cbn [Py.split]; [discriminate |].
  destruct (Ascii.eqb c sep); [discriminate |].
  destruct (Py.split sep s); discriminate.
Qed.

Lemma last_map_strip l : List.last (map Py.strip l) "" = Py.strip (List.last l "").
Proof.
  induction l as [| x t IH]; [reflexivity |].
  destruct t as [| y t]; [reflexivity |]. exact IH.
Qed.

Lemma lower_char_idem x : Py.lower_char (Py.lower_char x) = Py.lower_char x.
Proof. destruct x as [[] [] [] [] [] [] [] []]; vm_compute; reflexivity. Qed.

Lemma m_iword_intro w s g : matches (iword w) (w ++ s) g s g.
Proof.
  induction w as [| c w IH]; cbn [iword]; [constructor |].
  rewrite app_cons. econstructor; [| exact IH].
  unfold ilit. constructor. apply Ascii.eqb_refl.
Qed.

Lemma lower_length s : String.length (Py.lower s) = String.length s.
Proof. induction s as [| c s IH]; cbn [Py.lower String.length]; congruence. Qed.

Lemma app_inj_length u :
  forall v x y, String.length u = String.length v -> u ++ x = v ++ y -> u = v /\ x = y.
Proof.
  induction u as [| a u IH]; intros [| b v] x y; cbn [String.length];
    rewrite ?app_cons, ?app_nil_l; try discriminate.
  - auto.
  - intros [= Hl] [= <- E]. destruct (IH v x y Hl E) as [-> ->]. auto.
Qed.

Lemma digits_first n : digits n -> exists d t, n = String d t /\ Py.isdigit d = true.
Proof.
  intros [Hne Hd]. destruct n as [| d t]; [congruence |].
  cbn [all_chars] in Hd. apply andb_prop in Hd as [Hd _]. eauto.
Qed.

Lemma strip_digits n : digits n -> Py.strip n = n.
Proof.
  intros Hn. pose proof Hn as [Hne Hd].
  destruct (digits_first n Hn) as (d & t & E & Hd1).
  destruct (last_char n Hne) as (u & c & El).
  assert (Hc : Py.isdigit c = true).
  { rewrite El, all_chars_app in Hd. apply andb_prop in Hd as [_ Hd].
    cbn [all_chars] in Hd. rewrite andb_true_r in Hd. exact Hd. }
  unfold Py.strip. rewrite E at 1. cbn [Py.lstrip].
  rewrite (digit_not_space _ Hd1), <- E, El.
  apply rstrip_keeps_last, digit_not_space, Hc.
Qed.

(** ** The numbers of a header in its usual form *)

Lemma more_numbers_star nums s' g :
  Forall digits nums ->
  matches (Star (lit "," ~> Star space ~> Plus digit))%re (more_numbers nums ++ s') g s' g.
Proof.
  induction 1 as [| n t [Hne Hd] _ IH]; cbn [more_numbers]; [constructor |].
  rewrite !app_cons, !app_nil_l, !app_assoc.
  eapply m_star_more; [| | exact IH].
  - econstructor; [apply m_lit_intro |].
    econstructor; [apply (m_star_cls_intro Py.isspace " "); reflexivity |].
    apply m_plus_cls_intro; assumption.
  - cbn [String.length]. rewrite !length_app. lia.
Qed.

Lemma numbers_intro nums s' g :
  nums <> [] -> Forall digits nums ->
  matches numbers (join_numbers nums ++ s') g s' (<[1 := join_numbers nums]> g).
Proof.
  intros Hne Hd. destruct nums as [| n t]; [congruence |].
  inversion Hd as [| ? ? [Hn Hdn] Ht]; subst.
  unfold numbers. apply m_grp_intro. cbn [join_numbers]. rewrite app_assoc.
  econstructor; [apply m_plus_cls_intro; assumption | apply more_numbers_star; exact Ht].
Qed.

Lemma numbers_inv s g s' g' :
  matches numbers s g s' g' ->
  exists d t g1, Py.isdigit d = true /\ s = String d t ++ s' /\ g' = <[1 := String d t]> g1.
Proof.
  unfold numbers. intros H. apply m_grp_inv_consumed in H as (g1 & H & ->).
  apply m_seq_inv in H as (s1 & g2 & H1 & H).
  unfold digit in H1. apply m_plus_cls_inv in H1 as (-> & w & Hw & -> & Hd).
  apply matches_suffix in H as [w2 ->].
  destruct w as [| d w]; [congruence |].
  cbn [all_chars] in Hd. apply andb_prop in Hd as [Hd _].
  exists d, (w ++ w2), g1. split; [exact Hd |].
  rewrite <- app_assoc, consumed_app, app_cons. split; reflexivity.
Qed.

Lemma join_numbers_chars nums :
  Forall digits nums -> all_chars number_char (join_numbers nums) = true.
Proof.
  assert (Hdig : forall n, all_chars Py.isdigit n = true -> all_chars number_char n = true).
  { induction n as [| c n IH]; cbn [all_chars]; [reflexivity |].
    intros H. apply andb_prop in H as [Hc Hn]. unfold number_char at 1.
    rewrite Hc, (IH Hn). reflexivity. }
  assert (Hmore : forall t, Forall digits t -> all_chars number_char (more_numbers t) = true).
  { induction 1 as [| n t [_ Hn] _ IH]; cbn [more_numbers]; [reflexivity |].
    rewrite !app_cons, app_nil_l. cbn [all_chars]. rewrite all_chars_app, (Hdig n Hn), IH.
    reflexivity. }
  intros H. destruct H as [| n t [_ Hn] Ht]; cbn [join_numbers]; [reflexivity |].
  rewrite all_chars_app, (Hdig n Hn), (Hmore t Ht). reflexivity.
Qed.

Lemma split_digits n :
  forall r, all_chars Py.isdigit n = true ->
            Py.split "," (n ++ r)
            = match Py.split "," r with
              | h :: t => (n ++ h) :: t
              | [] => [n]
              end.
Proof.
  induction n as [| c n IH]; intros r Hd.
  - rewrite app_nil_l. pose proof (split_not_nil "," r).
    destruct (Py.split "," r); [congruence | reflexivity].
  - cbn [all_chars] in Hd. apply andb_prop in Hd as [Hc Hn].
    rewrite app_cons. cbn [Py.split].
    assert (Ec : Ascii.eqb c "," = false).
    { destruct (Ascii.eqb_spec c ","); [subst c; discriminate Hc | reflexivity]. }
    rewrite Ec, (IH r Hn). pose proof (split_not_nil "," r).
    destruct (Py.split "," r); [congruence | reflexivity].
Qed.

Lemma split_more_numbers t :
  Forall digits t ->
  Py.split "," (more_numbers t) = "" :: map (fun n => " " ++ n) t.
Proof.
  induction 1 as [| n t [_ Hn] _ IH]; cbn [more_numbers map]; [reflexivity |].
  rewrite !app_cons, app_nil_l. cbn [Py.split]. rewrite Ascii.eqb_refl.
  change (Ascii.eqb " " ",") with false. cbn iota.
  rewrite (split_digits n _ Hn), IH. rewrite app_nil_r. reflexivity.
Qed.

Lemma strip_split_join nums :
  nums <> [] -> Forall digits nums ->
  map Py.strip (Py.split "," (join_numbers nums)) = nums.
Proof.
  intros Hne Hd. destruct nums as [| n t]; [congruence |].
  inversion Hd as [| ? ? Hn Ht]; subst. cbn [join_numbers].
  rewrite (split_digits n _ (proj2 Hn)), (split_more_numbers t Ht), app_nil_r.
  cbn [map]. rewrite (strip_digits n Hn). f_equal.
  rewrite map_map. clear Hne Hd Hn. induction Ht as [| x t Hx _ IH]; [reflexivity |].
  cbn [map]. rewrite IH. f_equal.
  change (Py.strip (" " ++ x)) with (Py.strip x). apply strip_digits. exact Hx.
Qed.

Lemma join_numbers_first nums :
  nums <> [] -> Forall digits nums ->
  exists d t, join_numbers nums = String d t /\ Py.isdigit d = true.
Proof.
  intros Hne Hd. destruct nums as [| n t']; [congruence |].
  inversion Hd as [| ? ? Hn _]; subst.
  destruct (digits_first n Hn) as (d & t & -> & Hd1).
  exists d, (t ++ more_numbers t'). cbn [join_numbers]. rewrite app_cons. auto.
Qed.

(** A header "Control Enhancement:", blanks, and numbers separated by a
    comma and a blank is matched, and its listed numbers are these
    numbers. *)
Lemma enhancement_header_numbers ws nums :
  nums <> [] -> Forall digits nums -> all_chars Py.isspace ws = true ->
  exists m,
    flexible_enhancement_match ("Control Enhancement:" ++ ws ++ join_numbers nums) = Some m /\
    listed_numbers m = nums.
Proof.
  intros Hne Hd Hws.
  set (line := "Control Enhancement:" ++ ws ++ join_numbers nums).
  set (p1 := (iword "Control Enhancement:" ~> Star space ~> numbers ~> Eos)%re).
  assert (Hin : matches p1 line ∅ "" (<[1 := join_numbers nums]> ∅)).
  { unfold p1, line. econstructor; [apply m_iword_intro |].
    econstructor; [apply m_star_cls_intro; exact Hws |].
    rewrite <- (app_nil_r (join_numbers nums)) at 1.
    econstructor; [apply numbers_intro; assumption | constructor]. }
  apply re_match_is_Some in Hin as [m Hm]. exists m.
  split; [unfold flexible_enhancement_match, enhancement_patterns; cbn [first_match];
          fold p1; fold line; rewrite Hm; reflexivity |].
  apply re_match_Some in Hm as (s' & Hm). unfold p1 in Hm.
  apply m_seq_inv in Hm as (s1 & g1 & H1 & Hm).
  apply m_iword_inv in H1 as (-> & w' & E1 & Hw').
  apply m_seq_inv in Hm as (s2 & g2 & H2 & Hm).
  unfold space in H2. apply m_star_cls_inv in H2 as (-> & ws' & -> & Hws').
  apply m_seq_inv in Hm as (s3 & g3 & H3 & Hm).
  apply numbers_inv in H3 as (d & t & g4 & Hd1 & -> & ->).
  apply m_eos_inv in Hm as (-> & -> & Hend).
  unfold line in E1.
  apply app_inj_length in E1 as [_ E1];
    [| apply (f_equal String.length) in Hw'; rewrite !lower_length in Hw'; congruence].
  destruct (join_numbers_first nums Hne Hd) as (d0 & t0 & Ej & Hd0).
  apply (span_unique Py.isspace) in E1 as [_ E1]; try assumption;
    [| rewrite Ej; apply digit_not_space; exact Hd0
     | rewrite app_cons; apply digit_not_space; exact Hd1].
  assert (Hs3 : s3 = "").
  { destruct Hend as [-> | ->]; [reflexivity |]. exfalso.
    pose proof (join_numbers_chars nums Hd) as Hc.
    rewrite E1, all_chars_app in Hc. apply andb_prop in Hc as [_ Hc]. discriminate Hc. }
  subst s3. rewrite app_nil_r in E1.
  unfold listed_numbers, group. rewrite lookup_insert_eq. cbn [default from_option].
  rewrite <- E1. apply strip_split_join; assumption.
Qed.

(** C7 as stated fails ("created or reused"): a header that lists an
    enhancement a second time does not reuse the record of the
    enhancement; it stores a new one, and the attributes collected for the
    enhancement are gone. *)
Lemma enhancement_header_not_reused :
  current_base_control collected_state = Some "AC-3" /\
  controls collected_state !! "AC-3(4)"
  = Some {| name := "Access Enforcement";
            attributes := {[ "Justification to Select" := "NSS best practice." ]};
            page := 1 |} /\
  exists self',
    process_line collected_state enhancement_line 2 = Next self' /\
    controls self' !! "AC-3(4)"
    = Some {| name := "Access Enforcement"; attributes := ∅; page := 2 |}.
Proof.
  split; [vm_compute; reflexivity |].
  split; [vm_compute; reflexivity |].
  eexists. split; vm_compute; reflexivity.
Qed.

(** C7, amended.  A line that matches an enhancement pattern while a base
    control is current stores, for every listed number, a new record of
    that enhancement with the title of the base control, no attributes and
    the number of the page, in place of any record the store held for it;
    it leaves the other records alone, makes the enhancement of the last
    listed number current and resets the current attribute.  For a line
    "Control Enhancement:", blanks and numbers separated by ", " the
    listed numbers are these numbers. *)
Theorem enhancement_header_step (self : extractor) (ld : line_data)
    (page_num : nat) (m : groups) (base : string) :
  flexible_enhancement_match (text ld) = Some m ->
  current_base_control self = Some base -> base <> "" ->
  (exists self',
      process_line self ld page_num = Next self' /\
      (forall n, In n (listed_numbers m) ->
         controls self' !! enhancement_id base n
         = Some (fresh_enhancement self base page_num)) /\
      (forall k, (forall n, In n (listed_numbers m) -> k <> enhancement_id base n) ->
         controls self' !! k = controls self !! k) /\
      current_control self'
      = Some (enhancement_id base (List.last (listed_numbers m) "")) /\
      current_base_control self' = Some base /\
      current_attribute self' = None) /\
  (forall ws nums,
      nums <> [] -> Forall digits nums -> all_chars Py.isspace ws = true ->
      text ld = "Control Enhancement:" ++ ws ++ join_numbers nums ->
      listed_numbers m = nums).
Proof.
  intros Hm Hbase Hne. split.
  - unfold process_line.
    rewrite (enhancement_not_base _ _ Hm), Hm, Hbase.
    apply truthy_true in Hne. rewrite Hne.
    eexists. split; [reflexivity |].
    cbn [controls current_control current_base_control current_attribute].
    destruct (add_enhancements base page_num (Py.split "," (group m 1)) (controls self))
      as (_ & Hin & Hout).
    split; [exact Hin |]. split; [exact Hout |].
    split; [| split; reflexivity].
    unfold listed_numbers. rewrite last_map_strip. reflexivity.
  - intros ws nums Hnums Hd Hws Htext.
    destruct (enhancement_header_numbers ws nums Hnums Hd Hws) as (m' & Hm' & Hl).
    rewrite <- Htext, Hm in Hm'. injection Hm' as <-. exact Hl.
Qed.

Lemma enhancement_header_step_witness :
  exists self',
    process_line open_attribute_state enhancement_line 2 = Next self' /\
    controls self' !! "AC-3(4)"
    = Some {| name := "Access Enforcement"; attributes := ∅; page := 2 |} /\
    controls self' !! "AC-3(5)"
    = Some {| name := "Access Enforcement"; attributes := ∅; page := 2 |} /\
    controls self' !! "AC-3(6)"
    = Some {| name := "Access Enforcement"; attributes := ∅; page := 2 |} /\
    current_control self' = Some "AC-3(6)" /\
    current_attribute self' = None.
Proof.
  destruct (flexible_enhancement_match (text enhancement_line)) as [m |] eqn:E;
    [| vm_compute in E; discriminate].
  destruct (enhancement_header_step open_attribute_state enhancement_line 2 m "AC-3" E)
    as ((self' & Hstep & Hin & _ & Hcur & _ & Hattr) & Hnums);
    [reflexivity | discriminate |].
  assert (Hd : forall n, In n ["4"; "5"; "6"] -> digits n).
  { intros n [<- | [<- | [<- | []]]]; split; (discriminate || reflexivity). }
  assert (Hl : listed_numbers m = ["4"; "5"; "6"]).
  { apply (Hnums " ");
      [discriminate | apply List.Forall_forall; exact Hd | reflexivity | reflexivity]. }
  rewrite Hl in Hin, Hcur.
  exists self'. split; [exact Hstep |].
  split; [apply (Hin "4"); cbn; auto |].
  split; [apply (Hin "5"); cbn; auto |].
  split; [apply (Hin "6"); cbn; auto |].
  split; [exact Hcur | exact Hattr].
Defined.

(** A line without a colon that is no base control line, no enhancement
    header and no attribute label goes to the end of the current
    attribute. *)
Lemma continuation_without_colon_appended (self : extractor) (ld : line_data)
    (page_num : nat) (cur attr : string) (info : control_info) (old : string) :
  current_control self = Some cur -> cur <> "" ->
  current_attribute self = Some attr -> attr <> "" ->
  controls self !! cur = Some info -> attributes info !! attr = Some old ->
  Py.strip (text ld) <> "" ->
  re_match base_control_pattern (text ld) = None ->
  flexible_enhancement_match (text ld) = None ->
  extract_attribute_from_line (text ld) = None ->
  Py.contains ":" (text ld) = false ->
  process_line self ld page_num
  = Next {| controls :=
              <[cur := with_attributes info
                         (<[attr := old ++ " " ++ Py.strip (text ld)]> (attributes info))]>
                (controls self);
            current_control := current_control self;
            current_base_control := current_base_control self;
            current_attribute := current_attribute self |}.
Proof.
  intros Hc Hcne Ha Hane Hinfo Hold Hline Hb He Hx Hcolon.
  unfold process_line. rewrite Hb, He, Hx, Hcolon, Hc, Ha.
  apply truthy_true in Hcne, Hane, Hline.
  cbn [Py.truthy_opt]. rewrite Hcne, Hane, Hline. rewrite andb_false_r.
  cbn [andb]. rewrite !bool_decide_eq_false_2 by (intros [? [=]]).
  cbn [orb negb]. change (default "" (Some cur)) with cur.
  change (default "" (Some attr)) with attr. rewrite Hinfo, Hold. reflexivity.
Qed.

(** The 2022 extractor appends the same line to the current field. *)
Lemma continuation_with_colon_appended_2022 :
  exists st c,
    Classified2022.process_lines start_cursor page_lines = Classified2022.Next st /\
    Classified2022.controls st !! "AC-3" = Some c /\
    Classified2022.justification c
    = Some "NSS best practice. Note: applies to every enclave.".
Proof. do 2 eexists. repeat split; vm_compute; reflexivity. Qed.

(** C6 at the failing input: with a record and an attribute open, a line
    that holds a colon and is no base control line, no enhancement header
    and no attribute label is dropped instead of being appended; the line
    after it, which holds no colon, is appended. *)
Theorem continuation_with_colon_dropped :
  find_controls_and_attributes start_state [base_line; justification_line] 1
  = Next open_attribute_state /\
  Py.strip (text colon_line) <> "" /\
  re_match base_control_pattern (text colon_line) = None /\
  flexible_enhancement_match (text colon_line) = None /\
  extract_attribute_from_line (text colon_line) = None /\
  process_line open_attribute_state colon_line 1 = Next open_attribute_state /\
  exists self' info,
    find_controls_and_attributes start_state
      [base_line; justification_line; colon_line; plain_line] 1 = Next self' /\
    controls self' !! "AC-3" = Some info /\
    attributes info !! "Justification to Select"
    = Some "NSS best practice. continues here.".
Proof.
  split; [vm_compute; reflexivity |].
  split; [vm_compute; discriminate |].
  do 4 (split; [vm_compute; reflexivity |]).
  do 2 eexists. repeat split; vm_compute; reflexivity.
Qed.

End LinePipeline.

(* ===================================================================== *)
(** * Facts about the sorter *)
(* ===================================================================== *)

Module Sorting.
Import Re Vocabulary StrFacts ReFacts IdFacts NistSorter.

(** ** The identifier pattern of the sorter *)

Lemma letters_2_3 s g s' g' :
  matches (upper ~> upper ~> Opt upper)%re s g s' g' ->
  g' = g /\ exists letters,
    s = letters ++ s' /\ 2 <= String.length letters <= 3 /\
    all_chars Py.isupper_az letters = true.
Proof.
  unfold upper. intros H.
  apply m_seq_inv in H as (s1 & g1 & H1 & H).
  apply m_cls_inv in H1 as (c1 & -> & Hc1 & ->).
  apply m_seq_inv in H as (s2 & g2 & H2 & H).
  apply m_cls_inv in H2 as (c2 & -> & Hc2 & ->).
  apply m_opt_inv in H as [H | [-> ->]].
  - apply m_cls_inv in H as (c3 & -> & Hc3 & ->).
    split; [reflexivity |]. exists (String c1 (String c2 (String c3 ""))).
    split; [reflexivity |]. split; [cbn; lia |].
    cbn. rewrite Hc1, Hc2, Hc3. reflexivity.
  - split; [reflexivity |]. exists (String c1 (String c2 "")).
    split; [reflexivity |]. split; [cbn; lia |].
    cbn. rewrite Hc1, Hc2. reflexivity.
Qed.

Lemma letters_2_3_intro letters s' g :
  2 <= String.length letters <= 3 -> all_chars Py.isupper_az letters = true ->
  matches (upper ~> upper ~> Opt upper)%re (letters ++ s') g s' g.
Proof.
  unfold upper.
  destruct letters as [| c1 [| c2 [| c3 [| c4 l]]]]; cbn [String.length all_chars];
    intros Hl Hu; try lia.
  - apply andb_prop in Hu as [H1 Hu]. apply andb_prop in Hu as [H2 _].
    rewrite !app_cons, app_nil_l.
    econstructor; [constructor; exact H1 |].
    econstructor; [constructor; exact H2 |]. apply m_alt_r. constructor.
  - apply andb_prop in Hu as [H1 Hu]. apply andb_prop in Hu as [H2 Hu].
    apply andb_prop in Hu as [H3 _].
    rewrite !app_cons, app_nil_l.
    econstructor; [constructor; exact H1 |].
    econstructor; [constructor; exact H2 |]. apply m_alt_l. constructor. exact H3.
Qed.

Lemma sorter_id_pattern_inv s g s' g' :
  matches control_id_pattern s g s' g' ->
  (s' = "" \/ s' = String "010" "") /\
  exists letters num enh,
    id_parts 2 3 letters num enh /\
    s = render_id letters num enh ++ s' /\
    g' !! 1 = Some letters /\ g' !! 2 = Some num /\
    g' !! 3 = match enh with Some e => Some e | None => g !! 3 end.
Proof.
  unfold control_id_pattern. intros H.
  apply m_seq_inv in H as (s1 & g1 & H1 & H).
  apply m_grp_inv_consumed in H1 as (g1' & H1 & ->).
  apply letters_2_3 in H1 as (-> & letters & -> & Hl & Hu).
  rewrite consumed_app in H.
  apply m_seq_inv in H as (s2 & g2 & H2 & H).
  apply m_lit_inv in H2 as (-> & ->).
  apply m_seq_inv in H as (s3 & g3 & H3 & H).
  apply m_grp_inv_consumed in H3 as (g3' & H3 & ->).
  unfold digit in H3.
  apply m_plus_cls_inv in H3 as (-> & num & Hn & -> & Hd).
  rewrite consumed_app in H.
  apply m_seq_inv in H as (s4 & g4 & H4 & H).
  apply m_eos_inv in H as (-> & -> & Hend).
  split; [exact Hend |]. exists letters, num.
  apply m_opt_inv in H4 as [H4 | [-> ->]].
  - apply m_seq_inv in H4 as (s5 & g5 & H5 & H4).
    apply m_lit_inv in H5 as (-> & ->).
    apply m_seq_inv in H4 as (s6 & g6 & H6 & H4).
    apply m_grp_inv_consumed in H6 as (g6' & H6 & ->).
    unfold digit in H6.
    apply m_plus_cls_inv in H6 as (-> & e & He & -> & Hde).
    rewrite consumed_app in H4.
    apply m_lit_inv in H4 as (-> & ->).
    exists (Some e). split; [| split; [| split; [| split]]].
    + split; [exact Hl |]. split; [exact Hu |]. split; [split; assumption |].
      intros e' [= <-]. split; assumption.
    + unfold render_id. cbn [enhancement_suffix].
      rewrite !app_assoc, !app_cons, !app_nil_l. reflexivity.
    + rewrite lookup_insert_ne, lookup_insert_ne, lookup_insert_eq by lia. reflexivity.
    + rewrite lookup_insert_ne, lookup_insert_eq by lia. reflexivity.
    + rewrite lookup_insert_eq. reflexivity.
  - exists None. split; [| split; [| split; [| split]]].
    + split; [exact Hl |]. split; [exact Hu |]. split; [split; assumption |].
      intros e' [=].
    + unfold render_id. cbn [enhancement_suffix].
      rewrite !app_assoc, !app_cons, !app_nil_l. reflexivity.
    + rewrite lookup_insert_ne, lookup_insert_eq by lia. reflexivity.
    + rewrite lookup_insert_eq. reflexivity.
    + rewrite !lookup_insert_ne by lia. reflexivity.
Qed.

Lemma sorter_id_pattern_intro letters num enh g :
  id_parts 2 3 letters num enh ->
  exists g', matches control_id_pattern (render_id letters num enh) g "" g'.
Proof.
  intros (Hl & Hu & [Hn Hd] & He). unfold control_id_pattern, render_id, digit.
  destruct enh as [e |]; cbn [enhancement_suffix].
  - destruct (He e eq_refl) as [Hen Hed]. eexists.
    econstructor; [apply m_grp_intro; apply letters_2_3_intro; assumption |].
    rewrite app_cons, app_nil_l.
    econstructor; [apply m_lit_intro |].
    econstructor; [apply m_grp_intro; apply m_plus_cls_intro; assumption |].
    econstructor; [| constructor].
    apply m_alt_l. rewrite !app_cons, !app_nil_l.
    econstructor; [apply m_lit_intro |].
    econstructor; [apply m_grp_intro; apply m_plus_cls_intro; assumption |].
    apply m_lit_intro.
  - eexists.
    econstructor; [apply m_grp_intro; apply letters_2_3_intro; assumption |].
    rewrite app_cons, app_nil_l.
    econstructor; [apply m_lit_intro |].
    econstructor; [apply m_grp_intro; apply m_plus_cls_intro; assumption |].
    econstructor; [apply m_alt_r; constructor | constructor].
Qed.

Lemma stops_suffix enh s' :
  (s' = "" \/ s' = String "010" "") -> stops Py.isdigit (enhancement_suffix enh ++ s').
Proof.
  destruct enh as [e |]; cbn [enhancement_suffix].
  - intros _. rewrite app_cons. reflexivity.
  - rewrite app_nil_l. intros [-> | ->]; cbn; auto.
Qed.

(** The parts of an identifier are determined by its text. *)
Lemma render_id_unique l1 n1 e1 l2 n2 e2 s' :
  id_parts 2 3 l1 n1 e1 -> id_parts 2 3 l2 n2 e2 ->
  (s' = "" \/ s' = String "010" "") ->
  render_id l1 n1 e1 = render_id l2 n2 e2 ++ s' ->
  l1 = l2 /\ n1 = n2 /\ e1 = e2 /\ s' = "".
Proof.
  intros (_ & Hu1 & [_ Hd1] & He1) (_ & Hu2 & [_ Hd2] & He2) Hend E.
  unfold render_id in E. rewrite !app_assoc in E.
  apply (span_unique Py.isupper_az) in E as [-> E]; try assumption;
    try (rewrite app_cons; reflexivity).
  rewrite !app_cons, !app_nil_l in E. injection E as E.
  rewrite <- (app_nil_r (enhancement_suffix e1)) in E.
  apply (span_unique Py.isdigit) in E as [-> E]; try assumption;
    try (apply stops_suffix; auto).
  rewrite app_nil_r in E.
  destruct e1 as [x1 |], e2 as [x2 |]; cbn [enhancement_suffix] in E.
  - rewrite !app_cons, !app_nil_l, !app_assoc in E. injection E as E.
    rewrite <- (app_nil_r ")") in E at 1.
    destruct (He1 x1 eq_refl) as [_ Hx1]. destruct (He2 x2 eq_refl) as [_ Hx2].
    apply (span_unique Py.isdigit) in E as [-> E]; try assumption;
      try (rewrite app_cons; reflexivity).
    rewrite !app_cons, !app_nil_l in E. injection E as <-. auto.
  - rewrite app_nil_l, app_cons in E. destruct Hend as [-> | ->]; discriminate E.
  - rewrite !app_cons in E. discriminate E.
  - rewrite !app_nil_l in E. subst s'. auto.
Qed.

(** ** Numbers *)

Lemma int_acc_uint d :
  forall acc,
    Py.int_acc acc (NilEmpty.string_of_uint d)
    = (acc * 10 ^ DecimalPos.Unsigned.usize d
       + DecimalPos.Unsigned.of_lu (Decimal.rev d))%N.
Proof.
  induction d; intros acc;
    cbn [NilEmpty.string_of_uint Py.int_acc DecimalPos.Unsigned.usize];
    [cbn; lia | ..];
    rewrite IHd; unfold Decimal.rev; cbn [Decimal.revapp];
    rewrite (DecimalPos.Unsigned.of_lu_revapp d (_ Decimal.Nil));
    rewrite N.pow_succ_r'; fold (Decimal.rev d);
    cbn [DecimalPos.Unsigned.of_lu];
    match goal with
    | |- context [Py.digit_value ?c] =>
        let v := eval vm_compute in (Py.digit_value c) in
        change (Py.digit_value c) with v
    end; lia.
Qed.

(** [int] gives the number the digits denote, up to 4300 digits. *)
Lemma int_numeral s n : convertible s -> numeral s n -> Py.int s = Some n.
Proof.
  unfold convertible, Py.int, Py.max_str_digits. intros Hc (d & Hd & <-).
  destruct (N.ltb_spec 4300 (N.of_nat (String.length s))) as [Hlt | _]; [lia |].
  apply NilEmpty.sus in Hd as <-. rewrite int_acc_uint.
  change (N.of_uint d) with (Pos.of_uint d).
  rewrite DecimalPos.Unsigned.of_uint_alt. f_equal; lia.
Qed.

Lemma int_too_long s : ~ convertible s -> Py.int s = None.
Proof.
  unfold convertible, Py.int, Py.max_str_digits. intros Hc.
  destruct (N.ltb_spec 4300 (N.of_nat (String.length s))) as [_ | Hle];
    [reflexivity | contradiction].
Qed.

Lemma int_Some s n : Py.int s = Some n -> convertible s.
Proof.
  unfold convertible, Py.int, Py.max_str_digits.
  destruct (N.ltb_spec 4300 (N.of_nat (String.length s))) as [_ | Hle];
    [discriminate | intros _; exact Hle].
Qed.

Lemma digit_uint c d :
  Py.isdigit c = true -> exists d', uint_of_char c (Some d) = Some d'.
Proof.
  destruct c as [[] [] [] [] [] [] [] []]; vm_compute; intros H;
    first [discriminate H | eexists; reflexivity].
Qed.

(** Every run of digits denotes one number. *)
Lemma digits_numeral s : all_chars Py.isdigit s = true -> exists n, numeral s n.
Proof.
  intros H.
  assert (exists d, NilEmpty.uint_of_string s = Some d) as [d Hd].
  { induction s as [| c s IH]; [exists Decimal.Nil; reflexivity |].
    cbn [all_chars] in H. apply andb_prop in H as [Hc Hs].
    destruct (IH Hs) as [d Hd]. cbn [NilEmpty.uint_of_string]. rewrite Hd.
    apply digit_uint. exact Hc. }
  exists (N.of_uint d), d. split; [exact Hd | reflexivity].
Qed.

Lemma numeral_unique s n n' : numeral s n -> numeral s n' -> n = n'.
Proof. intros (d & Hd & <-) (d' & Hd' & <-). congruence. Qed.

Lemma numeral_decimal n : numeral (decimal n) n.
Proof.
  exists (N.to_uint n). split; [| apply DecimalN.Unsigned.of_to].
  unfold decimal, NilZero.string_of_uint.
  destruct (N.to_uint n) eqn:E; try apply NilEmpty.usu.
  destruct n as [| p]; [discriminate E |]. exfalso. revert E.
  apply DecimalPos.Unsigned.to_uint_nonnil.
Qed.

Lemma enhancement_numeral_exists enh :
  (forall e, enh = Some e -> digits e) -> exists e, enhancement_numeral enh e.
Proof.
  destruct enh as [x |]; cbn [enhancement_numeral]; [| exists 0%N; reflexivity].
  intros H. destruct (H x eq_refl) as [_ Hd]. apply digits_numeral. exact Hd.
Qed.

(** ** The key of an identifier *)

(** The key computed from the groups of a match of the pattern. *)
Lemma key_of_groups (m : groups) letters num enh :
  id_parts 2 3 letters num enh ->
  m !! 1 = Some letters -> m !! 2 = Some num -> m !! 3 = enh ->
  match Py.int (group m 2) with
  | None => None
  | Some base_number =>
      match (match m !! 3 with
             | Some e => if Py.truthy e then Py.int e else Some 0%N
             | None => Some 0%N
             end) with
      | None => None
      | Some enhancement_number => Some (group m 1, base_number, enhancement_number)
      end
  end
  = match Py.int num, (match enh with Some e => Py.int e | None => Some 0%N end) with
    | Some b, Some e => Some (letters, b, e)
    | _, _ => None
    end.
Proof.
  intros (_ & _ & _ & He) G1 G2 G3. unfold group. rewrite G1, G2, G3.
  change (default "" (Some letters)) with letters.
  change (default "" (Some num)) with num.
  destruct (Py.int num) as [b |]; [| reflexivity].
  destruct enh as [e |]; [| reflexivity].
  destruct (He e eq_refl) as [Hne _]. apply truthy_true in Hne. rewrite Hne.
  destruct (Py.int e); reflexivity.
Qed.

Lemma parse_control_id_parts letters num enh :
  id_parts 2 3 letters num enh ->
  parse_control_id (render_id letters num enh)
  = match Py.int num, (match enh with Some e => Py.int e | None => Some 0%N end) with
    | Some b, Some e => Some (letters, b, e)
    | _, _ => None
    end.
Proof.
  intros Hp. destruct (sorter_id_pattern_intro letters num enh ∅ Hp) as (g' & Hm).
  apply re_match_is_Some in Hm as [m Hm].
  unfold parse_control_id. rewrite Hm.
  apply re_match_Some in Hm as (s' & Hm).
  apply sorter_id_pattern_inv in Hm
    as (Hend & l2 & n2 & e2 & Hp2 & E & G1 & G2 & G3).
  destruct (render_id_unique _ _ _ _ _ _ _ Hp Hp2 Hend E) as (<- & <- & <- & ->).
  apply (key_of_groups m letters num enh Hp G1 G2).
  rewrite G3. destruct enh; [reflexivity | apply lookup_empty].
Qed.

(** Within the limit of [int] the key is the family and the two numbers. *)
Lemma parse_control_id_render letters num enh b e :
  id_parts 2 3 letters num enh -> convertible_parts num enh ->
  numeral num b -> enhancement_numeral enh e ->
  parse_control_id (render_id letters num enh) = Some (letters, b, e).
Proof.
  intros Hp [Hcn Hce] Hb He. rewrite (parse_control_id_parts _ _ _ Hp).
  rewrite (int_numeral num b Hcn Hb).
  destruct enh as [x |]; cbn [enhancement_numeral] in He.
  - rewrite (int_numeral x e (Hce x eq_refl) He). reflexivity.
  - subst e. reflexivity.
Qed.

(** Beyond it [int] raises, and so does [parse_control_id]. *)
Lemma parse_control_id_too_long letters num enh :
  id_parts 2 3 letters num enh -> ~ convertible_parts num enh ->
  parse_control_id (render_id letters num enh) = None.
Proof.
  intros Hp Hc. rewrite (parse_control_id_parts _ _ _ Hp).
  destruct (Py.int num) as [b |] eqn:Eb; [| reflexivity].
  destruct enh as [x |].
  - destruct (Py.int x) as [e |] eqn:Ee; [| reflexivity].
    exfalso. apply Hc. split; [eapply int_Some; exact Eb |].
    intros ? [= <-]. eapply int_Some; exact Ee.
  - exfalso. apply Hc. split; [eapply int_Some; exact Eb | intros ? [=]].
Qed.

(** ** The order of the keys *)

Lemma compare_lt_trans a b c :
  String.compare a b = Lt -> String.compare b c = Lt -> String.compare a c = Lt.
Proof.
  intros Hab Hbc.
  assert (Hle : String.le a c).
  { transitivity b; unfold String.le, String.leb; [rewrite Hab | rewrite Hbc]; exact I. }
  unfold String.le, String.leb in Hle.
  destruct (String.compare a c) eqn:E; [| reflexivity | destruct Hle].
  apply String.compare_eq_iff in E as ->.
  rewrite String.compare_antisym, Hbc in Hab. discriminate.
Qed.

Lemma key_le_trans x y z : key_le x y -> key_le y z -> key_le x z.
Proof.
  destruct x as [[f1 b1] e1], y as [[f2 b2] e2], z as [[f3 b3] e3].
  unfold key_le. cbn [fst snd].
  intros [H1 | (-> & H1)] [H2 | (-> & H2)].
  - left. eapply compare_lt_trans; eassumption.
  - left. assumption.
  - left. assumption.
  - right. split; [reflexivity |]. lia.
Qed.

Lemma key_ltb_false x y : key_ltb y x = false -> key_le x y.
Proof.
  destruct x as [[f1 b1] e1], y as [[f2 b2] e2]. unfold key_ltb, key_le. cbn [fst snd].
  destruct (String.compare f2 f1) eqn:Ef; [| discriminate |].
  - apply String.compare_eq_iff in Ef as ->.
    destruct (N.compare_spec b2 b1) as [-> | Hlt | Hgt]; [| discriminate |].
    + intros H. apply N.ltb_ge in H. right. split; [reflexivity |]. lia.
    + intros _. right. split; [reflexivity |]. lia.
  - intros _. left. rewrite String.compare_antisym, Ef. reflexivity.
Qed.

Lemma key_ltb_true x y : key_ltb x y = true -> key_le x y.
Proof.
  destruct x as [[f1 b1] e1], y as [[f2 b2] e2]. unfold key_ltb, key_le. cbn [fst snd].
  destruct (String.compare f1 f2) eqn:Ef; [| | discriminate].
  - apply String.compare_eq_iff in Ef as ->.
    destruct (N.compare_spec b1 b2) as [-> | Hlt | Hgt]; [| | discriminate].
    + intros H. apply N.ltb_lt in H. right. split; [reflexivity |]. lia.
    + intros _. right. split; [reflexivity |]. lia.
  - intros _. left. reflexivity.
Qed.

(** ** Insertion *)

Lemma insert_by_key_perm x l : Permutation (x :: l) (insert_by_key x l).
Proof.
  induction l as [| y t IH]; cbn [insert_by_key]; [reflexivity |].
  destruct (key_ltb (sort_key y) (sort_key x)); [| reflexivity].
  rewrite perm_swap. apply perm_skip. exact IH.
Qed.

Lemma insert_by_key_hd x y t :
  by_key y x -> HdRel by_key y t -> HdRel by_key y (insert_by_key x t).
Proof.
  intros Hyx Ht. destruct t as [| z t]; cbn [insert_by_key].
  - constructor. exact Hyx.
  - destruct (key_ltb (sort_key z) (sort_key x)); constructor;
      [inversion Ht; assumption | exact Hyx].
Qed.

Lemma insert_by_key_sorted x l :
  Sorted by_key l -> Sorted by_key (insert_by_key x l).
Proof.
  induction l as [| y t IH]; cbn [insert_by_key]; intros Hs.
  - repeat constructor.
  - inversion Hs as [| ? ? Hst Hhd]; subst.
    destruct (key_ltb (sort_key y) (sort_key x)) eqn:E.
    + constructor; [apply IH; exact Hst |].
      apply insert_by_key_hd; [apply key_ltb_true; exact E | exact Hhd].
    + constructor; [exact Hs |]. constructor. apply key_ltb_false. exact E.
Qed.

Lemma sort_controls_perm l : Permutation l (sort_controls l).
Proof.
  induction l as [| x l IH]; cbn [sort_controls fold_right]; [reflexivity |].
  rewrite <- insert_by_key_perm. apply perm_skip. exact IH.
Qed.

Lemma sort_controls_sorted l : StronglySorted by_key (sort_controls l).
Proof.
  apply Sorted_StronglySorted.
  - intros a b c. apply key_le_trans.
  - induction l as [| x l IH]; cbn [sort_controls fold_right]; [constructor |].
    apply insert_by_key_sorted. exact IH.
Qed.

(** ** The natural order *)


(** The sort key of a control whose identifier [int] converts is its
    natural key. *)
Lemma sort_key_natural c letters num enh :
  id_parts 2 3 letters num enh -> convertible_parts num enh ->
  id c = Some (render_id letters num enh) ->
  natural_key c (sort_key c).
Proof.
  intros Hp Hc Hid.
  pose proof Hp as (_ & _ & [_ Hd] & He).
  destruct (digits_numeral num Hd) as [b Hb].
  destruct (enhancement_numeral_exists enh He) as [e Hx].
  exists letters, num, enh, b, e.
  split; [exact Hp |]. split; [exact Hid |]. split; [exact Hb |]. split; [exact Hx |].
  unfold sort_key. rewrite Hid.
  change (default "" (Some (render_id letters num enh))) with (render_id letters num enh).
  rewrite (parse_control_id_render _ _ _ b e Hp Hc Hb Hx). reflexivity.
Qed.









End Sorting.

(* ===================================================================== *)
(** * More facts about strip *)
(* ===================================================================== *)

Module StripFacts.

Import Vocabulary StrFacts IdFacts.

Lemma lstrip_first_not_space s c t :
  Py.lstrip s = String c t -> Py.isspace c = false.
Proof.
  induction s as [| a s IH]; cbn [Py.lstrip]; [discriminate |].
  destruct (Py.isspace a) eqn:E; [exact IH | intros [= <- _]; exact E].
Qed.

Lemma rstrip_idem s : Py.rstrip (Py.rstrip s) = Py.rstrip s.
Proof.
  induction s as [| a s IH]; [reflexivity |]. cbn [Py.rstrip].
  destruct (Py.rstrip s) as [| b r] eqn:E.
  - destruct (Py.isspace a) eqn:Ea; [reflexivity |]. cbn [Py.rstrip]. rewrite Ea. reflexivity.
  - cbn [Py.rstrip]. cbn [Py.rstrip] in IH. 
    destruct (match Py.rstrip r with
              | "" => if Py.isspace b then "" else String b ""
              | String a0 s0 => String b (String a0 s0)
              end) eqn:E2; [discriminate IH | rewrite IH; reflexivity].
Qed.

Lemma rstrip_first c t :
  Py.isspace c = false -> exists t', Py.rstrip (String c t) = String c t'.
Proof.
  intros Hc. cbn [Py.rstrip]. destruct (Py.rstrip t); [rewrite Hc |]; eauto.
Qed.

Lemma strip_idem s : Py.strip (Py.strip s) = Py.strip s.
Proof.
  unfold Py.strip. destruct (Py.lstrip s) as [| c t] eqn:E; [reflexivity |].
  pose proof (lstrip_first_not_space _ _ _ E) as Hc.
  destruct (rstrip_first c t Hc) as [t' Et]. rewrite Et.
  cbn [Py.lstrip]. rewrite Hc, <- Et. apply rstrip_idem.
Qed.

Lemma rstrip_nil_lstrip s : Py.rstrip s = "" -> Py.lstrip s = "".
Proof.
  induction s as [| c s IH]; [reflexivity |]. cbn [Py.rstrip Py.lstrip].
  destruct (Py.rstrip s); [| discriminate].
  destruct (Py.isspace c); [intros _; apply IH; reflexivity | discriminate].
Qed.

Lemma strip_rstrip_nonblank s : Py.strip s <> "" -> Py.rstrip s <> "".
Proof.
  intros H E. apply H. unfold Py.strip. rewrite (rstrip_nil_lstrip s E). reflexivity.
Qed.

Lemma lstrip_blank ws : all_chars Py.isspace ws = true -> Py.lstrip ws = "".
Proof.
  induction ws as [| c ws IH]; [reflexivity |]. cbn [all_chars Py.lstrip].
  intros H. apply andb_prop in H as [-> H]. apply IH, H.
Qed.

Lemma strip_app_blank ws w : all_chars Py.isspace ws = true -> Py.strip (ws ++ w) = Py.strip w.
Proof.
  intros H. unfold Py.strip. rewrite lstrip_app_blank by (apply lstrip_blank; exact H).
  reflexivity.
Qed.

Lemma strip_nonblank_last v c :
  Py.isspace c = false -> Py.strip (v ++ String c "") <> "".
Proof.
  intros Hc. unfold Py.strip. destruct (Py.lstrip v) as [| a l] eqn:E.
  - rewrite lstrip_app_blank by exact E. cbn [Py.lstrip Py.rstrip]. rewrite Hc.
    cbn [Py.rstrip]. rewrite Hc. discriminate.
  - rewrite lstrip_app_keep by (rewrite E; discriminate). rewrite E.
    rewrite rstrip_keeps_last by exact Hc. rewrite app_cons. discriminate.
Qed.

Lemma not_ends_with_newline t u : Py.strip t <> u ++ String "010" "".
Proof.
  intros E. apply strip_last_not_space in E. vm_compute in E. discriminate E.
Qed.

Lemma strip_ends_nonblank t u w :
  w <> "" -> Py.strip t = u ++ w -> Py.strip w <> "".
Proof.
  intros Hw E. destruct (last_char w Hw) as (v & c & ->).
  apply strip_nonblank_last.
  apply (strip_last_not_space t (u ++ v)). rewrite E, app_assoc. reflexivity.
Qed.

Lemma prefix_refl s : String.prefix s s = true.
Proof.
  induction s as [| c s IH]; cbn; [reflexivity |].
  destruct (ascii_dec c c); [exact IH | congruence].
Qed.

Lemma prefix_app s t : String.prefix s (s ++ t) = true.
Proof.
  induction s as [| c s IH]; [destruct t; reflexivity |].
  rewrite app_cons. cbn. destruct (ascii_dec c c); [exact IH | congruence].
Qed.

Lemma prefix_split p : forall s,
  String.prefix p s = true -> s = p ++ Py.drop (String.length p) s.
Proof.
  induction p as [| a p IH]; intros s; [rewrite app_nil_l; reflexivity |].
  destruct s as [| b s]; [discriminate |]. cbn [String.prefix].
  destruct (ascii_dec a b) as [<- | _]; [| discriminate].
  intros H. rewrite app_cons. cbn [String.length Py.drop]. f_equal. apply IH, H.
Qed.

Lemma drop_app p t : Py.drop (String.length p) (p ++ t) = t.
Proof.
  induction p as [| c p IH]; [rewrite app_nil_l; reflexivity |].
  rewrite app_cons. exact IH.
Qed.

End StripFacts.

(* ===================================================================== *)
(** * The rows of a table: what a record holds *)
(* ===================================================================== *)

Module RowFacts.

Import Re Cnssi1253 Vocabulary TableVocabulary StrFacts ReFacts IdFacts StripFacts.

Lemma match_control_id_spec c x :
  match_control_id c = Some x <->
  exists s, c = Some s /\ x = Py.strip s /\ identifier 2 2 x.
Proof.
  split.
  - intros H. pose proof (Identifiers.match_control_id_identifier _ _ H) as Hid.
    unfold match_control_id in H. destruct c as [s |]; [| discriminate].
    destruct (Py.truthy s); [| discriminate].
    destruct (re_match control_id_pattern (Py.strip s)); [| discriminate].
    injection H as <-. eauto.
  - intros (s & -> & -> & Hid).
    pose proof (Identifiers.identifier_match_control_id _ Hid) as H.
    unfold match_control_id in *. rewrite strip_idem in H.
    destruct (Py.truthy (Py.strip s)) eqn:Et; [| discriminate].
    destruct s as [| a s]; [discriminate Et |]. cbn [Py.truthy]. exact H.
Qed.

Lemma match_control_id_none c :
  match_control_id c = None <-> ~ id_cell c.
Proof.
  split.
  - intros H (s & -> & Hid).
    assert (match_control_id (Some s) = Some (Py.strip s)) as E
      by (apply match_control_id_spec; eauto).
    congruence.
  - intros H. destruct (match_control_id c) as [x |] eqn:E; [| reflexivity].
    exfalso. apply H. apply match_control_id_spec in E as (s & -> & -> & Hid).
    exists s. eauto.
Qed.

Lemma find_control_id_firstn (r : row) :
  forall n k cid i,
    find_control_id (firstn n (Py.enumerate_from k r)) = Some (cid, i) ->
    exists j c, i = k + j /\ j < n /\ r !! j = Some c /\
                match_control_id c = Some cid /\
                forall j' c', j' < j -> r !! j' = Some c' -> match_control_id c' = None.
Proof.
  induction r as [| c0 r IH]; intros n k cid i; cbn [Py.enumerate_from].
  - rewrite firstn_nil. discriminate.
  - destruct n as [| n]; [discriminate |]. cbn [firstn find_control_id].
    destruct (match_control_id c0) as [x |] eqn:E.
    + intros [= <- <-]. exists 0, c0. repeat split; [lia | lia | exact E |].
      intros; lia.
    + intros H. apply IH in H as (j & c & -> & Hj & Hl & Hm & Hbefore).
      exists (S j), c. repeat split; [lia | lia | exact Hl | exact Hm |].
      intros [| j'] c' Hlt Hl'; cbn in Hl'; [congruence |].
      eapply Hbefore; [| exact Hl']. lia.
Qed.

Lemma find_control_id_firstn_none (r : row) :
  forall n k,
    find_control_id (firstn n (Py.enumerate_from k r)) = None <->
    forall j c, j < n -> r !! j = Some c -> match_control_id c = None.
Proof.
  induction r as [| c0 r IH]; intros n k; cbn [Py.enumerate_from].
  - rewrite firstn_nil. split; [intros _ j c _ H; destruct j; discriminate | reflexivity].
  - destruct n as [| n]; [split; [intros; lia | reflexivity] |].
    cbn [firstn find_control_id]. split.
    + destruct (match_control_id c0) eqn:E; [discriminate |].
      intros H [| j] c Hj Hl; cbn in Hl; [congruence |].
      eapply (IH n (S k)); [exact H | | exact Hl]. lia.
    + intros H. rewrite (H 0 c0); [| lia | reflexivity].
      apply IH. intros j c Hj Hl. apply (H (S j)); [lia | exact Hl].
Qed.

Lemma parse_control_row_from_id b r st :
  match parse_control_row_from b r st with
  | Some rec => exists i,
      find_control_id (firstn (Nat.min 4 (length r)) (Py.enumerate r))
      = Some (control_id rec, i)
  | None => find_control_id (firstn (Nat.min 4 (length r)) (Py.enumerate r)) = None
  end.
Proof.
  unfold parse_control_row_from.
  destruct (find_control_id _) as [[cid i] |]; [| reflexivity].
  cbn [control_id]. eauto.
Qed.

(** X1: a row yields no record exactly when it has fewer than ten cells
    or none of its first four cells strips to a two-letter control
    identifier. *)
Theorem parse_control_row_none r st :
  parse_control_row r st = None <->
  length r < 10 \/ forall j c, j < 4 -> r !! j = Some c -> ~ id_cell c.
Proof.
  unfold parse_control_row.
  destruct (Nat.ltb_spec (length r) 10) as [Hlt | Hge].
  - split; [left; exact Hlt | reflexivity].
  - pose proof (parse_control_row_from_id (is_withdrawn r) r st) as H.
    replace (Nat.min 4 (length r)) with 4 in H by lia.
    split.
    + intros E. rewrite E in H. right. intros j c Hj Hl.
      apply match_control_id_none.
      eapply (find_control_id_firstn_none r 4 0); eauto.
    + intros [Hlt | Hnone]; [lia |].
      destruct (parse_control_row_from _ r st) as [rec |]; [| reflexivity].
      destruct H as [i H]. exfalso.
      assert (find_control_id (firstn 4 (Py.enumerate r)) = None) as E.
      { apply (find_control_id_firstn_none r 4 0). intros j c Hj Hl.
        apply match_control_id_none. eauto. }
      unfold Py.enumerate in *. congruence.
Qed.

Lemma parse_control_row_from_identifier b r st rec :
  parse_control_row_from b r st = Some rec -> identifier 2 2 (control_id rec).
Proof.
  intros H. pose proof (parse_control_row_from_id b r st) as Hid.
  rewrite H in Hid. destruct Hid as [i Hid]. unfold Py.enumerate in Hid.
  apply find_control_id_firstn in Hid as (j & c & _ & _ & _ & Hm & _).
  apply match_control_id_spec in Hm as (s & _ & _ & Hident). exact Hident.
Qed.

Lemma key_eqb_eq k k' : key_eqb k k' = true <-> k = k'.
Proof.
  destruct k as [[] []], k' as [[] []]; cbn; split; congruence.
Qed.

Lemma flag_set_selection k k' s :
  flag k (set_selection k' s) = key_eqb k' k || flag k s.
Proof.
  destruct s as [[] [] [] ?].
  destruct k as [[] []], k' as [[] []]; cbn; rewrite ?orb_true_r; reflexivity.
Qed.

Lemma enumerate_from_In {X} (l : list X) :
  forall k i x, In (i, x) (Py.enumerate_from k l) <-> k <= i /\ l !! (i - k) = Some x.
Proof.
  induction l as [| y t IH]; intros k i x; cbn [Py.enumerate_from In].
  - split; [tauto | intros [_ H]; discriminate].
  - rewrite IH. split.
    + intros [[= <- <-] | [Hle Hl]].
      * split; [lia |]. rewrite Nat.sub_diag. reflexivity.
      * split; [lia |]. replace (i - k) with (S (i - S k)) by lia. exact Hl.
    + intros [Hle Hl]. destruct (Nat.eq_dec k i) as [<- | Hne].
      * left. rewrite Nat.sub_diag in Hl. cbn in Hl. congruence.
      * right. split; [lia |]. replace (i - k) with (S (i - S k)) in Hl by lia. exact Hl.
Qed.

Lemma enumerate_In {X} (l : list X) i x :
  In (i, x) (Py.enumerate l) <-> l !! i = Some x.
Proof.
  unfold Py.enumerate. rewrite enumerate_from_In, Nat.sub_0_r.
  split; [tauto | split; [lia | assumption]].
Qed.

Lemma flag_mark_step st k sel i c :
  flag k (mark_step st sel (i, c)) = true <->
  flag k sel = true \/
  is_selected c = true /\
  exists rg,
    List.find (fun kr => (fst (snd kr) <=? i) && (i <=? snd (snd kr))) (ranges st)
    = Some (k, rg).
Proof.
  unfold mark_step. cbn [fst snd].
  destruct (is_selected c).
  - destruct (List.find _ (ranges st)) as [[k' rg'] |].
    + cbn [fst]. rewrite flag_set_selection, orb_true_iff, key_eqb_eq. split.
      * intros [-> | H]; [right; eauto | left; exact H].
      * intros [H | [_ [rg [= -> _]]]]; [right; exact H | left; reflexivity].
    + split; [tauto | intros [H | [_ [rg [=]]]]; exact H].
  - split; [tauto | intros [H | [[=] _]]; exact H].
Qed.

Lemma fold_marks st k :
  forall cells sel,
    flag k (fold_left (mark_step st) cells sel) = true <->
    flag k sel = true \/
    exists i c rg, In (i, c) cells /\ is_selected c = true /\
      List.find (fun kr => (fst (snd kr) <=? i) && (i <=? snd (snd kr))) (ranges st)
      = Some (k, rg).
Proof.
  induction cells as [| [i c] t IH]; intros sel; cbn [fold_left].
  - split; [tauto | intros [H | (? & ? & ? & [] & _)]; exact H].
  - rewrite IH, flag_mark_step. split.
    + intros [[H | [Hs [rg Hf]]] | (i' & c' & rg & Hin & Hs & Hf)].
      * left; exact H.
      * right. exists i, c, rg. split; [left; reflexivity | tauto].
      * right. exists i', c', rg. split; [right; exact Hin | tauto].
    + intros [H | (i' & c' & rg & [[= <- <-] | Hin] & Hs & Hf)].
      * left; left; exact H.
      * left; right. eauto.
      * right. eauto 8.
Qed.

Lemma flag_no_levels k t :
  flag k {| confidentiality := no_levels; integrity := no_levels;
            availability := no_levels; special_text := t |} = false.
Proof. destruct k as [[] []]; reflexivity. Qed.

Lemma flag_special_text k s t :
  flag k {| confidentiality := confidentiality s; integrity := integrity s;
            availability := availability s; special_text := t |} = flag k s.
Proof. destruct k as [[] []]; reflexivity. Qed.

Lemma parse_control_row_from_flags b r st rec k :
  parse_control_row_from b r st = Some rec ->
  (flag k (selections rec) = true <-> marked_in st r k).
Proof.
  unfold parse_control_row_from.
  destruct (find_control_id _) as [[cid i] |]; [| discriminate].
  intros [= <-]. cbn [selections].
  set (sel := fold_left _ _ _).
  assert (flag k sel = true <-> marked_in st r k) as Hsel.
  { subst sel. rewrite fold_marks, flag_no_levels. unfold marked_in. split.
    - intros [H | (j & c & rg & Hin & Hs & Hf)]; [discriminate |].
      apply enumerate_In in Hin. eauto 8.
    - intros (j & c & rg & Hl & Hs & Hf). right. exists j, c, rg.
      rewrite enumerate_In. tauto. }
  destruct (String.eqb (family_of cid) "PM"); [rewrite flag_special_text; exact Hsel |].
  destruct (String.eqb (family_of cid) "PT"); [rewrite flag_special_text; exact Hsel |].
  exact Hsel.
Qed.

Lemma any_flag_spec s : any_flag s = true <-> exists k, flag k s = true.
Proof.
  destruct s as [[c1 c2 c3] [i1 i2 i3] [a1 a2 a3] t]. unfold any_flag, any_level. cbn.
  split.
  - intros Hany.
    destruct c1; [exists (C, L); reflexivity |].
    destruct c2; [exists (C, M); reflexivity |].
    destruct c3; [exists (C, Cnssi1253.H); reflexivity |].
    destruct i1; [exists (I, L); reflexivity |].
    destruct i2; [exists (I, M); reflexivity |].
    destruct i3; [exists (I, Cnssi1253.H); reflexivity |].
    destruct a1; [exists (A, L); reflexivity |].
    destruct a2; [exists (A, M); reflexivity |].
    destruct a3; [exists (A, Cnssi1253.H); reflexivity |].
    discriminate.
  - intros [[[] []] Hk]; cbn in Hk; subst; rewrite ?orb_true_r; reflexivity.
Qed.

Lemma parse_control_row_from_marks b r st rec :
  parse_control_row_from b r st = Some rec ->
  (any_flag (selections rec) = true <-> exists k, marked_in st r k).
Proof.
  intros H. rewrite any_flag_spec. split; intros [k Hk]; exists k;
    eapply (parse_control_row_from_flags _ _ _ _ k H); exact Hk.
Qed.

Lemma parse_control_row_from_selected b r st rec :
  parse_control_row_from b r st = Some rec ->
  selected rec =
    negb b &&
    (if String.eqb (family_of (control_id rec)) "PM" then true
     else if String.eqb (family_of (control_id rec)) "PT" then false
     else any_flag (selections rec)).
Proof.
  unfold parse_control_row_from.
  destruct (find_control_id _) as [[cid i] |]; [| discriminate].
  intros [= <-]. cbn [selected selections control_id].
  destruct (String.eqb (family_of cid) "PM"); [destruct b; reflexivity |].
  destruct (String.eqb (family_of cid) "PT"); [destruct b; reflexivity |].
  destruct b; reflexivity.
Qed.

Lemma truthy_ne s : Py.truthy s = true <-> s <> "".
Proof. destruct s; cbn; split; congruence. Qed.

Lemma str_in_markers t :
  Py.str_in t [""; "None"; "X"; "+"] = false <->
  t <> "" /\ t <> "None" /\ t <> "X" /\ t <> "+".
Proof.
  unfold Py.str_in. cbn [existsb]. rewrite !orb_false_iff, !String.eqb_neq. tauto.
Qed.

Lemma text_column_spec col r t :
  text_column col r = Some t <-> text_at col r t.
Proof.
  unfold text_column, text_at, normal_text. split.
  - destruct col as [n |]; [| discriminate].
    destruct (Nat.eqb_spec n 0) as [-> | Hn]; [discriminate |]. cbn [negb andb].
    destruct (Nat.ltb_spec n (length r)); [| discriminate].
    destruct (r !! n) as [[s |] |] eqn:El; try discriminate.
    destruct (Py.truthy s); [| discriminate].
    destruct (Py.truthy (Py.strip s)) eqn:Et; [| discriminate]. cbn [andb].
    destruct (Py.str_in (Py.strip s) _) eqn:Em; [discriminate |].
    intros [= <-]. apply str_in_markers in Em.
    exists n, s. repeat split; try tauto; try lia. apply strip_idem.
  - intros (n & s & -> & Hn & Hl & -> & _ & Hne & Hrest).
    destruct (Nat.eqb_spec n 0) as [-> | _]; [lia |]. cbn [negb andb].
    assert (n < length r) as Hlt by (apply lookup_lt_is_Some; eauto).
    destruct (Nat.ltb_spec n (length r)); [| lia].
    rewrite Hl.
    assert (Py.truthy s = true) as ->.
    { destruct s; [exfalso; apply Hne; reflexivity | reflexivity]. }
    assert (Py.truthy (Py.strip s) = true) as -> by (apply truthy_ne; exact Hne).
    assert (Py.str_in (Py.strip s) [""; "None"; "X"; "+"] = false) as ->
      by (apply str_in_markers; tauto).
    reflexivity.
Qed.

Lemma parse_control_row_from_fields b r st rec :
  parse_control_row_from b r st = Some rec ->
  justification rec = text_column (justification_col st) r /\
  parameter_value rec = text_column (param_value_col st) r /\
  exists i, find_control_id (firstn (Nat.min 4 (length r)) (Py.enumerate r))
            = Some (control_id rec, i) /\
            title rec = find_title r i [1; 2; 3; 4].
Proof.
  unfold parse_control_row_from.
  destruct (find_control_id _) as [[cid i] |]; [| discriminate].
  intros [= <-]. cbn. eauto.
Qed.

Lemma find_title_stripped r i offs :
  Py.strip (find_title r i offs) = find_title r i offs.
Proof.
  induction offs as [| off t IH]; cbn [find_title]; [reflexivity |].
  destruct (r !! (i + off)) as [[s |] |]; try exact IH.
  destruct (Py.truthy s && Py.truthy (Py.strip s)); [apply strip_idem | exact IH].
Qed.

Lemma find_title_spec r i offs :
  (find_title r i offs = "" /\
   Forall (fun off => forall s, r !! (i + off) = Some (Some s) -> Py.strip s = "") offs) \/
  (exists pre off post s,
      offs = (pre ++ off :: post)%list /\ r !! (i + off) = Some (Some s) /\
      find_title r i offs = Py.strip s /\ Py.strip s <> "" /\
      Forall (fun off => forall s, r !! (i + off) = Some (Some s) -> Py.strip s = "") pre).
Proof.
  induction offs as [| off t IH]; cbn [find_title].
  - left. split; [reflexivity | constructor].
  - destruct (r !! (i + off)) as [[s |] |] eqn:El.
    + destruct (Py.truthy s && Py.truthy (Py.strip s)) eqn:Et.
      * right. exists [], off, t, s. apply andb_prop in Et as [_ Et].
        apply truthy_ne in Et. repeat split; auto.
      * assert (Py.strip s = "") as Hs.
        { apply andb_false_iff in Et as [Et | Et].
          - destruct s; [reflexivity | discriminate].
          - destruct (Py.strip s); [reflexivity | discriminate]. }
        destruct IH as [[E F] | (pre & off' & post & s' & -> & Hl & E & Hne & F)].
        -- left. split; [exact E |]. constructor; [| exact F].
           intros s0 Hs0; rewrite El in Hs0; injection Hs0 as <-; exact Hs.
        -- right. exists (off :: pre), off', post, s'. repeat split; auto.
           constructor; [| exact F]. intros s0 Hs0; rewrite El in Hs0; injection Hs0 as <-; exact Hs.
    + destruct IH as [[E F] | (pre & off' & post & s' & -> & Hl & E & Hne & F)].
      * left. split; [exact E |]. constructor; [| exact F]. intros s0 Hs0; rewrite El in Hs0; discriminate Hs0.
      * right. exists (off :: pre), off', post, s'. repeat split; auto.
        constructor; [| exact F]. intros s0 Hs0; rewrite El in Hs0; discriminate Hs0.
    + destruct IH as [[E F] | (pre & off' & post & s' & -> & Hl & E & Hne & F)].
      * left. split; [exact E |]. constructor; [| exact F]. intros s0 Hs0; rewrite El in Hs0; discriminate Hs0.
      * right. exists (off :: pre), off', post, s'. repeat split; auto.
        constructor; [| exact F]. intros s0 Hs0; rewrite El in Hs0; discriminate Hs0.
Qed.

Lemma find_title_four r i :
  (find_title r i [1; 2; 3; 4] = "" /\ blank_after r i 1 5) \/
  (exists off s, 1 <= off <= 4 /\ r !! (i + off) = Some (Some s) /\
                 find_title r i [1; 2; 3; 4] = Py.strip s /\ Py.strip s <> "" /\
                 blank_after r i 1 off).
Proof.
  destruct (find_title_spec r i [1; 2; 3; 4])
    as [[E F] | (pre & off & post & s & Hsplit & Hl & E & Hne & F)].
  - left. split; [exact E |]. intros off s Hoff Hl.
    rewrite List.Forall_forall in F. apply (F off); [| exact Hl].
    cbn. lia.
  - right. exists off, s.
    assert (1 <= off <= 4 /\ forall o, 1 <= o < off -> In o pre) as [Hoff Hpre].
    { destruct pre as [| p1 [| p2 [| p3 [| p4 pre]]]]; cbn in Hsplit;
        injection Hsplit as <-; subst; cbn.
      - split; [lia | intros; lia].
      - split; [lia | intros; lia].
      - split; [lia | intros; lia].
      - split; [lia | intros; lia].
      - destruct pre; discriminate. }
    repeat split; try tauto; try lia.
    intros o s0 Ho Hl0. rewrite List.Forall_forall in F. apply (F o); auto.
Qed.

(** ** The properties of a row *)

(** X2: a record's identifier is the stripped text of the first of
    the row's first four cells that strips to a two-letter control
    identifier; the row has at least ten cells. *)
Theorem parse_control_row_identifier r st rec :
  parse_control_row r st = Some rec ->
  10 <= length r /\ identifier 2 2 (control_id rec) /\
  exists i s, i < 4 /\ r !! i = Some (Some s) /\ control_id rec = Py.strip s /\
              forall j c, j < i -> r !! j = Some c -> ~ id_cell c.
Proof.
  intros H. apply TableRows.parse_control_row_unfold in H as [Hlen H].
  split; [exact Hlen |].
  pose proof (parse_control_row_from_id (is_withdrawn r) r st) as Hid.
  rewrite H in Hid. destruct Hid as [i Hid].
  replace (Nat.min 4 (length r)) with 4 in Hid by lia.
  apply (find_control_id_firstn r 4 0) in Hid as (j & c & -> & Hj & Hl & Hm & Hbefore).
  apply match_control_id_spec in Hm as (s & -> & E & Hident).
  split; [exact Hident |]. exists j, s. repeat split; try assumption.
  intros j' c' Hlt Hl'. apply match_control_id_none. eauto.
Qed.

Lemma parse_control_row_identifier_witness :
  exists rec,
    parse_control_row ac_row sample_structure = Some rec /\
    control_id rec = "AC-2" /\ identifier 2 2 (control_id rec).
Proof.
  eexists. split; [vm_compute; reflexivity |].
  split; [vm_compute; reflexivity |].
  apply (parse_control_row_identifier ac_row sample_structure).
  vm_compute. reflexivity.
Defined.

(** X3: the title of a record is the stripped text of the first cell,
    among the four cells after the identifier's column, that is not blank;
    it is empty when these four cells are blank or missing. *)
Theorem parse_control_row_title r st rec :
  parse_control_row r st = Some rec ->
  exists i s, i < 4 /\ r !! i = Some (Some s) /\ control_id rec = Py.strip s /\
    (forall j c, j < i -> r !! j = Some c -> ~ id_cell c) /\
    ((title rec = "" /\ blank_after r i 1 5) \/
     (exists off t, 1 <= off <= 4 /\ r !! (i + off) = Some (Some t) /\
                    title rec = Py.strip t /\ title rec <> "" /\
                    blank_after r i 1 off)).
Proof.
  intros H. apply TableRows.parse_control_row_unfold in H as [Hlen H].
  apply parse_control_row_from_fields in H as (_ & _ & i & Hid & ->).
  replace (Nat.min 4 (length r)) with 4 in Hid by lia.
  apply (find_control_id_firstn r 4 0) in Hid as (j & c & -> & Hj & Hl & Hm & Hbefore).
  apply match_control_id_spec in Hm as (s & -> & E & Hident).
  exists j, s. cbn [Nat.add]. repeat split; try assumption.
  - intros j' c' Hlt Hl'. apply match_control_id_none. eauto.
  - destruct (find_title_four r j) as [[Et Hb] | (off & t & Hoff & Ht & Et & Hne & Hb)].
    + left. tauto.
    + right. exists off, t. rewrite Et. tauto.
Qed.

Lemma parse_control_row_title_witness :
  exists rec,
    parse_control_row ac_row sample_structure = Some rec /\
    title rec = "Account Management" /\
    exists i s, i < 4 /\ ac_row !! i = Some (Some s) /\ control_id rec = Py.strip s /\
      (forall j c, j < i -> ac_row !! j = Some c -> ~ id_cell c) /\
      ((title rec = "" /\ blank_after ac_row i 1 5) \/
       (exists off t, 1 <= off <= 4 /\ ac_row !! (i + off) = Some (Some t) /\
                      title rec = Py.strip t /\ title rec <> "" /\
                      blank_after ac_row i 1 off)).
Proof.
  eexists. split; [vm_compute; reflexivity |].
  split; [vm_compute; reflexivity |].
  apply (parse_control_row_title ac_row sample_structure); vm_compute; reflexivity.
Defined.

(** X4: a flag of a record's selections is set exactly when some cell of
    the row holds a mark (X or +, stripped) in a column that lies in a
    range of the structure, and the first range of the structure that
    holds the column is the one of the flag. *)
Theorem parse_control_row_flags r st rec k :
  parse_control_row r st = Some rec ->
  (flag k (selections rec) = true <-> marked_in st r k).
Proof.
  intros H. apply TableRows.parse_control_row_unfold in H as [_ H].
  eapply parse_control_row_from_flags; exact H.
Qed.

Lemma parse_control_row_flags_witness :
  exists rec,
    parse_control_row ac_row sample_structure = Some rec /\
    (flag (I, L) (selections rec) = true <-> marked_in sample_structure ac_row (I, L)).
Proof.
  eexists. split; [vm_compute; reflexivity |].
  apply (parse_control_row_flags ac_row sample_structure).
  vm_compute. reflexivity.
Defined.

(** X5: a record is selected exactly when no cell of the row holds
    the withdrawn marker and either the family is PM, or the family is not
    PT and some mark of the row falls into a range. *)
Theorem parse_control_row_selected r st rec :
  parse_control_row r st = Some rec ->
  (selected rec = true <->
   ~ has_withdrawn_cell r /\
   (family_of (control_id rec) = "PM" \/
    family_of (control_id rec) <> "PT" /\ exists k, marked_in st r k)).
Proof.
  intros H. apply TableRows.parse_control_row_unfold in H as [_ H].
  rewrite (parse_control_row_from_selected _ _ _ _ H).
  rewrite <- TableRows.is_withdrawn_spec.
  pose proof (parse_control_row_from_marks _ _ _ _ H) as Hany.
  destruct (is_withdrawn r); cbn [negb andb].
  - split; [discriminate | intros [Hw _]; exfalso; apply Hw; reflexivity].
  - destruct (String.eqb_spec (family_of (control_id rec)) "PM") as [Epm | Npm].
    + split; [intros _; split; [discriminate | left; exact Epm] | reflexivity].
    + destruct (String.eqb_spec (family_of (control_id rec)) "PT") as [Ept | Npt].
      * split; [discriminate |]. intros [_ [Hpm | [Hpt _]]]; congruence.
      * rewrite Hany. split.
        -- intros Hk. split; [discriminate | right; split; assumption].
        -- intros [_ [Hpm | [_ Hk]]]; [congruence | exact Hk].
Qed.

Lemma parse_control_row_selected_witness :
  exists rec,
    parse_control_row ac_row sample_structure = Some rec /\
    selected rec = true /\
    ~ has_withdrawn_cell ac_row /\
    (family_of (control_id rec) = "PM" \/
     family_of (control_id rec) <> "PT" /\ exists k, marked_in sample_structure ac_row k).
Proof.
  eexists. split; [vm_compute; reflexivity |].
  split; [vm_compute; reflexivity |].
  apply (parse_control_row_selected ac_row sample_structure);
    vm_compute; reflexivity.
Defined.

(** X6: the justification (and likewise the parameter value) of a
    record is present exactly when the structure has the column, the
    column is not 0, and the row's cell there strips to a text that is
    not empty and none of None, X and +; it is then this stripped text. *)
Theorem parse_control_row_text r st rec :
  parse_control_row r st = Some rec ->
  (forall t, justification rec = Some t <-> text_at (justification_col st) r t) /\
  (forall t, parameter_value rec = Some t <-> text_at (param_value_col st) r t).
Proof.
  intros H. apply TableRows.parse_control_row_unfold in H as [_ H].
  apply parse_control_row_from_fields in H as (-> & -> & _).
  split; intros t; apply text_column_spec.
Qed.

Lemma parse_control_row_text_witness :
  exists rec,
    parse_control_row ac_row sample_structure = Some rec /\
    justification rec = Some "NSS best practice" /\
    parameter_value rec = None /\
    text_at (justification_col sample_structure) ac_row "NSS best practice".
Proof.
  eexists. split; [vm_compute; reflexivity |].
  split; [vm_compute; reflexivity |].
  split; [vm_compute; reflexivity |].
  refine (proj1 (proj1 (parse_control_row_text ac_row sample_structure _ _) _) _);
    vm_compute; reflexivity.
Defined.

End RowFacts.

(* ===================================================================== *)
(** * The detected structure, whatever the header *)
(* ===================================================================== *)

Module StructureFacts.

Import Re Cnssi1253 Vocabulary TableVocabulary StrFacts ReFacts IdFacts StripFacts RowFacts.

Lemma dict_set_keys k v d :
  map fst (dict_set k v d) =
  if existsb (fun k' => key_eqb k' k) (map fst d) then map fst d
  else (map fst d ++ [k])%list.
Proof.
  induction d as [| [k' v'] t IH]; cbn [dict_set map existsb fst app]; [reflexivity |].
  destruct (key_eqb k' k) eqn:E; cbn [orb map fst]; [reflexivity |].
  rewrite IH. destruct (existsb _ (map fst t)); reflexivity.
Qed.

Lemma dict_set_NoDup k v d : NoDup (map fst d) -> NoDup (map fst (dict_set k v d)).
Proof.
  intros Hd. rewrite dict_set_keys.
  destruct (existsb _ (map fst d)) eqn:E; [exact Hd |].
  apply NoDup_app. split; [exact Hd |]. split; [| apply NoDup_singleton].
  intros x Hx Hk. apply list_elem_of_singleton in Hk as ->.
  assert (existsb (fun k' => key_eqb k' k) (map fst d) = true); [| congruence].
  apply existsb_exists. exists k. split; [apply list_elem_of_In; exact Hx |].
  apply key_eqb_eq. reflexivity.
Qed.

Lemma dict_set_Forall (P : (cia * level) * (nat * nat) -> Prop) k v d :
  Forall P d -> P (k, v) -> Forall P (dict_set k v d).
Proof.
  intros Hd Hkv. induction Hd as [| [k' v'] t Hx Ht IH]; cbn [dict_set].
  - constructor; [exact Hkv | constructor].
  - destruct (key_eqb k' k) eqn:E.
    + apply key_eqb_eq in E as ->. constructor; assumption.
    + constructor; assumption.
Qed.

Lemma range_step_inv (P : (cia * level) * (nat * nat) -> Prop) lmh :
  (forall c p, In p lmh -> P ((c, snd p), (fst p, range_end lmh (fst p)))) ->
  forall l st,
    incl l lmh ->
    NoDup (map fst (fst (fst st))) -> Forall P (fst (fst st)) ->
    NoDup (map fst (fst (fst (fold_left (range_step lmh) l st)))) /\
    Forall P (fst (fst (fold_left (range_step lmh) l st))).
Proof.
  intros HP. induction l as [| p t IH]; intros st Hincl Hnd Hall; cbn [fold_left];
    [split; assumption |].
  apply IH.
  - intros x Hx. apply Hincl. right. exact Hx.
  - destruct st as [[rs ci] lc]. unfold range_step. cbn [fst snd] in *.
    destruct (nth_error cia_list ci); [| exact Hnd].
    destruct (3 <=? lc + 1); cbn [fst]; apply dict_set_NoDup; exact Hnd.
  - destruct st as [[rs ci] lc]. unfold range_step. cbn [fst snd] in *.
    destruct (nth_error cia_list ci); [| exact Hall].
    destruct (3 <=? lc + 1); cbn [fst]; (apply dict_set_Forall; [exact Hall |]);
      apply HP; apply Hincl; left; reflexivity.
Qed.

Lemma build_ranges_inv (P : (cia * level) * (nat * nat) -> Prop) lmh :
  (forall c p, In p lmh -> P ((c, snd p), (fst p, range_end lmh (fst p)))) ->
  NoDup (map fst (build_ranges lmh)) /\ Forall P (build_ranges lmh).
Proof.
  intros HP. unfold build_ranges. apply (range_step_inv P lmh HP).
  - apply incl_refl.
  - constructor.
  - constructor.
Qed.

Lemma keys_bound (ks : list (cia * level)) : NoDup ks -> length ks <= 9.
Proof.
  intros Hnd. change 9 with (length all_keys).
  apply NoDup_incl_length.
  - apply NoDup_ListNoDup. exact Hnd.
  - intros [[] []] _; cbn; tauto.
Qed.

Lemma lmh_scan_In cells i l :
  In (i, l) (lmh_scan cells) <-> exists c, In (i, c) cells /\ lmh_token c = Some l.
Proof.
  induction cells as [| [j c] t IH]; cbn [lmh_scan].
  - split; [intros [] | intros (? & [] & _)].
  - destruct (lmh_token c) as [l' |] eqn:E; cbn [In]; rewrite IH; split.
    + intros [[= <- <-] | (c' & Hin & Hc)]; eauto.
    + intros (c' & [[= <- <-] | Hin] & Hc); [left; congruence | right; eauto].
    + intros (c' & Hin & Hc); eauto.
    + intros (c' & [[= <- <-] | Hin] & Hc); [congruence | eauto].
Qed.

Lemma lmh_positions_In r i l :
  In (i, l) (lmh_positions r) <-> exists c, r !! i = Some c /\ lmh_token c = Some l.
Proof.
  unfold lmh_positions. rewrite lmh_scan_In.
  split; intros (c & H & Hc); exists c; (split; [apply enumerate_In; exact H | exact Hc]).
Qed.

Lemma range_end_spec lmh col :
  StronglySorted (fun p q : nat * level => fst p < fst q) lmh ->
  (exists p, In p lmh /\ col < fst p /\ range_end lmh col = fst p - 1 /\
             forall q, In q lmh -> col < fst q -> fst p <= fst q) \/
  (range_end lmh col = col + 2 /\ forall q, In q lmh -> fst q <= col).
Proof.
  unfold range_end. induction 1 as [| p t Hs IH Hp]; cbn [List.find].
  - right. split; [reflexivity | intros q []].
  - destruct (Nat.ltb_spec col (fst p)) as [Hlt | Hge].
    + left. exists p. split; [left; reflexivity |]. split; [exact Hlt |].
      split; [reflexivity |]. intros q [<- | Hq] _; [lia |].
      rewrite List.Forall_forall in Hp. specialize (Hp q Hq). lia.
    + destruct IH as [(p' & Hin & Hlt & E & Hmin) | [E Hall]].
      * left. exists p'. split; [right; exact Hin |]. split; [exact Hlt |].
        split; [exact E |]. intros q [<- | Hq] Hq'; [lia | auto].
      * right. split; [exact E |]. intros q [<- | Hq]; [lia | auto].
Qed.

(** X7: whatever the header block, the ranges have distinct keys and
    are at most nine; each starts at a column of the third header row that
    shows the level token of its key, and ends one column before the next
    level token to the right, or two columns after its start when there
    is none. *)
Theorem detect_table_structure_ranges (header_rows : list row) :
  let rs := ranges (detect_table_structure header_rows) in
  NoDup (map fst rs) /\ length rs <= 9 /\
  forall k a b, In (k, (a, b)) rs ->
    exists r2, header_rows !! 2 = Some r2 /\ range_of_token r2 (snd k) a b.
Proof.
  cbv zeta.
  destruct header_rows as [| r0 [| r1 [| r2 rest]]]; cbn [detect_table_structure ranges];
    try (split; [constructor | split; [cbn; lia | intros ? ? ? []]]).
  set (lmh := lmh_positions r2).
  destruct (build_ranges_inv
              (fun kr => range_of_token r2 (snd (fst kr)) (fst (snd kr)) (snd (snd kr)))
              lmh) as [Hnd Hall].
  { intros c [a l] Hin. cbn [fst snd]. unfold range_of_token.
    pose proof Hin as Htok. apply lmh_positions_In in Htok.
    split; [exact Htok |].
    destruct (range_end_spec lmh a (Structure.lmh_positions_increasing r2))
      as [([a' l'] & Hin' & Hlt & E & Hmin) | [E Hmax]]; cbn [fst] in *.
    - left. apply lmh_positions_In in Hin' as (c' & Hl' & Ht').
      exists c', l'. rewrite E. replace (a' - 1 + 1) with a' by lia.
      split; [exact Hl' |]. split; [exact Ht' |]. split; [lia |].
      intros j cj Hj Hlj. destruct (lmh_token cj) as [lj |] eqn:Ej; [| reflexivity].
      exfalso. assert (In (j, lj) lmh) as Hinj by (apply lmh_positions_In; eauto).
      specialize (Hmin _ Hinj). cbn [fst] in Hmin. lia.
    - right. split; [exact E |].
      intros j cj Hj Hlj. destruct (lmh_token cj) as [lj |] eqn:Ej; [| reflexivity].
      exfalso. assert (In (j, lj) lmh) as Hinj by (apply lmh_positions_In; eauto).
      specialize (Hmax _ Hinj). cbn [fst] in Hmax. lia. }
  split; [exact Hnd |].
  split; [rewrite <- (length_map fst); apply keys_bound; exact Hnd |].
  intros k a b Hin. exists r2. split; [reflexivity |].
  rewrite List.Forall_forall in Hall. apply (Hall _ Hin).
Qed.

Lemma contains_nil sub : sub <> "" -> Py.contains sub "" = false.
Proof.
  intros H. destruct (Py.contains sub "") eqn:E; [| reflexivity].
  apply TableRows.contains_truthy in E; [discriminate | exact H].
Qed.

Lemma text_col_step_spec st i c :
  text_col_step st (i, c) =
  (if justification_cell c then Some i else fst st,
   if parameter_cell c then Some i else snd st).
Proof.
  unfold text_col_step, justification_cell, parameter_cell, mentions. cbn [fst snd].
  destruct c as [s |]; [| destruct st; reflexivity].
  destruct s as [| a s].
  - cbn [Py.truthy]. change (Py.lower (Py.strip "")) with "".
    rewrite !contains_nil by discriminate. destruct st; reflexivity.
  - cbn [Py.truthy].
    destruct (Py.contains "justification" _); cbn [negb andb];
      [rewrite andb_false_r; reflexivity |].
    rewrite andb_true_r. destruct (Py.contains "parameter" _); destruct st; reflexivity.
Qed.

Lemma fold_text_cols (r : row) :
  forall k st,
    fold_left text_col_step (Py.enumerate_from k r) st =
    (fold_left (fun acc ic => if justification_cell (snd ic) then Some (fst ic) else acc)
               (Py.enumerate_from k r) (fst st),
     fold_left (fun acc ic => if parameter_cell (snd ic) then Some (fst ic) else acc)
               (Py.enumerate_from k r) (snd st)).
Proof.
  induction r as [| c t IH]; intros k st; cbn [Py.enumerate_from fold_left].
  - destruct st; reflexivity.
  - rewrite IH, text_col_step_spec. reflexivity.
Qed.

Lemma fold_last (f : cell -> bool) (r : row) :
  forall k acc i,
    fold_left (fun acc ic => if f (snd ic) then Some (fst ic) else acc)
              (Py.enumerate_from k r) acc = Some i <->
    (k <= i /\ last_where f r (i - k)) \/
    (acc = Some i /\ forall c, In c r -> f c = false).
Proof.
  induction r as [| c t IH]; intros k acc i; cbn [Py.enumerate_from fold_left].
  - split.
    + intros H. right. split; [exact H | intros ? []].
    + intros [[_ [(c & Hc & _) _]] | [H _]]; [discriminate | exact H].
  - rewrite IH. cbn [fst snd]. unfold last_where. split.
    + intros [[Hk [(c' & Hl & Hf) Hlast]] | [Hacc Hall]].
      * left. split; [lia |]. replace (i - k) with (S (i - S k)) by lia.
        split; [exists c'; split; assumption |].
        intros [| j] cj Hj Hlj; [lia |]. apply (Hlast j); [lia | exact Hlj].
      * destruct (f c) eqn:Ec.
        -- injection Hacc as <-. left. split; [lia |]. rewrite Nat.sub_diag.
           split; [exists c; split; [reflexivity | exact Ec] |].
           intros [| j] cj Hj Hlj; [lia |]. apply Hall.
           cbn in Hlj. apply list_elem_of_In. eapply list_elem_of_lookup_2. exact Hlj.
        -- right. split; [exact Hacc |]. intros c' [<- | Hin]; auto.
    + intros [[Hk [(c' & Hl & Hf) Hlast]] | [Hacc Hall]].
      * destruct (Nat.eq_dec i k) as [-> | Hne].
        -- right. rewrite Nat.sub_diag in *. cbn in Hl. injection Hl as <-.
           rewrite Hf. split; [reflexivity |].
           intros c' Hin. apply list_elem_of_In, list_elem_of_lookup_1 in Hin as [j Hj].
           apply (Hlast (S j)); [lia | exact Hj].
        -- left. split; [lia |]. replace (i - k) with (S (i - S k)) in * by lia.
           split; [exists c'; split; assumption |].
           intros j cj Hj Hlj. apply (Hlast (S j)); [lia | exact Hlj].
      * right. rewrite (Hall c) by (left; reflexivity).
        split; [exact Hacc |]. intros c' Hin. apply Hall. right. exact Hin.
Qed.

(** X8: the justification column is the last cell of the first
    header row that mentions justification (in any case), the parameter
    column the last one that mentions parameter and not justification;
    either is absent when no cell does, or when there is no header row. *)
Theorem detect_table_structure_text_columns (header_rows : list row) (i : nat) :
  (justification_col (detect_table_structure header_rows) = Some i <->
   exists r0, header_rows !! 0 = Some r0 /\ last_where justification_cell r0 i) /\
  (param_value_col (detect_table_structure header_rows) = Some i <->
   exists r0, header_rows !! 0 = Some r0 /\ last_where parameter_cell r0 i).
Proof.
  destruct header_rows as [| r0 rest];
    cbn [detect_table_structure justification_col param_value_col fst snd].
  - split; (split; [discriminate | intros (? & [=] & _)]).
  - unfold Py.enumerate. rewrite fold_text_cols. cbn [fst snd].
    rewrite !fold_last, !Nat.sub_0_r. split; split.
    + intros [[_ H] | [[=] _]]. exists r0. split; [reflexivity | exact H].
    + intros (? & [= <-] & H). left. split; [lia | exact H].
    + intros [[_ H] | [[=] _]]. exists r0. split; [reflexivity | exact H].
    + intros (? & [= <-] & H). left. split; [lia | exact H].
Qed.

Lemma detect_ranges_token (header_rows : list row) k a b :
  In (k, (a, b)) (ranges (detect_table_structure header_rows)) ->
  exists r2 c, header_rows !! 2 = Some r2 /\ r2 !! a = Some c /\ lmh_token c = Some (snd k).
Proof.
  destruct header_rows as [| r0 [| r1 [| r2 rest]]]; cbn [detect_table_structure ranges];
    try (intros []).
  intros Hin.
  destruct (build_ranges_inv
              (fun kr => exists c, r2 !! fst (snd kr) = Some c
                                   /\ lmh_token c = Some (snd (fst kr)))
              (lmh_positions r2)) as [_ Hall].
  { intros c [i l] Hp. cbn [fst snd]. apply lmh_positions_In. exact Hp. }
  rewrite List.Forall_forall in Hall. destruct (Hall _ Hin) as (c & Hc & Ht).
  exists r2, c. split; [reflexivity | split; assumption].
Qed.

(** X9: when the header block has no third row, or its third row
    shows no L, M or H token, every flag of every record is false, and a
    record is selected exactly when its family is PM and no cell holds the
    withdrawn marker. *)
Theorem no_level_tokens_no_flags (header_rows : list row) (r : row) (rec : ControlRecord) :
  (forall r2 c, header_rows !! 2 = Some r2 -> In c r2 -> lmh_token c = None) ->
  parse_control_row r (detect_table_structure header_rows) = Some rec ->
  (forall k, flag k (selections rec) = false) /\
  (selected rec = true <->
   ~ has_withdrawn_cell r /\ family_of (control_id rec) = "PM").
Proof.
  intros Hno Hparse.
  apply TableRows.parse_control_row_unfold in Hparse as [_ Hfrom].
  assert (forall k, ~ marked_in (detect_table_structure header_rows) r k) as Hnone.
  { intros k (i & c & [a b] & _ & _ & Hf). apply find_some in Hf as [Hin _].
    destruct (detect_ranges_token _ _ _ _ Hin) as (r2 & c2 & Hr2 & Hl & Ht).
    rewrite (Hno r2 c2 Hr2) in Ht; [discriminate |].
    apply list_elem_of_In. eapply list_elem_of_lookup_2. exact Hl. }
  assert (any_flag (selections rec) = false) as Hany.
  { destruct (any_flag (selections rec)) eqn:E; [| reflexivity].
    apply (parse_control_row_from_marks _ _ _ _ Hfrom) in E as [k Hk].
    destruct (Hnone k Hk). }
  split.
  - intros k. destruct (flag k (selections rec)) eqn:E; [| reflexivity].
    exfalso. apply (Hnone k). eapply parse_control_row_from_flags; eassumption.
  - rewrite (parse_control_row_from_selected _ _ _ _ Hfrom), Hany.
    rewrite <- TableRows.is_withdrawn_spec.
    destruct (is_withdrawn r); cbn [negb andb].
    + split; [discriminate | intros [Hw _]; exfalso; apply Hw; reflexivity].
    + destruct (String.eqb_spec (family_of (control_id rec)) "PM") as [Epm | Npm].
      * split; [intros _; split; [discriminate | exact Epm] | reflexivity].
      * split; [| intros [_ Hpm]; congruence].
        destruct (String.eqb (family_of (control_id rec)) "PT"); discriminate.
Qed.

Lemma no_level_tokens_no_flags_witness :
  exists rec,
    parse_control_row ac_row (detect_table_structure [hd [] sample_header]) = Some rec /\
    (forall k, flag k (selections rec) = false) /\
    (selected rec = true <->
     ~ has_withdrawn_cell ac_row /\ family_of (control_id rec) = "PM").
Proof.
  eexists. split; [vm_compute; reflexivity |].
  apply (no_level_tokens_no_flags [hd [] sample_header] ac_row).
  - intros r2 c [=].
  - vm_compute. reflexivity.
Defined.

End StructureFacts.

(* ===================================================================== *)
(** * Pages and the document *)
(* ===================================================================== *)

Module PageFacts.

Import Re Cnssi1253 Cnssi1253Pages Vocabulary TableVocabulary StrFacts ReFacts IdFacts StripFacts RowFacts StructureFacts.

Lemma parse_control_row_from_withdrawn b r st rec :
  parse_control_row_from b r st = Some rec ->
  withdrawn rec = (if b then Some true else None).
Proof.
  unfold parse_control_row_from.
  destruct (find_control_id _) as [[cid i] |]; [| discriminate].
  intros [= <-]. reflexivity.
Qed.

Lemma parse_control_row_well_formed r st rec :
  parse_control_row r st = Some rec -> well_formed rec.
Proof.
  intros H. unfold well_formed.
  pose proof (TableRows.parse_control_row_unfold _ _ _ H) as [_ Hfrom].
  pose proof (parse_control_row_from_identifier _ _ _ _ Hfrom) as Hid.
  pose proof (parse_control_row_from_fields _ _ _ _ Hfrom) as (Hj & Hp & i & _ & Ht).
  pose proof (parse_control_row_from_selected _ _ _ _ Hfrom) as Hsel.
  pose proof (parse_control_row_from_withdrawn _ _ _ _ Hfrom) as Hw.
  split; [exact Hid |]. split.
  { rewrite Ht. apply find_title_stripped. }
  split.
  { rewrite Hw, Hsel. destruct (is_withdrawn r); [reflexivity | discriminate]. }
  split.
  { intros Hpt. rewrite Hsel, Hpt. cbn. apply andb_false_r. }
  split.
  { rewrite Hsel. intros Hs. apply andb_prop in Hs as [_ Hs].
    destruct (String.eqb_spec (family_of (control_id rec)) "PM") as [E | _];
      [left; exact E |].
    destruct (String.eqb (family_of (control_id rec)) "PT"); [discriminate |].
    right. exact Hs. }
  split.
  - intros t Et. rewrite Hj in Et.
    apply text_column_spec in Et as (? & ? & _ & _ & _ & _ & Hn). exact Hn.
  - intros t Et. rewrite Hp in Et.
    apply text_column_spec in Et as (? & ? & _ & _ & _ & _ & Hn). exact Hn.
Qed.

Lemma hardcoded_identifier (letters num enh : string) :
  letters = "SC" -> num = "18" -> digits enh ->
  identifier 2 2 (render_id letters num (Some enh)).
Proof.
  intros -> -> He. exists "SC", "18", (Some enh). split; [| reflexivity].
  split; [cbn; lia |]. split; [vm_compute; reflexivity |]. split.
  - vm_compute. split; [discriminate | reflexivity].
  - intros e [= <-]. exact He.
Qed.

Lemma sc_18_well_formed rec :
  identifier 2 2 (control_id rec) ->
  Py.strip (title rec) = title rec ->
  withdrawn rec = None ->
  family_of (control_id rec) = "SC" ->
  any_flag (selections rec) = true ->
  (forall t, justification rec = Some t -> normal_text t) ->
  (forall t, parameter_value rec = Some t -> normal_text t) ->
  well_formed rec.
Proof.
  intros Hid Ht Hw Hf Hany Hj Hp. unfold well_formed.
  split; [exact Hid |]. split; [exact Ht |].
  split; [rewrite Hw; discriminate |].
  split; [rewrite Hf; discriminate |].
  split; [intros _; right; exact Hany |].
  split; assumption.
Qed.

Lemma hardcoded_well_formed : Forall well_formed hardcoded_controls.
Proof.
  assert (forall t, t = "NSS Best Practice" \/ t = sc_18_2_parameter_value
                    \/ t = sc_18_3_parameter_value -> normal_text t) as Hn.
  { intros t [-> | [-> | ->]]; unfold normal_text;
      (split; [vm_compute; reflexivity | repeat split; vm_compute; discriminate]). }
  assert (digits "2" /\ digits "3") as [H2 H3].
  { split; vm_compute; (split; [discriminate | reflexivity]). }
  unfold hardcoded_controls.
  constructor; [| constructor; [| constructor]]; apply sc_18_well_formed;
    cbn [control_id title selected selections justification parameter_value withdrawn].
  - apply (hardcoded_identifier "SC" "18" "2"); [reflexivity | reflexivity | exact H2].
  - vm_compute; reflexivity.
  - reflexivity.
  - vm_compute; reflexivity.
  - vm_compute; reflexivity.
  - intros t [= <-]. apply Hn. tauto.
  - intros t [= <-]. apply Hn. tauto.
  - apply (hardcoded_identifier "SC" "18" "3"); [reflexivity | reflexivity | exact H3].
  - vm_compute; reflexivity.
  - reflexivity.
  - vm_compute; reflexivity.
  - vm_compute; reflexivity.
  - intros t [= <-]. apply Hn. tauto.
  - intros t [= <-]. apply Hn. tauto.
Qed.

Lemma parse_rows_well_formed rows st : Forall well_formed (parse_rows rows st).
Proof.
  induction rows as [| r t IH]; cbn [parse_rows]; [constructor |].
  destruct (parse_control_row r st) eqn:E; [| exact IH].
  constructor; [eapply parse_control_row_well_formed; exact E | exact IH].
Qed.

Lemma table_controls_well_formed prev t : Forall well_formed (table_controls prev t).
Proof.
  unfold table_controls, continuation_controls.
  destruct (length t <? 4); [| apply parse_rows_well_formed].
  destruct prev as [ps |]; [| constructor].
  destruct ((0 <? length t) && has_control t); [| constructor].
  destruct (is_page_136_continuation t);
    [apply hardcoded_well_formed | apply parse_rows_well_formed].
Qed.

Lemma table_step_fold prev tables :
  forall st,
    fold_left (table_step prev) tables st =
    ((fst st ++ flat_map (table_controls prev) tables)%list,
     match last_full_structure tables with
     | Some s => Some s
     | None => snd st
     end).
Proof.
  induction tables as [| t ts IH] using rev_ind; intros st.
  - cbn [fold_left flat_map last_full_structure rev List.find]. rewrite List.app_nil_r. destruct st; reflexivity.
  - rewrite fold_left_app. cbn [fold_left]. rewrite IH.
    rewrite flat_map_app. cbn [flat_map]. rewrite List.app_nil_r.
    change (table_controls prev t) with
      (if length t <? 4 then continuation_controls prev t
       else parse_rows (skipn 3 t) (detect_table_structure (firstn 3 t))).
    unfold table_step at 1, last_full_structure.
    rewrite rev_app_distr. cbn [rev app List.find fst snd].
    destruct (length t <? 4); cbn [negb fst snd].
    + rewrite List.app_assoc. reflexivity.
    + rewrite List.app_assoc. reflexivity.
Qed.

(** X10: the records of a page are the records of its tables, in the
    order of the tables: a table of fewer than four rows is read with the
    structure passed in from the previous page (never with the structure
    of a table above it), a longer one with the structure of its own first
    three rows, which are not read as records; the structure returned is
    the one of the last table of at least four rows, or the one passed
    in. *)
Theorem extract_controls_from_page_tables (tables : list table)
    (prev_structure : option TableStructure) :
  extract_controls_from_page tables prev_structure =
  (flat_map (table_controls prev_structure) tables,
   match last_full_structure tables with
   | Some s => Some s
   | None => prev_structure
   end).
Proof.
  unfold extract_controls_from_page. rewrite table_step_fold. reflexivity.
Qed.

(** X11: read without a previous structure, a page gives exactly the
    records of the rows after the third of its tables of at least four
    rows, in the order of the tables; its shorter tables give nothing,
    also when a full table precedes them on the page. *)
Theorem first_page_full_tables_only (tables : list table) :
  fst (extract_controls_from_page tables None) =
  flat_map (fun t => parse_rows (skipn 3 t) (detect_table_structure (firstn 3 t)))
           (List.filter (fun t => negb (length t <? 4)) tables).
Proof.
  unfold extract_controls_from_page. rewrite table_step_fold. cbn [fst app].
  induction tables as [| t ts IH]; cbn [flat_map List.filter]; [reflexivity |].
  unfold table_controls at 1, continuation_controls.
  destruct (length t <? 4); cbn [negb app flat_map]; rewrite IH; reflexivity.
Qed.

Lemma find_app_last {X} (f : X -> bool) (l : list X) (x : X) :
  List.find f (l ++ [x])%list =
  match List.find f l with
  | Some y => Some y
  | None => if f x then Some x else None
  end.
Proof.
  induction l as [| y t IH]; cbn [app List.find]; [reflexivity |].
  destruct (f y); [reflexivity | exact IH].
Qed.

(** X12: after the records of a page are stored, an identifier holds the
    last record of the page that carries it, and what the store held
    before when the page has none. *)
Theorem store_controls_lookup (cs : list ControlRecord)
    (m : gmap string ControlRecord) (k : string) :
  store_controls m cs !! k =
  match last_with_id k cs with
  | Some c => Some c
  | None => m !! k
  end.
Proof.
  unfold store_controls, last_with_id.
  revert m. induction cs as [| c t IH]; intros m; cbn [fold_left rev List.find]; [reflexivity |].
  rewrite IH, find_app_last.
  destruct (List.find _ (rev t)); [reflexivity |].
  destruct (String.eqb_spec (control_id c) k) as [<- | Hne].
  - apply lookup_insert_eq.
  - apply lookup_insert_ne. exact Hne.
Qed.

Lemma store_controls_ok cs :
  forall m, store_ok m -> Forall well_formed cs -> store_ok (store_controls m cs).
Proof.
  unfold store_controls.
  induction cs as [| c t IH]; intros m Hm Hcs; cbn [fold_left]; [exact Hm |].
  inversion Hcs as [| ? ? Hc Ht]; subst. apply IH; [| exact Ht].
  intros k rec. destruct (decide (control_id c = k)) as [<- | Hne].
  - rewrite lookup_insert_eq. intros [= <-]. split; [reflexivity | exact Hc].
  - rewrite lookup_insert_ne by exact Hne. apply Hm.
Qed.

Lemma page_controls_well_formed tables prev :
  Forall well_formed (fst (extract_controls_from_page tables prev)).
Proof.
  unfold extract_controls_from_page. rewrite table_step_fold. cbn [fst app].
  induction tables as [| t ts IH]; cbn [flat_map]; [constructor |].
  apply Forall_app. split; [apply table_controls_well_formed | exact IH].
Qed.

Lemma page_step_ok st p : store_ok (fst st) -> store_ok (fst (page_step st p)).
Proof.
  intros H. unfold page_step. destruct (has_control_tables p); [| exact H].
  cbn [fst]. apply store_controls_ok; [exact H | apply page_controls_well_formed].
Qed.

Lemma pages_ok pages : forall st, store_ok (fst st) -> store_ok (fst (fold_left page_step pages st)).
Proof.
  induction pages as [| p t IH]; intros st H; cbn [fold_left]; [exact H |].
  apply IH, page_step_ok, H.
Qed.

(** X13: every record of the extracted document sits under its own
    identifier, which is a two-letter control identifier; its title is
    stripped; it is not selected when it carries the withdrawn key or when
    its family is PT; when it is selected, its family is PM or one of its
    flags is set; its two text fields, when present, are stripped, not
    empty and none of None, X and +. *)
Theorem extract_cnssi_1253_2022_well_formed (doc : list page) (k : string)
    (rec : ControlRecord) :
  extract_cnssi_1253_2022 doc !! k = Some rec ->
  control_id rec = k /\ well_formed rec.
Proof.
  unfold extract_cnssi_1253_2022. apply pages_ok.
  intros k' rec' H. cbn [fst] in H. rewrite lookup_empty in H. discriminate H.
Qed.

Lemma extract_cnssi_1253_2022_well_formed_witness :
  exists rec,
    extract_cnssi_1253_2022 sample_document !! "AC-2" = Some rec /\
    control_id rec = "AC-2" /\ well_formed rec.
Proof.
  eexists. split; [vm_compute; reflexivity |].
  apply (extract_cnssi_1253_2022_well_formed sample_document "AC-2").
  vm_compute. reflexivity.
Defined.

Lemma pages_filter pages :
  forall st, fold_left page_step pages st
             = fold_left page_step (List.filter has_control_tables pages) st.
Proof.
  induction pages as [| p t IH]; intros st; cbn [fold_left List.filter]; [reflexivity |].
  destruct (has_control_tables p) eqn:E; cbn [fold_left]; [apply IH |].
  rewrite <- IH. unfold page_step at 2. rewrite E. reflexivity.
Qed.

End PageFacts.

(* ===================================================================== *)
(** * The comparison of the versions *)
(* ===================================================================== *)

Module CompareFacts.

Import Re Cnssi1253 Cnssi1253Pages CompareVersions Vocabulary TableVocabulary StrFacts ReFacts IdFacts StripFacts RowFacts StructureFacts PageFacts.

Lemma has_selection_any_flag s : has_selection s = any_flag s.
Proof.
  destruct s as [[[] [] []] [[] [] []] [[] [] []] ?]; reflexivity.
Qed.

Lemma get_new_selected_controls_spec (m : gmap string ControlRecord) k :
  k ∈ get_new_selected_controls m <->
  exists rec, m !! k = Some rec /\ counted rec = true.
Proof.
  unfold get_new_selected_controls. rewrite elem_of_dom. split.
  - intros [rec H]. apply map_lookup_filter_Some in H as [H1 H2]. eauto.
  - intros (rec & H1 & H2). exists rec. apply map_lookup_filter_Some. split; assumption.
Qed.

(** X14: the comparison counts the record of a row as selected exactly when
    no cell of the row holds the withdrawn marker, the family is not PT
    and some mark of the row falls into a range: a PM record without
    marks is selected and not counted. *)
Theorem new_selected_row (m : gmap string ControlRecord) (r : row)
    (st : TableStructure) (rec : ControlRecord) :
  parse_control_row r st = Some rec ->
  (control_id rec ∈ get_new_selected_controls (store_controls m [rec]) <->
   ~ has_withdrawn_cell r /\ family_of (control_id rec) <> "PT" /\
   exists k, marked_in st r k).
Proof.
  intros H. rewrite get_new_selected_controls_spec.
  assert (store_controls m [rec] !! control_id rec = Some rec) as Hl
    by (cbn; apply lookup_insert_eq).
  assert (counted rec = true <->
          ~ has_withdrawn_cell r /\ family_of (control_id rec) <> "PT" /\
          exists k, marked_in st r k) as Hc.
  { apply TableRows.parse_control_row_unfold in H as [_ Hfrom].
    unfold counted.
    rewrite has_selection_any_flag, (parse_control_row_from_withdrawn _ _ _ _ Hfrom),
      (parse_control_row_from_selected _ _ _ _ Hfrom).
    rewrite <- (parse_control_row_from_marks _ _ _ _ Hfrom).
    rewrite <- TableRows.is_withdrawn_spec.
    destruct (is_withdrawn r); cbn [negb andb default from_option id].
    - split; [discriminate | intros [Hw _]; exfalso; apply Hw; reflexivity].
    - destruct (any_flag (selections rec)).
      + rewrite !andb_true_r.
        destruct (String.eqb_spec (family_of (control_id rec)) "PM") as [Epm | Npm].
        * split; [intros _ | reflexivity].
          split; [discriminate |]. split; [rewrite Epm; discriminate | reflexivity].
        * destruct (String.eqb_spec (family_of (control_id rec)) "PT") as [Ept | Npt].
          -- split; [discriminate | intros (_ & Hne & _); congruence].
          -- split; [intros _ | reflexivity].
             split; [discriminate |]. split; [exact Npt | reflexivity].
      + rewrite !andb_false_r. split; [discriminate | intros (_ & _ & F); discriminate F]. }
  rewrite <- Hc. split.
  - intros (rec' & Hl' & Hc'). congruence.
  - intros Hc'. eauto.
Qed.

Lemma new_selected_row_witness :
  exists rec,
    parse_control_row pm_row sample_structure = Some rec /\
    selected rec = true /\
    (control_id rec ∈ get_new_selected_controls (store_controls ∅ [rec]) <->
     ~ has_withdrawn_cell pm_row /\ family_of (control_id rec) <> "PT" /\
     exists k, marked_in sample_structure pm_row k).
Proof.
  eexists. split; [vm_compute; reflexivity |].
  split; [vm_compute; reflexivity |].
  apply (new_selected_row ∅ pm_row sample_structure).
  vm_compute. reflexivity.
Defined.

End CompareFacts.

(* ===================================================================== *)
(** * The overlay store: what a finalisation keeps *)
(* ===================================================================== *)

Module OverlayFacts.

Import CnssiOverlay Vocabulary OverlayVocabulary StrFacts IdFacts StripFacts RecordStore.

Lemma merge_text_prefix existing incoming :
  Py.strip existing = existing ->
  String.prefix existing (merge_text existing incoming) = true.
Proof.
  intros Hs. unfold merge_text.
  destruct (Py.truthy incoming && Py.truthy (Py.strip incoming)) eqn:E;
    [| apply prefix_refl].
  destruct existing as [| c e]; [destruct incoming; reflexivity |].
  cbn [Py.truthy]. apply andb_prop in E as [_ E]. apply truthy_true in E.
  apply strip_fix in Hs as [Hl Hr].
  unfold Py.strip. rewrite lstrip_app_keep by (rewrite Hl; discriminate).
  rewrite Hl. rewrite rstrip_app_keep.
  - apply prefix_app.
  - rewrite rstrip_app_keep by (apply strip_rstrip_nonblank; exact E).
    intros F. apply app_eq_nil in F as [F _]. discriminate F.
Qed.

Lemma merge_text_stripped existing incoming :
  Py.strip existing = existing -> Py.strip incoming = incoming ->
  Py.strip (merge_text existing incoming) = merge_text existing incoming.
Proof.
  intros He Hi. unfold merge_text.
  destruct (Py.truthy incoming && Py.truthy (Py.strip incoming)); [| exact He].
  destruct (Py.truthy existing); [apply strip_idem | exact Hi].
Qed.

(** X15: when the stored texts and the incoming texts are stripped, an
    upsert leaves every stored text stripped and every text that was
    stored is a prefix of the text stored afterwards. *)
Theorem upsert_keeps_text (controls : gmap string entry) (cd : control_data) :
  map_Forall (fun _ e => stripped_entry e) controls ->
  Py.strip (cd_control_text cd) = cd_control_text cd ->
  Py.strip (cd_defined_value cd) = cd_defined_value cd ->
  map_Forall (fun _ e => stripped_entry e) (upsert controls cd) /\
  forall k e, controls !! k = Some e ->
    exists e', upsert controls cd !! k = Some e' /\
               String.prefix (control_text e) (control_text e') = true /\
               String.prefix (defined_value e) (defined_value e') = true.
Proof.
  intros Hall Hct Hdv. unfold upsert.
  destruct (controls !! cd_id cd) as [existing |] eqn:E.
  - pose proof (Hall _ _ E) as [Hect Hedv]. split.
    + apply map_Forall_insert_2; [| exact Hall].
      split; cbn [control_text defined_value]; apply merge_text_stripped; assumption.
    + intros k e Hk. destruct (decide (cd_id cd = k)) as [<- | Hne].
      * rewrite lookup_insert_eq. eexists. split; [reflexivity |].
        assert (e = existing) as -> by congruence.
        cbn [control_text defined_value].
        split; apply merge_text_prefix; assumption.
      * rewrite lookup_insert_ne by exact Hne. exists e.
        split; [exact Hk |]. split; apply prefix_refl.
  - split.
    + apply map_Forall_insert_2; [split; assumption | exact Hall].
    + intros k e Hk. destruct (decide (cd_id cd = k)) as [<- | Hne]; [congruence |].
      rewrite lookup_insert_ne by exact Hne. exists e.
      split; [exact Hk |]. split; apply prefix_refl.
Qed.

Lemma upsert_keeps_text_witness :
  map_Forall (fun _ e => stripped_entry e)
             (upsert overlay_store (fragment "AC-2" "continued text" "At least annually")) /\
  forall k e, overlay_store !! k = Some e ->
    exists e', upsert overlay_store (fragment "AC-2" "continued text" "At least annually") !! k
               = Some e' /\
               String.prefix (control_text e) (control_text e') = true /\
               String.prefix (defined_value e) (defined_value e') = true.
Proof.
  apply (upsert_keeps_text overlay_store (fragment "AC-2" "continued text" "At least annually")).
  - unfold overlay_store. apply map_Forall_insert_2; [| apply map_Forall_empty].
    split; vm_compute; reflexivity.
  - vm_compute. reflexivity.
  - vm_compute. reflexivity.
Defined.

Section FinalizeFacts.
Variable element : Type.
Variable parse_control_group : list element -> nat -> option control_data.

Abbreviation finalize := (finalize_current_control element parse_control_group).

Lemma upsert_lookup_ne controls cd k :
  k <> cd_id cd -> upsert controls cd !! k = controls !! k.
Proof.
  intros Hne. unfold upsert.
  destruct (controls !! cd_id cd); apply lookup_insert_ne; congruence.
Qed.

Lemma upsert_lookup_eq controls cd : is_Some (upsert controls cd !! cd_id cd).
Proof.
  unfold upsert. destruct (controls !! cd_id cd); rewrite lookup_insert_eq; eauto.
Qed.

(** X16: without a current identifier or without collected elements
    [_finalize_current_control] returns at once and leaves the state as
    it is, the two fields included; otherwise it resets the two fields,
    whatever [_parse_control_group] gives.  A second call changes nothing;
    a call removes no identifier from the store, and changes at most the
    entry of the identifier that [_parse_control_group] returned. *)
Theorem finalize_current_control_store (self : extractor element) (p q : nat) :
  (Py.truthy_opt (current_control_id element self) = false
   \/ current_control_elements element self = [] ->
   finalize self p = self) /\
  (Py.truthy_opt (current_control_id element self) = true ->
   current_control_elements element self <> [] ->
   current_control_id element (finalize self p) = None /\
   current_control_elements element (finalize self p) = [] /\
   controls element (finalize self p)
   = match parse_control_group (current_control_elements element self) p with
     | Some cd => upsert (controls element self) cd
     | None => controls element self
     end) /\
  finalize (finalize self p) q = finalize self p /\
  (forall k, is_Some (controls element self !! k) ->
             is_Some (controls element (finalize self p) !! k)) /\
  (forall k, controls element (finalize self p) !! k <> controls element self !! k ->
             Py.truthy_opt (current_control_id element self) = true /\
             current_control_elements element self <> [] /\
             exists cd, parse_control_group (current_control_elements element self) p
                        = Some cd /\ cd_id cd = k).
Proof.
  unfold finalize_current_control.
  destruct (Py.truthy_opt (current_control_id element self)) eqn:Eid; cbn [negb orb].
  - destruct (current_control_elements element self) as [| x xs] eqn:Eel.
    + rewrite Eid, Eel. cbn [negb orb].
      split; [reflexivity |]. split; [congruence |]. split; [reflexivity |].
      split; [auto | intros k Hk; congruence].
    + cbn [current_control_id current_control_elements controls Py.truthy_opt negb orb].
      split; [intros [H | H]; discriminate H |].
      split; [auto |]. split; [reflexivity |].
      destruct (parse_control_group (x :: xs) p) as [cd |] eqn:Ep.
      * split.
        -- intros k Hk. destruct (decide (k = cd_id cd)) as [-> | Hne];
             [apply upsert_lookup_eq | rewrite upsert_lookup_ne by exact Hne; exact Hk].
        -- intros k Hk. split; [reflexivity |]. split; [discriminate |].
           exists cd. split; [reflexivity |].
           destruct (decide (k = cd_id cd)) as [-> | Hne]; [reflexivity |].
           exfalso. apply Hk. apply upsert_lookup_ne. exact Hne.
      * split; [auto | intros k Hk; congruence].
  - rewrite Eid. cbn [negb orb].
    split; [reflexivity |]. split; [discriminate |]. split; [reflexivity |].
    split; [auto | intros k Hk; congruence].
Qed.

End FinalizeFacts.

End OverlayFacts.

(* ===================================================================== *)
(** * The superseded classified overlay extractor: pages *)
(* ===================================================================== *)

Module ClassifiedPagesFacts.

Import Re ClassifiedOverlay ClassifiedOverlayPages Vocabulary ClassifiedOverlayVocabulary.
Import StrFacts ReFacts IdFacts StripFacts LinePipeline.

Lemma last_In {X} (l : list X) d : l <> [] -> In (List.last l d) l.
Proof.
  induction l as [| x t IH]; [congruence |]. intros _.
  destruct t as [| y t]; [left; reflexivity |].
  right. apply IH. discriminate.
Qed.

Lemma enhancement_last_stored base page_num nums (ctls : gmap string control_info) :
  nums <> [] ->
  is_Some (fold_left (add_enhancement base page_num) nums ctls
           !! (base ++ "(" ++ Py.strip (List.last nums "") ++ ")")).
Proof.
  intros Hne.
  destruct (add_enhancements base page_num nums ctls) as (_ & Hn & _).
  rewrite <- last_map_strip. unfold enhancement_id in Hn.
  rewrite (Hn (List.last (map Py.strip nums) "")); [eauto |].
  apply last_In. intros E. apply map_eq_nil in E. exact (Hne E).
Qed.

Lemma enhancement_branch_consistent self me page_num :
  consistent self ->
  exists self',
    match current_base_control self with
    | Some base =>
        if Py.truthy base then
          let enhancement_numbers := Py.split "," (group me 1) in
          Next {| controls :=
                    fold_left (add_enhancement base page_num)
                              enhancement_numbers (controls self);
                  current_control :=
                    Some (base ++ "(" ++ Py.strip (List.last enhancement_numbers "")
                               ++ ")");
                  current_base_control := current_base_control self;
                  current_attribute := None |}
        else Next self
    | None => Next self
    end = Next self' /\ consistent self'.
Proof.
  intros Hc. destruct (current_base_control self) as [base |];
    [| eexists; split; [reflexivity | exact Hc]].
  destruct (Py.truthy base); [| eexists; split; [reflexivity | exact Hc]].
  eexists. split; [reflexivity |].
  intros c [= <-] _. cbn [controls current_attribute].
  destruct (enhancement_last_stored base page_num (Py.split "," (group me 1))
              (controls self) (split_not_nil _ _)) as [info Hinfo].
  exists info. split; [exact Hinfo | discriminate].
Qed.

Lemma truthy_opt_Some c : Py.truthy_opt c = true -> exists s, c = Some s /\ Py.truthy s = true.
Proof. destruct c as [s |]; [eauto | discriminate]. Qed.

Lemma consistent_insert_attr self c info a v cur_attr :
  consistent self ->
  current_control self = Some c -> Py.truthy c = true ->
  controls self !! c = Some info ->
  (cur_attr = current_attribute self \/ cur_attr = Some a) ->
  consistent {| controls := <[c := with_attributes info (<[a := v]> (attributes info))]>
                              (controls self);
                current_control := current_control self;
                current_base_control := current_base_control self;
                current_attribute := cur_attr |}.
Proof.
  intros Hc Hcur Ht Hinfo Hattr c' Hc' Ht'. cbn [current_control] in Hc'.
  assert (c' = c) as -> by congruence.
  cbn [controls current_attribute]. rewrite lookup_insert_eq. eexists. split; [reflexivity |].
  intros a' Ha' Hta'. cbn [with_attributes attributes].
  destruct (decide (a = a')) as [<- | Hne]; [rewrite lookup_insert_eq; eauto |].
  rewrite lookup_insert_ne by exact Hne.
  destruct Hattr as [-> | ->]; [| congruence].
  destruct (Hc c Hcur Ht) as (info' & Hinfo' & Hall).
  assert (info' = info) as -> by congruence. apply Hall; assumption.
Qed.

Lemma process_line_consistent self ld page_num :
  consistent self ->
  exists self', process_line self ld page_num = Next self' /\ consistent self'.
Proof.
  intros Hc. unfold process_line.
  destruct (re_match base_control_pattern (text ld)) as [mb |] eqn:Eb;
    destruct (existsb (fun b => b) (formats ld)) eqn:Ebold;
    destruct (flexible_enhancement_match (text ld)) as [me |] eqn:Ee.
  all: try (eexists; split; [reflexivity |];
            intros c [= <-] _; cbn [controls current_attribute];
            rewrite lookup_insert_eq; eexists; split; [reflexivity | discriminate]).
  all: try (apply enhancement_branch_consistent; exact Hc).
  all: destruct (Py.truthy_opt (current_control self) && Py.contains ":" (text ld)) eqn:E1.
  all: try (apply andb_prop in E1 as [E1 _];
            apply truthy_opt_Some in E1 as (c & Hcur & Htc);
            destruct (extract_attribute_from_line (text ld)) as [[attr_name attr_content] |];
            [| eexists; split; [reflexivity | exact Hc]];
            replace (default "" (current_control self)) with c by (rewrite Hcur; reflexivity);
            destruct (Hc c Hcur Htc) as (info & Hinfo & Hall); rewrite Hinfo;
            destruct (attributes info !! attr_name) as [old |];
            (eexists; split; [reflexivity |]);
            apply consistent_insert_attr; auto).
  all: destruct (Py.truthy_opt (current_control self)
                 && Py.truthy_opt (current_attribute self)
                 && Py.truthy (Py.strip (text ld))) eqn:E2;
    [| eexists; split; [reflexivity | exact Hc]].
  all: destruct (negb _) eqn:E3; [| eexists; split; [reflexivity | exact Hc]].
  all: apply andb_prop in E2 as [E2 _]; apply andb_prop in E2 as [E2 E2'];
    apply truthy_opt_Some in E2 as (c & Hcur & Htc);
    apply truthy_opt_Some in E2' as (a & Hattr & Hta);
    replace (default "" (current_control self)) with c by (rewrite Hcur; reflexivity);
    replace (default "" (current_attribute self)) with a by (rewrite Hattr; reflexivity);
    destruct (Hc c Hcur Htc) as (info & Hinfo & Hall); rewrite Hinfo;
    destruct (Hall a Hattr Hta) as [old Hold]; rewrite Hold;
    (eexists; split; [reflexivity |]);
    apply consistent_insert_attr; auto.
Qed.

Lemma lines_consistent (formatted_text : list line_data) (page_num : nat) :
  forall self, consistent self ->
    exists self', find_controls_and_attributes self formatted_text page_num = Next self'
                  /\ process_page self formatted_text page_num = self'
                  /\ consistent self'.
Proof.
  unfold process_page.
  induction formatted_text as [| ld rest IH]; intros self Hc; cbn [find_controls_and_attributes].
  - eauto.
  - destruct (process_line_consistent self ld page_num Hc) as (self1 & -> & Hc1).
    apply IH. exact Hc1.
Qed.

Lemma after_pages_consistent pages : consistent (after_pages pages).
Proof.
  unfold after_pages.
  assert (forall self, consistent self ->
             consistent (fold_left (fun self p => process_page self (fst p) (snd p))
                                   pages self)) as H.
  { induction pages as [| [lines n] t IH]; intros self Hc; cbn [fold_left]; [exact Hc |].
    apply IH. cbn [fst snd].
    destruct (lines_consistent lines n self Hc) as (self' & _ & -> & Hc'). exact Hc'. }
  apply H. intros c [=].
Qed.

(** X17: whatever pages the extractor has read, no line of the next page
    fails on a missing key: the loop over its lines runs to the end. *)
Theorem process_page_never_raises (pages : list (list line_data * nat))
    (formatted_text : list line_data) (page_num : nat) :
  exists self',
    find_controls_and_attributes (after_pages pages) formatted_text page_num = Next self'
    /\ process_page (after_pages pages) formatted_text page_num = self'.
Proof.
  destruct (lines_consistent formatted_text page_num (after_pages pages)
              (after_pages_consistent pages)) as (self' & H1 & H2 & _).
  eauto.
Qed.

Lemma omap_In {X Y} (f : X -> option Y) (l : list X) (y : Y) :
  In y (omap f l) <-> exists x, In x l /\ f x = Some y.
Proof.
  rewrite <- list_elem_of_In, list_elem_of_omap.
  split; intros (x & Hx & Hf); exists x; (split; [apply list_elem_of_In; exact Hx | exact Hf]).
Qed.

Lemma formatted_line_spec spans ld :
  formatted_line spans = Some ld <->
  ld = {| text := Py.strip (line_text spans); formats := map bold spans |} /\
  content_line (Py.strip (line_text spans)).
Proof.
  unfold formatted_line, content_line.
  destruct (Py.truthy (Py.strip (line_text spans))) eqn:Et.
  - destruct (String.eqb_spec (Py.strip (line_text spans)) "Classified Information Overlay")
      as [E1 | N1]; cbn [orb].
    + split; [discriminate | intros (_ & _ & _ & _ & H & _); congruence].
    + destruct (Classified2022.str_isdigit (Py.strip (line_text spans))) eqn:Ed; cbn [orb].
      * split; [discriminate | intros (_ & _ & _ & H & _); congruence].
      * destruct (String.eqb_spec (Py.strip (line_text spans)) "May 9, 2014") as [E2 | N2].
        -- split; [discriminate | intros (_ & _ & _ & _ & _ & H); congruence].
        -- split.
           ++ intros [= <-]. split; [reflexivity |].
              split; [apply strip_idem |]. split; [apply truthy_true; exact Et |].
              split; [reflexivity | split; assumption].
           ++ intros [-> _]. reflexivity.
  - split; [discriminate |]. intros (_ & _ & H & _).
    apply truthy_true in H. congruence.
Qed.

(** X18: the formatted text holds exactly the lines of the text blocks
    (type 0) whose stripped text is not empty, no page number and none of
    the two footers; each with its stripped text and the bold flags of
    its spans. *)
Theorem extract_formatted_text_lines (text_dict : list block) (ld : line_data) :
  In ld (extract_formatted_text text_dict) <->
  exists b spans,
    In b text_dict /\ block_type b = Some 0%Z /\ In spans (lines b) /\
    ld = {| text := Py.strip (line_text spans); formats := map bold spans |} /\
    content_line (text ld).
Proof.
  unfold extract_formatted_text. rewrite in_flat_map. split.
  - intros (b & Hb & Hld).
    destruct (block_type b) as [[| ? | ?] |] eqn:Et; try contradiction.
    apply omap_In in Hld as (spans & Hs & Hf).
    apply formatted_line_spec in Hf as [-> Hc].
    exists b, spans. repeat split; try assumption; apply Hc.
  - intros (b & spans & Hb & Ht & Hs & -> & Hc). exists b. split; [exact Hb |].
    rewrite Ht. apply omap_In. exists spans. split; [exact Hs |].
    apply formatted_line_spec. split; [reflexivity | exact Hc].
Qed.

Lemma extract_attribute_from_sound attrs line a c :
  extract_attribute_from attrs line = Some (a, c) ->
  In a attrs /\ exists rest, line = a ++ ":" ++ rest /\ c = Py.strip rest.
Proof.
  induction attrs as [| attr t IH]; cbn [extract_attribute_from]; [discriminate |].
  destruct (Py.startswith line (attr ++ ":")) eqn:E.
  - intros [= <- <-]. split; [left; reflexivity |].
    unfold Py.startswith in E. apply prefix_split in E.
    rewrite length_app in E. cbn [String.length] in E.
    exists (Py.drop (String.length attr + 1) line). split; [| reflexivity].
    rewrite <- app_assoc. exact E.
  - intros H. apply IH in H as [Hin H]. split; [right; exact Hin | exact H].
Qed.

Lemma label_found attr rest t :
  extract_attribute_from (attr :: t) (attr ++ ":" ++ rest) = Some (attr, Py.strip rest).
Proof.
  cbn [extract_attribute_from]. unfold Py.startswith.
  rewrite <- app_assoc, prefix_app.
  replace (String.length attr + 1) with (String.length (attr ++ ":"))
    by (rewrite length_app; reflexivity).
  rewrite drop_app. reflexivity.
Qed.

Lemma label_skip attr t line :
  String.prefix (attr ++ ":") line = false ->
  extract_attribute_from (attr :: t) line = extract_attribute_from t line.
Proof.
  intros H. cbn [extract_attribute_from]. unfold Py.startswith. rewrite H. reflexivity.
Qed.

(** X19: a line gives an attribute exactly when it starts with one of
    the eight known labels followed by a colon; the attribute is this
    label and the content the stripped rest of the line. *)
Theorem extract_attribute_from_line_spec (line a c : string) :
  extract_attribute_from_line line = Some (a, c) <->
  In a known_attributes /\ exists rest, line = a ++ ":" ++ rest /\ c = Py.strip rest.
Proof.
  split; [apply extract_attribute_from_sound |].
  intros (Hin & rest & -> & ->).
  unfold extract_attribute_from_line, known_attributes in *.
  cbn [In] in Hin.
  repeat (destruct Hin as [<- | Hin];
          [repeat (rewrite label_skip by (vm_compute; reflexivity)); apply label_found |]).
  contradiction.
Qed.

End ClassifiedPagesFacts.

(* ===================================================================== *)
(** * The 2022 classified extractor: headers, lines and pages *)
(* ===================================================================== *)

Module Classified2022Facts.

Import Re Classified2022 Classified2022Pages Vocabulary Classified2022Vocabulary.
Import StrFacts ReFacts IdFacts StripFacts.

Lemma record_ok_set_field k c f v :
  record_ok k c -> v <> "" -> record_ok k (set_field f (Some v) c).
Proof.
  intros (Hid & Hsel & Hf) Hv. split; [exact Hid |]. split; [exact Hsel |].
  intros f' v'. destruct f, f'; cbn [get_field set_field justification parameter_value
                                      guidance references];
    first [ intros [= <-]; exact Hv
          | apply (Hf Justification) | apply (Hf ParameterValue)
          | apply (Hf Guidance) | apply (Hf References) ].
Qed.

Lemma cursor_ok_update st cur c f v :
  cursor_ok st -> controls st !! cur = Some c -> v <> "" ->
  forall cf,
    cursor_ok {| controls := <[cur := set_field f (Some v) c]> (controls st);
                 current_control := current_control st;
                 current_field := cf |}.
Proof.
  intros [Hcur Hall] Hc Hv cf. split; cbn [controls current_control].
  - intros c' Hc' Ht. apply lookup_insert_is_Some'. right. apply Hcur; assumption.
  - apply map_Forall_insert_2; [| exact Hall].
    apply record_ok_set_field; [exact (Hall _ _ Hc) | exact Hv].
Qed.

Lemma process_line_ok st raw : cursor_ok st -> outcome_ok (process_line st raw).
Proof.
  intros Hok. pose proof Hok as [Hcur Hall]. unfold process_line.
  set (line := Py.strip raw).
  destruct (Py.contains "7." line && Py.contains "Implementation Considerations" line);
    [exact Hok |].
  destruct (negb (Py.truthy line) || String.eqb line "Classified System Overlay"
            || str_isdigit line); [exact Hok |].
  destruct (Py.contains "Attachment 5 to Appendix E" line); [exact Hok |].
  destruct (String.eqb line "09/30/2022"); [exact Hok |].
  destruct (parse_control_header line) as [[cid control_name] |] eqn:Eh.
  - split; cbn [controls current_control].
    + intros c [= <-] _. rewrite lookup_insert_eq. eauto.
    + apply map_Forall_insert_2; [| exact Hall].
      split; [reflexivity |]. split; [reflexivity |].
      intros [] v; cbn; discriminate.
  - destruct (current_control st) as [cur |] eqn:Ecur; [| exact Hok].
    destruct (Py.truthy cur) eqn:Etcur; [| exact Hok].
    destruct (Hcur cur eq_refl Etcur) as [c Hc].
    destruct (field_header line) as [[f content] |].
    + destruct (Py.truthy content) eqn:Etc.
      * rewrite Hc. rewrite <- Ecur. apply cursor_ok_update; try assumption.
        apply truthy_true. exact Etc.
      * split; cbn [controls current_control]; [| exact Hall].
        intros c' [= <-] _. eauto.
    + destruct (current_field st) as [f |]; [| exact Hok].
      destruct (Py.truthy line) eqn:Etl; [| exact Hok].
      rewrite Hc. rewrite <- Ecur. apply cursor_ok_update; try assumption.
      apply truthy_true in Etl.
      destruct (get_field f c) as [old |]; [| exact Etl].
      destruct (Py.truthy old); [| exact Etl].
      intros E. apply app_eq_nil in E as [_ E]. apply app_eq_nil in E as [E _].
      discriminate E.
Qed.

Lemma process_lines_ok (lines : list string) :
  forall st, cursor_ok st -> outcome_ok (process_lines st lines).
Proof.
  induction lines as [| raw rest IH]; intros st Hok; cbn [process_lines]; [exact Hok |].
  pose proof (process_line_ok st raw Hok) as H.
  destruct (process_line st raw) as [st' | st' |]; [apply IH; exact H | exact H | exact H].
Qed.

Lemma process_pages_ok (texts : list string) :
  forall st, cursor_ok st ->
    exists m, process_pages st texts = Some m /\ map_Forall record_ok m.
Proof.
  induction texts as [| text rest IH]; intros st Hok; cbn [process_pages].
  - exists (controls st). split; [reflexivity | apply Hok].
  - pose proof (process_lines_ok (Py.split "010" text) st Hok) as H.
    destruct (process_lines st (Py.split "010" text)) as [st' | st' |].
    + apply IH. exact H.
    + exists (controls st'). split; [reflexivity | apply H].
    + destruct H.
Qed.

Lemma Forall_enumerate_from {X} (P : X -> Prop) (l : list X) :
  Forall P l -> forall k, Forall (fun ip => P (snd ip)) (Py.enumerate_from k l).
Proof.
  induction 1 as [| x t Hx _ IH]; intros k; cbn [Py.enumerate_from];
    constructor; [exact Hx | apply IH].
Qed.

(** X20: [extract_controls_from_pdf] never fails on a missing key; every
    record it returns sits under its own identifier, is selected, and has
    no empty string in a text field; there is no record when no page
    shows the heading of Section 6. *)
Theorem extract_controls_from_pdf_ok (doc : list string) :
  exists m, extract_controls_from_pdf doc = Some m /\ map_Forall record_ok m /\
            (Forall (fun text => is_section_6 text = false) doc -> m = ∅).
Proof.
  unfold extract_controls_from_pdf.
  assert (forall pages s6,
             Forall (fun ip => is_section_6 (snd ip) = false) pages ->
             fst (find_sections pages s6) = s6) as Hnone.
  { induction pages as [| [i t] rest IH]; intros s6 Hall; [reflexivity |].
    inversion Hall as [| ? ? Ht Hrest]; subst. cbn [find_sections]. cbn [snd] in Ht.
    rewrite Ht. destruct (bool_decide (is_Some s6) && is_section_7 t); [reflexivity |].
    apply IH. exact Hrest. }
  destruct (find_sections (Py.enumerate doc) None) as [[s6 |] s7] eqn:E.
  - edestruct (process_pages_ok
                 (skipn s6 (firstn (match s7 with
                                    | Some n => if n =? 0 then length doc else n + 1
                                    | None => length doc
                                    end) doc))
                 {| controls := ∅; current_control := None; current_field := None |})
      as (m & Hm & Hall).
    + split; [intros c [=] | apply map_Forall_empty].
    + exists m. split; [exact Hm |]. split; [exact Hall |].
      intros Hno. exfalso.
      assert (fst (find_sections (Py.enumerate doc) None) = None) as F.
      { apply Hnone.
        exact (Forall_enumerate_from (fun text => is_section_6 text = false) doc Hno 0). }
      rewrite E in F. discriminate F.
  - exists ∅. split; [reflexivity |]. split; [apply map_Forall_empty | reflexivity].
Qed.

Lemma group_insert_eq (g : groups) i w : group (<[i := w]> g) i = w.
Proof. unfold group. rewrite lookup_insert_eq. reflexivity. Qed.

Lemma group_insert_ne (g : groups) i j w : i <> j -> group (<[i := w]> g) j = group g j.
Proof. intros H. unfold group. rewrite lookup_insert_ne by exact H. reflexivity. Qed.

(** What a match of the header pattern consumed. *)
Lemma header_pattern_inv s g s' g' :
  matches header_pattern s g s' g' ->
  (s' = "" \/ s' = String "010" "") /\
  exists cid ws w2,
    short_identifier cid /\ all_chars Py.isspace ws = true /\
    w2 <> "" /\ all_chars no_newline w2 = true /\
    s = cid ++ "," ++ ws ++ w2 ++ s' /\
    group g' 1 = cid /\ group g' 2 = w2.
Proof.
  unfold header_pattern, upper, digit, space, dot. intros H.
  apply m_seq_inv in H as (s1 & g1 & H1 & H).
  apply m_grp_inv_consumed in H1 as (g0 & H1 & ->).
  apply m_seq_inv in H as (s2 & g2 & H2 & H).
  apply m_lit_inv in H2 as (-> & ->).
  apply m_seq_inv in H as (s3 & g3 & H3 & H).
  apply m_star_cls_inv in H3 as (-> & ws & -> & Hws).
  apply m_seq_inv in H as (s4 & g4 & H4 & H).
  apply m_eos_inv in H as (-> & -> & Hend).
  apply m_grp_inv_consumed in H4 as (g5 & H4 & ->).
  apply m_plus_cls_inv in H4 as (-> & w2 & Hw2 & -> & Hnl).
  split; [exact Hend |].
  rewrite consumed_app.
  rewrite group_insert_eq, group_insert_ne, group_insert_eq by discriminate.
  (* the identifier *)
  apply m_seq_inv in H1 as (t1 & h1 & U1 & H1).
  apply m_cls_inv in U1 as (c1 & -> & Hc1 & ->).
  apply m_seq_inv in H1 as (t2 & h2 & U2 & H1).
  apply m_cls_inv in U2 as (c2 & -> & Hc2 & ->).
  apply m_seq_inv in H1 as (t3 & h3 & U3 & H1).
  apply m_lit_inv in U3 as (-> & ->).
  apply m_seq_inv in H1 as (t4 & h4 & U4 & H1).
  apply m_cls_inv in U4 as (d1 & -> & Hd1 & ->).
  apply m_seq_inv in H1 as (t5 & h5 & U5 & H1).
  assert (exists num, digits num /\ String.length num <= 2 /\
                      String d1 t4 = num ++ t5) as (num & Hnum & Hlen & En).
  { apply m_opt_inv in U5 as [U5 | [-> ->]].
    - apply m_cls_inv in U5 as (d2 & -> & Hd2 & ->).
      exists (String d1 (String d2 "")).
      split; [split; [discriminate | cbn; rewrite Hd1, Hd2; reflexivity] |].
      split; [cbn; lia | rewrite !app_cons, app_nil_l; reflexivity].
    - exists (String d1 "").
      split; [split; [discriminate | cbn; rewrite Hd1; reflexivity] |].
      split; [cbn; lia | rewrite !app_cons, app_nil_l; reflexivity]. }
  rewrite En.
  assert (exists enh, (forall e, enh = Some e -> digits e) /\
                      t5 = enhancement_suffix enh ++ String "," (ws ++ w2 ++ s4))
    as (enh & He & ->).
  { apply m_opt_inv in H1 as [H1 | [-> _]].
    - apply m_seq_inv in H1 as (t6 & h6 & U6 & H1).
      apply m_lit_inv in U6 as (-> & ->).
      apply m_seq_inv in H1 as (t7 & h7 & U7 & H1).
      apply m_plus_cls_inv in U7 as (-> & e & Hen & -> & Hed).
      apply m_lit_inv in H1 as (-> & ->).
      exists (Some e). split; [intros e' [= <-]; split; assumption |].
      cbn [enhancement_suffix]. rewrite !app_cons, !app_nil_l, !app_assoc.
      rewrite !app_cons, !app_nil_l. reflexivity.
    - exists None. split; [intros e [=] |]. rewrite app_nil_l. reflexivity. }
  set (cid := render_id (String c1 (String c2 "")) num enh).
  assert (String c1 (String c2 (String "-" (num ++ enhancement_suffix enh
                                             ++ String "," (ws ++ w2 ++ s4))))
          = cid ++ "," ++ ws ++ w2 ++ s4) as E.
  { unfold cid, render_id.
    repeat (rewrite app_assoc || rewrite app_cons || rewrite app_nil_l). reflexivity. }
  rewrite E. exists cid, ws, w2.
  split.
  { exists (String c1 (String c2 "")), num, enh. split; [| split; [exact Hlen | reflexivity]].
    split; [cbn; lia |]. split; [cbn; rewrite Hc1, Hc2; reflexivity |].
    split; [exact Hnum | exact He]. }
  split; [exact Hws |]. split; [exact Hw2 |]. split; [exact Hnl |].
  split; [reflexivity |]. split; [| reflexivity].
  replace (cid ++ "," ++ ws ++ w2 ++ s4) with (cid ++ String "," (ws ++ w2 ++ s4))
    by (repeat (rewrite app_cons || rewrite app_nil_l); reflexivity).
  apply consumed_app.
Qed.

Lemma family_pattern_inv s g s' g' :
  matches family_pattern s g s' g' ->
  (s' = "" \/ s' = String "010" "") /\
  exists inner ws w,
    inner <> "" /\ all_chars Py.isspace ws = true /\ w <> "" /\
    s = "(" ++ inner ++ ")" ++ ws ++ w ++ s' /\ group g' 1 = w.
Proof.
  unfold family_pattern, notc, space, dot. intros H.
  apply m_seq_inv in H as (s1 & g1 & H1 & H).
  apply m_lit_inv in H1 as (-> & ->).
  apply m_seq_inv in H as (s2 & g2 & H2 & H).
  apply m_plus_cls_inv in H2 as (-> & inner & Hinner & -> & _).
  apply m_seq_inv in H as (s3 & g3 & H3 & H).
  apply m_lit_inv in H3 as (-> & ->).
  apply m_seq_inv in H as (s4 & g4 & H4 & H).
  apply m_star_cls_inv in H4 as (-> & ws & -> & Hws).
  apply m_seq_inv in H as (s5 & g5 & H5 & H).
  apply m_eos_inv in H as (-> & -> & Hend).
  apply m_grp_inv_consumed in H5 as (g6 & H5 & ->).
  apply m_plus_cls_inv in H5 as (-> & w & Hw & -> & _).
  split; [exact Hend |]. exists inner, ws, w.
  split; [exact Hinner |]. split; [exact Hws |]. split; [exact Hw |].
  split; [| rewrite consumed_app; apply group_insert_eq].
  repeat (rewrite app_assoc || rewrite app_cons || rewrite app_nil_l). reflexivity.
Qed.

(** X21: what [parse_control_header] returns: an identifier with two
    letters and one or two digits that starts the stripped line and is
    followed by a comma, and a name that is not empty: the stripped rest
    of the line, or what follows a parenthesised family name at its
    start. *)
Theorem parse_control_header_sound (text cid nm : string) :
  parse_control_header text = Some (cid, nm) ->
  short_identifier cid /\ nm <> "" /\
  exists rest, Py.strip text = cid ++ "," ++ rest /\ name_of (Py.strip rest) nm.
Proof.
  unfold parse_control_header.
  destruct (re_match header_pattern (Py.strip text)) as [m |] eqn:E; [| discriminate].
  apply re_match_Some in E as (s' & Hm).
  apply header_pattern_inv in Hm
    as (Hend & cid' & ws & w2 & Hid & Hws & Hw2 & Hnl & Es & G1 & G2).
  assert (s' = "") as ->.
  { destruct Hend as [-> | ->]; [reflexivity |]. exfalso.
    apply (not_ends_with_newline text (cid' ++ "," ++ ws ++ w2)).
    rewrite Es, !app_assoc. reflexivity. }
  rewrite app_nil_r in Es. rewrite G1, G2.
  assert (Py.strip w2 <> "") as Hne.
  { apply (strip_ends_nonblank text (cid' ++ "," ++ ws)); [exact Hw2 |].
    rewrite Es, !app_assoc. reflexivity. }
  assert (Py.strip (ws ++ w2) = Py.strip w2) as Hrest by (apply strip_app_blank; exact Hws).
  destruct (re_match family_pattern (Py.strip w2)) as [fm |] eqn:F.
  - intros [= <- <-]. apply re_match_Some in F as (s'' & Hf).
    apply family_pattern_inv in Hf as (Hend' & inner & ws' & w & Hinner & Hws' & Hw & Ef & G).
    assert (s'' = "") as ->.
    { destruct Hend' as [-> | ->]; [reflexivity |]. exfalso.
      apply (not_ends_with_newline w2 ("(" ++ inner ++ ")" ++ ws' ++ w)).
      rewrite Ef, !app_assoc. reflexivity. }
    rewrite app_nil_r in Ef. rewrite G.
    split; [exact Hid |]. split; [exact Hw |].
    exists (ws ++ w2). split; [exact Es |]. rewrite Hrest. right. eauto.
  - intros [= <- <-]. split; [exact Hid |]. split; [exact Hne |].
    exists (ws ++ w2). split; [exact Es |]. rewrite Hrest. left. reflexivity.
Qed.

Lemma parse_control_header_sound_witness :
  short_identifier "AC-1" /\ "Policy and Procedures" <> "" /\
  exists rest, Py.strip " AC-1, (Access Control) Policy and Procedures "
               = "AC-1" ++ "," ++ rest /\
               name_of (Py.strip rest) "Policy and Procedures".
Proof.
  apply (parse_control_header_sound " AC-1, (Access Control) Policy and Procedures ").
  vm_compute. reflexivity.
Defined.

Lemma short_digits num :
  digits num -> String.length num <= 2 ->
  exists d1 t, num = String d1 t /\ Py.isdigit d1 = true /\
               (t = "" \/ exists d2, t = String d2 "" /\ Py.isdigit d2 = true).
Proof.
  intros [Hne Hd] Hlen. destruct num as [| d1 [| d2 [| d3 t]]]; try congruence.
  - exists d1, "". cbn in Hd. rewrite andb_true_r in Hd. auto.
  - exists d1, (String d2 ""). cbn in Hd. rewrite andb_true_r in Hd.
    apply andb_prop in Hd as [H1 H2]. split; [reflexivity |]. split; [exact H1 |].
    right. eauto.
  - cbn in Hlen. lia.
Qed.

Lemma header_pattern_intro cid ws nm g :
  short_identifier cid -> all_chars Py.isspace ws = true ->
  nm <> "" -> all_chars no_newline nm = true ->
  exists g', matches header_pattern (cid ++ "," ++ ws ++ nm) g "" g'.
Proof.
  intros (letters & num & enh & (Hl & Hup & Hnum & He) & Hlen & ->) Hws Hnm Hnl.
  destruct (Identifiers.two_letters _ Hl Hup) as (c1 & c2 & -> & Hc1 & Hc2).
  destruct (short_digits num Hnum Hlen) as (d1 & t & -> & Hd1 & Ht).
  unfold header_pattern, upper, digit, space, dot, render_id.
  assert (forall tail g0,
             exists g1, matches (Opt (lit "(" ~> Plus (Cls Py.isdigit) ~> lit ")"))
                                (enhancement_suffix enh ++ tail) g0 tail g1) as Henh.
  { intros tail g0. destruct enh as [e |]; cbn [enhancement_suffix].
    - destruct (He e eq_refl) as [Hen Hed]. eexists.
      apply m_alt_l. repeat (rewrite app_assoc || rewrite app_cons || rewrite app_nil_l).
      econstructor; [apply m_lit_intro |].
      econstructor; [apply m_plus_cls_intro; assumption | apply m_lit_intro].
    - eexists. rewrite app_nil_l. apply m_alt_r. constructor. }
  assert (exists g1,
             matches (Cls Py.isupper_az ~> Cls Py.isupper_az ~> lit "-" ~> Cls Py.isdigit
                      ~> Opt (Cls Py.isdigit)
                      ~> Opt (lit "(" ~> Plus (Cls Py.isdigit) ~> lit ")"))
                     ((String c1 (String c2 "") ++ "-" ++ String d1 t ++ enhancement_suffix enh)
                      ++ "," ++ ws ++ nm) g ("," ++ ws ++ nm) g1) as [g1 Hid].
  { destruct (Henh ("," ++ ws ++ nm) g) as [g1 H1]. exists g1.
    repeat (rewrite app_assoc || rewrite app_cons || rewrite app_nil_l).
    econstructor; [constructor; exact Hc1 |].
    econstructor; [constructor; exact Hc2 |].
    econstructor; [apply m_lit_intro |].
    econstructor; [constructor; exact Hd1 |].
    destruct Ht as [-> | (d2 & -> & Hd2)].
    - rewrite app_nil_l. econstructor; [apply m_alt_r; constructor |].
      rewrite app_cons, app_nil_l in H1. exact H1.
    - rewrite app_cons, app_nil_l.
      econstructor; [apply m_alt_l; constructor; exact Hd2 |].
      rewrite app_cons, app_nil_l in H1. exact H1. }
  eexists.
  econstructor; [apply m_grp_intro; exact Hid |].
  rewrite app_cons, app_nil_l.
  econstructor; [apply m_lit_intro |].
  econstructor; [apply m_star_cls_intro; exact Hws |].
  econstructor; [| constructor].
  rewrite <- (app_nil_r nm) at 1. apply m_grp_intro. rewrite app_nil_r.
  rewrite <- (app_nil_r nm) at 1. apply m_plus_cls_intro; assumption.
Qed.

Lemma short_identifier_no_comma cid : short_identifier cid -> all_chars no_comma cid = true.
Proof.
  intros (letters & num & enh & (_ & Hup & [_ Hd] & He) & _ & ->).
  assert (forall w, all_chars Py.isupper_az w = true -> all_chars no_comma w = true) as Hu.
  { induction w as [| c w IH]; [reflexivity |]. cbn [all_chars]. intros H.
    apply andb_prop in H as [Hc H]. rewrite (IH H), andb_true_r.
    destruct c as [[] [] [] [] [] [] [] []]; vm_compute in Hc |- *; congruence. }
  assert (forall w, all_chars Py.isdigit w = true -> all_chars no_comma w = true) as Hdg.
  { induction w as [| c w IH]; [reflexivity |]. cbn [all_chars]. intros H.
    apply andb_prop in H as [Hc H]. rewrite (IH H), andb_true_r.
    destruct c as [[] [] [] [] [] [] [] []]; vm_compute in Hc |- *; congruence. }
  unfold render_id. rewrite !all_chars_app, (Hu _ Hup), (Hdg _ Hd). cbn [andb].
  change (all_chars no_comma "-") with true. cbn [andb].
  destruct enh as [e |]; [| reflexivity]. cbn [enhancement_suffix].
  destruct (He e eq_refl) as [_ Hde].
  rewrite !all_chars_app, (Hdg _ Hde). reflexivity.
Qed.

(** X22: a header line made of an identifier, a comma, blanks and a
    one-line stripped name that does not start with a parenthesis is
    parsed back into the identifier and the name. *)
Theorem parse_control_header_round_trip (cid ws nm : string) :
  short_identifier cid -> all_chars Py.isspace ws = true ->
  clean nm -> all_chars no_newline nm = true ->
  (forall t, nm <> String "(" t) ->
  parse_control_header (cid ++ "," ++ ws ++ nm) = Some (cid, nm).
Proof.
  intros Hid Hws [Hnm Hclean] Hnl Hparen.
  set (text := cid ++ "," ++ ws ++ nm).
  assert (Py.strip text = text) as Hstrip.
  { pose proof Hid as (letters & num & enh & Hparts & _ & Ecid).
    assert (identifier 2 2 cid) as Hident by (exists letters, num, enh; split; assumption).
    destruct (strip_identifier 2 2 cid ltac:(lia) Hident) as [Hs Hne].
    apply strip_fix in Hs as [Hl _]. apply strip_fix in Hclean as [_ Hr].
    unfold Py.strip, text.
    rewrite lstrip_app_keep by (rewrite Hl; exact Hne). rewrite Hl.
    rewrite <- !app_assoc. rewrite rstrip_app_keep by (rewrite Hr; exact Hnm).
    rewrite Hr. reflexivity. }
  unfold parse_control_header. rewrite Hstrip.
  destruct (header_pattern_intro cid ws nm ∅ Hid Hws Hnm Hnl) as [g' Hm].
  apply re_match_is_Some in Hm as [m Em]. fold text in Em. rewrite Em.
  apply re_match_Some in Em as (s' & Hm).
  apply header_pattern_inv in Hm
    as (Hend & cid' & ws' & w2 & Hid' & Hws' & Hw2 & _ & Es & G1 & G2).
  assert (s' = "") as ->.
  { destruct Hend as [-> | ->]; [reflexivity |]. exfalso.
    apply (not_ends_with_newline text (cid' ++ "," ++ ws' ++ w2)).
    rewrite Hstrip, Es, !app_assoc. reflexivity. }
  rewrite app_nil_r in Es.
  destruct (span_unique no_comma cid cid' ("," ++ ws ++ nm) ("," ++ ws' ++ w2))
    as [<- Erest].
  { apply short_identifier_no_comma, Hid. }
  { apply short_identifier_no_comma, Hid'. }
  { reflexivity. }
  { reflexivity. }
  { exact Es. }
  rewrite !app_cons, !app_nil_l in Erest. injection Erest as Erest.
  rewrite G1, G2.
  assert (Py.strip w2 = nm) as ->.
  { rewrite <- (strip_app_blank ws' w2 Hws'), <- Erest, (strip_app_blank ws nm Hws).
    exact Hclean. }
  destruct (re_match family_pattern nm) as [fm |] eqn:F; [| reflexivity].
  exfalso. apply re_match_Some in F as (s'' & Hf).
  apply family_pattern_inv in Hf as (_ & inner & ws2 & w & _ & _ & _ & Ef & _).
  rewrite app_cons, app_nil_l in Ef. exact (Hparen _ Ef).
Qed.

Lemma parse_control_header_round_trip_witness :
  parse_control_header ("AC-3(4)" ++ "," ++ " " ++ "Access Enforcement | Discretionary")
  = Some ("AC-3(4)", "Access Enforcement | Discretionary").
Proof.
  apply (parse_control_header_round_trip "AC-3(4)" " " "Access Enforcement | Discretionary").
  - exists "AC", "3", (Some "4"). split; [| split; [cbn; lia | reflexivity]].
    split; [cbn; lia |]. split; [reflexivity |].
    split; [split; [discriminate | reflexivity] |].
    intros e [= <-]. split; [discriminate | reflexivity].
  - reflexivity.
  - split; [discriminate | vm_compute; reflexivity].
  - vm_compute. reflexivity.
  - intros t. discriminate.
Defined.

Lemma prefix_nil s : String.prefix "" s = true.
Proof. destruct s; reflexivity. Qed.

Lemma index_colon label : forall rest,
  has_char ":" label = false ->
  String.index 0 ":" (label ++ ":" ++ rest) = Some (String.length label).
Proof.
  induction label as [| c l IH]; intros rest Hc.
  - rewrite app_nil_l, app_cons, app_nil_l. cbn [String.index String.prefix].
    destruct (ascii_dec ":" ":"); [| congruence]. rewrite prefix_nil. reflexivity.
  - cbn [has_char] in Hc. apply orb_false_iff in Hc as [Hc Hl].
    rewrite app_cons. cbn [String.index String.prefix String.length].
    destruct (ascii_dec ":" c) as [<- | _]; [rewrite Ascii.eqb_refl in Hc; discriminate |].
    rewrite (IH rest Hl). reflexivity.
Qed.

Lemma startswith_split line p :
  Py.startswith line p = true -> line = p ++ Py.drop (String.length p) line.
Proof. apply prefix_split. Qed.

Lemma field_header_sound line f c :
  field_header line = Some (f, c) ->
  exists label rest, In (label, f) field_labels /\ line = label ++ rest /\ c = Py.strip rest.
Proof.
  unfold field_header, field_labels.
  destruct (Py.startswith line "Justification to Select:") eqn:E1.
  { intros [= <- <-]. apply startswith_split in E1. eexists _, _.
    split; [left; reflexivity |]. split; [exact E1 | reflexivity]. }
  destruct (Py.startswith line "Parameter Value:") eqn:E2.
  { intros [= <- <-]. apply startswith_split in E2. eexists _, _.
    split; [right; left; reflexivity |]. split; [exact E2 | reflexivity]. }
  destruct (Py.startswith line "Guidance:") eqn:E3.
  { intros [= <- <-]. apply startswith_split in E3. eexists _, _.
    split; [do 2 right; left; reflexivity |]. split; [exact E3 | reflexivity]. }
  destruct (Py.startswith line "Reference(s):") eqn:E4; cbn [orb].
  { intros [= <- <-]. apply startswith_split in E4.
    exists "Reference(s):", (Py.drop (String.length "Reference(s):") line).
    split; [do 3 right; left; reflexivity |]. split; [exact E4 |].
    rewrite E4 at 1. change "Reference(s):" with ("Reference(s)" ++ ":") at 1.
    rewrite app_assoc, index_colon by reflexivity. reflexivity. }
  destruct (Py.startswith line "Reference:") eqn:E5; [| discriminate].
  intros [= <- <-]. apply startswith_split in E5.
  exists "Reference:", (Py.drop (String.length "Reference:") line).
  split; [do 4 right; left; reflexivity |]. split; [exact E5 |].
  rewrite E5 at 1. change "Reference:" with ("Reference" ++ ":") at 1.
  rewrite app_assoc, index_colon by reflexivity. reflexivity.
Qed.

(** X29: a line opens a field exactly when it starts with one of the five
    field headers; the field is the one of the header and the content the
    stripped rest of the line behind the header's colon. *)
Theorem field_header_spec (line : string) (f : field) (c : string) :
  field_header line = Some (f, c) <->
  exists label rest, In (label, f) field_labels /\ line = label ++ rest /\ c = Py.strip rest.
Proof.
  split; [apply field_header_sound |].
  intros (label & rest & Hin & -> & ->).
  destruct (field_header (label ++ rest)) as [[f' c'] |] eqn:E.
  - apply field_header_sound in E as (label' & rest' & Hin' & El & ->).
    unfold field_labels in Hin, Hin'. cbn [In] in Hin, Hin'.
    repeat (destruct Hin as [[= <- <-] | Hin]; [| try contradiction]);
      repeat (destruct Hin' as [[= <- <-] | Hin']; [| try contradiction]);
      rewrite ?app_cons, ?app_nil_l in El; try discriminate El;
      repeat (injection El as El); subst; reflexivity.
  - exfalso. unfold field_header, field_labels in *. cbn [In] in Hin.
    unfold Py.startswith in E.
    repeat (destruct Hin as [[= <- <-] | Hin]; [| try contradiction]);
      rewrite ?prefix_app in E; cbn [orb] in E; try discriminate E;
      repeat match type of E with
             | context [String.prefix ?p ?s] =>
                 let H := fresh in
                 assert (String.prefix p s = false) as H by (vm_compute; reflexivity);
                 rewrite H in E; clear H
             end;
      rewrite ?prefix_app in E; cbn [orb] in E; discriminate E.
Qed.

End Classified2022Facts.

(* ===================================================================== *)
(** * The sorter: accepted identifiers and the fallback key *)
(* ===================================================================== *)

Module SorterFacts.

Import Re NistSorter Vocabulary SorterVocabulary.
Import StrFacts ReFacts IdFacts StripFacts Sorting.

Lemma sorter_id_pattern_intro_tail letters num enh g tail :
  id_parts 2 3 letters num enh -> (tail = "" \/ tail = String "010" "") ->
  exists g', matches control_id_pattern (render_id letters num enh ++ tail) g tail g'.
Proof.
  intros (Hl & Hu & [Hn Hd] & He) Htail.
  assert (forall g0, matches Eos tail g0 tail g0) as Heos
    by (intros g0; destruct Htail as [-> | ->]; constructor).
  unfold control_id_pattern, render_id, digit.
  destruct enh as [e |]; cbn [enhancement_suffix].
  - destruct (He e eq_refl) as [Hen Hed]. eexists.
    repeat (rewrite app_assoc || rewrite app_cons || rewrite app_nil_l).
    econstructor; [apply m_grp_intro; apply letters_2_3_intro; assumption |].
    econstructor; [apply m_lit_intro |].
    econstructor; [apply m_grp_intro; apply m_plus_cls_intro; assumption |].
    econstructor; [| apply Heos].
    apply m_alt_l.
    econstructor; [apply m_lit_intro |].
    econstructor; [apply m_grp_intro; apply m_plus_cls_intro; assumption |].
    apply m_lit_intro.
  - eexists.
    repeat (rewrite app_assoc || rewrite app_cons || rewrite app_nil_l).
    econstructor; [apply m_grp_intro; apply letters_2_3_intro; assumption |].
    econstructor; [apply m_lit_intro |].
    econstructor; [apply m_grp_intro; apply m_plus_cls_intro; assumption |].
    econstructor; [apply m_alt_r; constructor | apply Heos].
Qed.

(** The parts of an identifier are determined by its text, with or
    without a final newline. *)
Lemma render_id_tail_unique l1 n1 e1 t1 l2 n2 e2 t2 :
  id_parts 2 3 l1 n1 e1 -> id_parts 2 3 l2 n2 e2 ->
  (t1 = "" \/ t1 = String "010" "") -> (t2 = "" \/ t2 = String "010" "") ->
  render_id l1 n1 e1 ++ t1 = render_id l2 n2 e2 ++ t2 ->
  l1 = l2 /\ n1 = n2 /\ e1 = e2.
Proof.
  intros Hp1 Hp2 Ht1 Ht2 E.
  assert (render_id l1 n1 e1 = render_id l2 n2 e2
          \/ render_id l1 n1 e1 = render_id l2 n2 e2 ++ String "010" ""
          \/ render_id l2 n2 e2 = render_id l1 n1 e1 ++ String "010" "")
    as Hcases.
  { destruct Ht1 as [-> | ->], Ht2 as [-> | ->]; rewrite ?app_nil_r in E.
    - left. exact E.
    - right. left. exact E.
    - right. right. symmetry. exact E.
    - left. apply (LinePipeline.app_inv_last_char _ _ "010"%char). exact E. }
  destruct Hcases as [F | [F | F]].
  - destruct (render_id_unique l1 n1 e1 l2 n2 e2 "" Hp1 Hp2 (or_introl eq_refl))
      as (-> & -> & -> & _); [rewrite app_nil_r; exact F | auto].
  - destruct (render_id_unique l1 n1 e1 l2 n2 e2 (String "010" "")
                Hp1 Hp2 (or_intror eq_refl) F) as (_ & _ & _ & G). discriminate G.
  - destruct (render_id_unique l2 n2 e2 l1 n1 e1 (String "010" "")
                Hp2 Hp1 (or_intror eq_refl) F) as (_ & _ & _ & G). discriminate G.
Qed.

(** What [parse_control_id] computes on an identifier of the grammar,
    with or without a final newline. *)
Lemma parse_control_id_tail letters num enh tail :
  id_parts 2 3 letters num enh -> (tail = "" \/ tail = String "010" "") ->
  parse_control_id (render_id letters num enh ++ tail)
  = match Py.int num, (match enh with Some e => Py.int e | None => Some 0%N end) with
    | Some b, Some e => Some (letters, b, e)
    | _, _ => None
    end.
Proof.
  intros Hp Htail.
  destruct (sorter_id_pattern_intro_tail letters num enh ∅ tail Hp Htail) as (g' & Hm).
  apply re_match_is_Some in Hm as [m Em].
  unfold parse_control_id. rewrite Em.
  apply re_match_Some in Em as (s' & Hm).
  apply sorter_id_pattern_inv in Hm
    as (Hend & l2 & n2 & e2 & Hp2 & E & G1 & G2 & G3).
  destruct (render_id_tail_unique _ _ _ _ _ _ _ _ Hp Hp2 Htail Hend E) as (<- & <- & <-).
  apply (key_of_groups m letters num enh Hp G1 G2).
  rewrite G3. destruct enh; [reflexivity | apply lookup_empty].
Qed.

(** X23: [parse_control_id] returns a key exactly for the identifiers
    with two or three capital letters whose digit groups have at most 4300
    digits, and for the same followed by one newline; the key is the
    letters, the number of the digits and the number of the enhancement
    digits, or 0.  On every other string it raises [ValueError]. *)
Theorem parse_control_id_spec (s : string) (k : key) :
  parse_control_id s = Some k <->
  exists letters num enh b e,
    id_parts 2 3 letters num enh /\ convertible_parts num enh /\
    (s = render_id letters num enh \/ s = render_id letters num enh ++ String "010" "") /\
    numeral num b /\ enhancement_numeral enh e /\
    k = (letters, b, e).
Proof.
  split.
  - intros H.
    assert (exists letters num enh tail,
               id_parts 2 3 letters num enh /\ (tail = "" \/ tail = String "010" "")
               /\ s = render_id letters num enh ++ tail)
      as (letters & num & enh & tail & Hp & Htail & ->).
    { unfold parse_control_id in H.
      destruct (re_match control_id_pattern s) as [m |] eqn:E; [| discriminate H].
      apply re_match_Some in E as (s' & Hm).
      apply sorter_id_pattern_inv in Hm as (Hend & letters & num & enh & Hp & Es & _).
      exists letters, num, enh, s'. auto. }
    rewrite (parse_control_id_tail _ _ _ _ Hp Htail) in H.
    pose proof Hp as (_ & _ & [_ Hd] & He).
    destruct (Py.int num) as [b |] eqn:Eb; [| discriminate H].
    destruct (digits_numeral num Hd) as [b' Hb].
    pose proof (int_Some _ _ Eb) as Hcn.
    rewrite (int_numeral _ _ Hcn Hb) in Eb. injection Eb as ->.
    destruct enh as [x |].
    + destruct (Py.int x) as [e |] eqn:Ee; [| discriminate H]. injection H as <-.
      destruct (He x eq_refl) as [_ Hdx].
      destruct (digits_numeral x Hdx) as [e' Hx].
      pose proof (int_Some _ _ Ee) as Hcx.
      rewrite (int_numeral _ _ Hcx Hx) in Ee. injection Ee as ->.
      exists letters, num, (Some x), b, e.
      split; [exact Hp |]. split; [split; [exact Hcn | intros ? [= <-]; exact Hcx] |].
      split; [destruct Htail as [-> | ->]; [left; apply app_nil_r | right; reflexivity] |].
      auto.
    + injection H as <-. exists letters, num, (@None string), b, 0%N.
      split; [exact Hp |]. split; [split; [exact Hcn | intros ? [=]] |].
      split; [destruct Htail as [-> | ->]; [left; apply app_nil_r | right; reflexivity] |].
      split; [exact Hb |]. split; reflexivity.
  - intros (letters & num & enh & b & e & Hp & [Hcn Hce] & Hs & Hb & He & ->).
    assert (exists tail, (tail = "" \/ tail = String "010" "")
                         /\ s = render_id letters num enh ++ tail) as (tail & Htail & ->).
    { destruct Hs as [-> | ->]; [exists ""; rewrite app_nil_r | eexists]; eauto. }
    rewrite (parse_control_id_tail _ _ _ _ Hp Htail).
    rewrite (int_numeral num b Hcn Hb).
    destruct enh as [x |]; cbn [enhancement_numeral] in He.
    + rewrite (int_numeral x e (Hce x eq_refl) He). reflexivity.
    + subst e. reflexivity.
Qed.

Lemma uint_digits d : all_chars Py.isdigit (NilEmpty.string_of_uint d) = true.
Proof. induction d; cbn [NilEmpty.string_of_uint all_chars]; [reflexivity | ..]; exact IHd. Qed.

(** The decimal numeral of a number is a run of digits. *)
Lemma decimal_digits n : digits (decimal n).
Proof.
  unfold decimal, NilZero.string_of_uint.
  destruct (N.to_uint n) eqn:E;
    try (rewrite <- E; split; [rewrite E; discriminate | apply uint_digits]).
  split; [discriminate | reflexivity].
Qed.

(** X31: the key of the identifier written from a family of two or three
    capital letters, a base number and an enhancement number, each
    number in decimal with at most 4300 digits, is this family and these
    numbers; without the enhancement the third component is 0. *)
Theorem parse_control_id_decimal (letters : string) (b e : N) :
  2 <= String.length letters <= 3 -> all_chars Py.isupper_az letters = true ->
  convertible (decimal b) -> convertible (decimal e) ->
  parse_control_id (letters ++ "-" ++ decimal b) = Some (letters, b, 0%N) /\
  parse_control_id (letters ++ "-" ++ decimal b ++ "(" ++ decimal e ++ ")")
  = Some (letters, b, e).
Proof.
  intros Hl Hu Hb He. split.
  - rewrite <- (app_nil_r (decimal b)).
    apply (parse_control_id_render letters (decimal b) None b 0%N).
    + split; [exact Hl |]. split; [exact Hu |].
      split; [apply decimal_digits | intros x [=]].
    + split; [exact Hb | intros x [=]].
    + apply numeral_decimal.
    + reflexivity.
  - apply (parse_control_id_render letters (decimal b) (Some (decimal e)) b e).
    + split; [exact Hl |]. split; [exact Hu |].
      split; [apply decimal_digits | intros x [= <-]; apply decimal_digits].
    + split; [exact Hb | intros x [= <-]; exact He].
    + apply numeral_decimal.
    + apply numeral_decimal.
Qed.

Lemma parse_control_id_decimal_witness :
  parse_control_id "AC-14" = Some ("AC", 14%N, 0%N) /\
  parse_control_id "AC-14(3)" = Some ("AC", 14%N, 3%N).
Proof.
  apply (parse_control_id_decimal "AC" 14 3);
    [cbn; lia | reflexivity | vm_compute; discriminate | vm_compute; discriminate].
Defined.

Lemma string_compare_refl f : String.compare f f = Eq.
Proof.
  pose proof (String.compare_antisym f f) as H.
  destruct (String.compare f f); [reflexivity | discriminate H | discriminate H].
Qed.

Lemma key_ltb_irrefl x : key_ltb x x = false.
Proof.
  destruct x as [[f b] e]. unfold key_ltb. rewrite string_compare_refl.
  rewrite N.compare_refl. apply N.ltb_irrefl.
Qed.

Lemma key_le_not_ltb x y : key_le x y -> key_ltb y x = false.
Proof.
  destruct x as [[f1 b1] e1], y as [[f2 b2] e2]. unfold key_le, key_ltb. cbn [fst snd].
  intros [H | (-> & H)].
  - rewrite String.compare_antisym, H. reflexivity.
  - rewrite string_compare_refl.
    destruct H as [H | [-> H]].
    + destruct (N.compare_spec b2 b1) as [E | E | E]; [lia | lia | reflexivity].
    + rewrite N.compare_refl. apply N.ltb_ge. exact H.
Qed.

Lemma upper_le_Z c :
  Py.isupper_az c = true -> c = "Z"%char \/ Ascii.compare c "Z" = Lt.
Proof. destruct c as [[] [] [] [] [] [] [] []]; vm_compute; intros; auto; discriminate. Qed.

Lemma family_below_ZZZ letters :
  2 <= String.length letters <= 3 -> all_chars Py.isupper_az letters = true ->
  letters <> "ZZZ" -> String.compare letters "ZZZ" = Lt.
Proof.
  destruct letters as [| c1 [| c2 [| c3 [| c4 l]]]]; cbn [String.length all_chars];
    intros Hl Hu Hne; try lia.
  - apply andb_prop in Hu as [H1 Hu]. apply andb_prop in Hu as [H2 _].
    cbn [String.compare].
    destruct (upper_le_Z c1 H1) as [-> | ->]; [| reflexivity].
    destruct (upper_le_Z c2 H2) as [-> | ->]; reflexivity.
  - apply andb_prop in Hu as [H1 Hu]. apply andb_prop in Hu as [H2 Hu].
    apply andb_prop in Hu as [H3 _].
    cbn [String.compare].
    destruct (upper_le_Z c1 H1) as [-> | ->]; [| reflexivity].
    destruct (upper_le_Z c2 H2) as [-> | ->]; [| reflexivity].
    destruct (upper_le_Z c3 H3) as [-> | ->]; [congruence | reflexivity].
Qed.

Lemma sorted_before (a b : control) (l : list control) :
  StronglySorted by_key l -> In a l -> In b l ->
  ~ by_key b a -> before_in a b l.
Proof.
  intros Hs Ha Hb Hnot.
  induction Hs as [| x l Hs IH Hall]; [destruct Ha |].
  destruct Ha as [<- | Ha].
  - destruct Hb as [<- | Hb].
    + exfalso. apply Hnot. apply key_ltb_false, key_ltb_irrefl.
    + apply in_split in Hb as (l2 & l3 & ->). exists [], l2, l3. reflexivity.
  - destruct Hb as [<- | Hb].
    + exfalso. apply Hnot. rewrite List.Forall_forall in Hall. apply Hall, Ha.
    + destruct (IH Ha Hb) as (l1 & l2 & l3 & ->). exists (x :: l1), l2, l3. reflexivity.
Qed.

(** X26: a control on whose identifier [parse_control_id] raises has the
    fallback key, and in the sorted catalogue it stands behind every
    control whose identifier is valid, has digit groups of at most 4300
    digits and a family other than ZZZ. *)
Theorem fallback_sorted_last (l : list control) (a b : control)
    (letters num : string) (enh : option string) :
  In a l -> In b l ->
  id_parts 2 3 letters num enh -> convertible_parts num enh -> letters <> "ZZZ" ->
  id a = Some (render_id letters num enh) ->
  rejected b ->
  sort_key b = fallback_key /\ before_in a b (sort_controls l).
Proof.
  intros Ha Hb Hp Hc Hne Hid Hrej.
  assert (Hkb : sort_key b = fallback_key) by (unfold sort_key; rewrite Hrej; reflexivity).
  split; [exact Hkb |].
  apply sorted_before.
  - apply sort_controls_sorted.
  - apply (Permutation_in _ (sort_controls_perm l)), Ha.
  - apply (Permutation_in _ (sort_controls_perm l)), Hb.
  - unfold by_key. rewrite Hkb.
    destruct (sort_key_natural a letters num enh Hp Hc Hid)
      as (l2 & n2 & e2 & x & y & Hp2 & Hid2 & _ & _ & ->).
    rewrite Hid in Hid2. injection Hid2 as E.
    rewrite <- (app_nil_r (render_id l2 n2 e2)) in E.
    destruct (render_id_unique _ _ _ _ _ _ "" Hp Hp2 (or_introl eq_refl) E)
      as (<- & _ & _ & _).
    intros Hle. apply key_le_not_ltb in Hle.
    unfold key_ltb, fallback_key in Hle. destruct Hp as (Hl & Hu & _).
    rewrite (family_below_ZZZ letters Hl Hu Hne) in Hle. discriminate Hle.
Qed.

Lemma fallback_sorted_last_witness :
  before_in {| id := Some "SI-4"; other_fields := [("note", "second")] |}
            {| id := Some long_identifier; other_fields := [] |}
            (sort_controls mixed_catalog) /\
  before_in {| id := Some "SI-4"; other_fields := [("note", "second")] |}
            {| id := Some "ac-2"; other_fields := [("note", "first")] |}
            (sort_controls mixed_catalog).
Proof.
  assert (Hp : id_parts 2 3 "SI" "4" None).
  { split; [cbn; lia |]. split; [reflexivity |].
    split; [split; [discriminate | reflexivity] | intros e [=]]. }
  assert (Hc : convertible_parts "4" None).
  { split; [vm_compute; discriminate | intros e [=]]. }
  split.
  - apply (fallback_sorted_last mixed_catalog _ _ "SI" "4" None);
      [cbn; tauto | cbn; tauto | exact Hp | exact Hc | discriminate | reflexivity |].
    vm_compute. reflexivity.
  - apply (fallback_sorted_last mixed_catalog _ _ "SI" "4" None);
      [cbn; tauto | cbn; tauto | exact Hp | exact Hc | discriminate | reflexivity |].
    vm_compute. reflexivity.
Defined.

End SorterFacts.

(* ===================================================================== *)
(** * The selection extractor: continuations *)
(* ===================================================================== *)

Module SelectionFacts.

Import SelectionExtractor Vocabulary SelectionVocabulary.
Import StrFacts.

Abbreviation step := (fun merged_controls c =>
               if is_continuation c then merge_into_last merged_controls c
               else (merged_controls ++ [c])%list).

Lemma merge_into_last_app l x c :
  merge_into_last (l ++ [x]) c
  = (l ++ [ {| id := id x; name := name x ++ " " ++ name c;
               selected := if selected c then true else selected x |} ])%list.
Proof.
  induction l as [| y t IH]; [reflexivity |].
  cbn [app merge_into_last]. rewrite IH.
  destruct (t ++ [x])%list eqn:E; [destruct t; discriminate E | reflexivity].
Qed.

Lemma fold_continuations conts :
  Forall (fun c => is_continuation c = true) conts ->
  forall l x,
    fold_left step conts (l ++ [x])%list = (l ++ [joined x conts])%list.
Proof.
  induction 1 as [| c t Hc _ IH]; intros l x; cbn [fold_left].
  - unfold joined. cbn. rewrite orb_false_r. destruct x; reflexivity.
  - rewrite Hc, merge_into_last_app, IH. unfold joined. cbn [id name selected fold_left existsb].
    do 3 f_equal. destruct (selected c), (selected x); reflexivity.
Qed.

Lemma fold_leading conts :
  Forall (fun c => is_continuation c = true) conts ->
  fold_left step conts [] = [].
Proof.
  induction 1 as [| c t Hc _ IH]; [reflexivity |].
  cbn [fold_left]. rewrite Hc. exact IH.
Qed.

Lemma fold_keeps_prefix rest :
  forall acc x,
    fold_left step rest (acc ++ [x])%list = (acc ++ fold_left step rest [x])%list.
Proof.
  induction rest as [| d t IH]; intros acc x; [reflexivity |].
  cbn [fold_left]. destruct (is_continuation d).
  - rewrite merge_into_last_app.
    change [x] with ([] ++ [x])%list. rewrite merge_into_last_app. cbn [app].
    apply IH.
  - rewrite (IH (acc ++ [x])%list d), (IH [x] d).
    rewrite <- List.app_assoc. reflexivity.
Qed.

(** X27: continuations at the head of the list are dropped; a regular
    control followed by continuations comes out once, its name joined
    with theirs by single spaces and selected when it or one of them is;
    the rest of the list is merged on its own. *)
Theorem merge_continuation_controls_groups (conts rest : list control) :
  Forall (fun c => is_continuation c = true) conts -> starts_regular rest ->
  merge_continuation_controls (conts ++ rest) = merge_continuation_controls rest /\
  forall c, is_continuation c = false ->
    merge_continuation_controls (c :: conts ++ rest)
    = joined c conts :: merge_continuation_controls rest.
Proof.
  intros Hconts Hrest. unfold merge_continuation_controls. split.
  - rewrite fold_left_app, (fold_leading conts Hconts). reflexivity.
  - intros c Hc. cbn [fold_left]. rewrite Hc. cbn [app].
    rewrite fold_left_app.
    change [c] with ([] ++ [c])%list.
    rewrite (fold_continuations conts Hconts [] c). cbn [app].
    destruct rest as [| d t]; [reflexivity |].
    cbn in Hrest. cbn [fold_left]. rewrite Hrest. cbn [app].
    apply (fold_keeps_prefix t [joined c conts] d).
Qed.

Lemma merge_continuation_controls_groups_witness :
  merge_continuation_controls sample_controls
  = [ {| id := "AC-2"; name := "Account Management"; selected := true |};
      {| id := "AC-3"; name := "Access Enforcement"; selected := false |} ].
Proof.
  destruct (merge_continuation_controls_groups
              [ {| id := "CONTINUATION"; name := "stray"; selected := true |} ]
              (skipn 1 sample_controls)) as [H _].
  - repeat constructor.
  - reflexivity.
  - etransitivity; [exact H |]. vm_compute. reflexivity.
Defined.

End SelectionFacts.

(* ===================================================================== *)
(** * The selection extractor: lines of markers *)
(* ===================================================================== *)

Module MarkerFacts.

Import Re SelectionMarkers Vocabulary.
Import StrFacts ReFacts IdFacts StripFacts.

(** X30: a line is one of markers only exactly when each of its characters
    is X, + or whitespace; the empty line is one. *)
Theorem is_only_markers_spec (text : string) :
  is_only_markers text = true <-> all_chars marker_char text = true.
Proof.
  unfold is_only_markers, only_markers_pattern. split.
  - destruct (re_match _ text) as [m |] eqn:E; [| discriminate]. intros _.
    apply re_match_Some in E as (s' & H).
    apply m_seq_inv in H as (s1 & g1 & H1 & H).
    apply m_star_cls_inv in H1 as (-> & w & -> & Hw).
    apply m_eos_inv in H as (_ & _ & [-> | ->]).
    + rewrite app_nil_r. exact Hw.
    + rewrite all_chars_app, Hw. reflexivity.
  - intros H.
    assert (matches (Star (Cls marker_char) ~> Eos) text ∅ "" ∅) as Hm.
    { econstructor; [| constructor].
      rewrite <- (app_nil_r text) at 1. apply m_star_cls_intro. exact H. }
    apply re_match_is_Some in Hm as [m ->]. reflexivity.
Qed.

End MarkerFacts.

(* ===================================================================== *)
(** * The merger *)
(* ===================================================================== *)

Module MergerFacts.

Import CnssiMerger Vocabulary MergerVocabulary.







End MergerFacts.
